(** * VWAP scalper: the stateful decision engine

    A shallow embedding of the decision core of the scalper bot: the VWAP
    window (vwap.ts), the indicator library (utils/indicators.ts), the risk
    ledger (risk-manager.ts), the strategy state machine (strategy.ts) and
    the replay driver (backtest.ts).

    Modelling conventions.
    - A JavaScript [number] that the code only adds, subtracts, multiplies
      and compares is an exact rational ([Q]): rounding, overflow and the
      sign of zero are outside the model.  A quotient whose divisor may be
      zero is an [xnum], which keeps the IEEE outcomes [Infinity],
      [-Infinity] and [NaN] apart.
    - A time value is an integer number of milliseconds since the epoch
      ([Z]), as [Date.prototype.getTime] returns it.
    - [Map<string, T>] is [gmap string T].
    - [Math.random()], [Date.now()] and the log transports are effects of
      the monad [M]: two oracles of the host and an output trace.
      [logger.debug] lines are below the configured level and leave no
      output; the random draws that guard them are kept. *)

From Stdlib Require Import ZArith QArith Qround Qminmax Qabs List Bool Lia Lqa.
From stdpp Require Import base option list gmap strings.
Import ListNotations.

Local Open Scope Q_scope.

(** ** JavaScript numbers *)

Definition Qltb (x y : Q) : bool := negb (Qle_bool y x).

(** [x || d] on an optional number: [undefined] and [0] are falsy. *)
Definition num_or (x : option Q) (d : Q) : Q :=
  match x with
  | Some v => if Qeq_bool v 0 then d else v
  | None => d
  end.

(** The result of a division [a / b] of two finite numbers. *)
Inductive xnum : Type :=
  | XFin (q : Q)
  | XPosInf
  | XNegInf
  | XNaN.

Definition jsdiv (a b : Q) : xnum :=
  if Qeq_bool b 0 then
    if Qeq_bool a 0 then XNaN
    else if Qltb 0 a then XPosInf else XNegInf
  else XFin (a / b).

(** Truthiness of a number: [0] and [NaN] are falsy. *)
Definition xtruthy (x : xnum) : bool :=
  match x with
  | XFin q => negb (Qeq_bool q 0)
  | XPosInf | XNegInf => true
  | XNaN => false
  end.

(** [x < y], [x > y] for a quotient [x] and a finite [y]: every comparison
    with [NaN] is false. *)
Definition xlt_q (x : xnum) (y : Q) : bool :=
  match x with
  | XFin q => Qltb q y
  | XNegInf => true
  | XPosInf | XNaN => false
  end.

Definition xgt_q (x : xnum) (y : Q) : bool :=
  match x with
  | XFin q => Qltb y q
  | XPosInf => true
  | XNegInf | XNaN => false
  end.

(** [x * c] for a finite, strictly positive constant [c]. *)
Definition xscale (x : xnum) (c : Q) : xnum :=
  match x with
  | XFin q => XFin (q * c)
  | other => other
  end.

(** [a - x] for a finite [a]. *)
Definition xsub_from (a : Q) (x : xnum) : xnum :=
  match x with
  | XFin q => XFin (a - q)
  | XPosInf => XNegInf
  | XNegInf => XPosInf
  | XNaN => XNaN
  end.

(** ** Dates

    [getUTCHours] and [getUTCMinutes] of [new Date(t)]. *)
Definition msPerDay : Z := 86400000.
Definition msPerHour : Z := 3600000.
Definition msPerMinute : Z := 60000.

Definition getUTCHours (t : Z) : Z := ((t mod msPerDay) / msPerHour)%Z.
Definition getUTCMinutes (t : Z) : Z := ((t mod msPerHour) / msPerMinute)%Z.

(** Day of the month of the civil date that lies [days] days after
    1970-01-01 (proleptic Gregorian calendar). *)
Definition dayOfMonth (days : Z) : Z :=
  (let z := days + 719468 in
   let era := z / 146097 in
   let doe := z - era * 146097 in
   let yoe := (doe - doe / 1460 + doe / 36524 - doe / 146096) / 365 in
   let doy := doe - (365 * yoe + yoe / 4 - yoe / 100) in
   let mp := (5 * doy + 2) / 153 in
   doy - (153 * mp + 2) / 5 + 1)%Z.

(** Local time is UTC shifted by a fixed offset [tz] (milliseconds): the
    host's zone is taken to have no daylight-saving change.  [getDate] is
    the local day of the month; [nextLocalMidnight] is what
    [d.setDate(d.getDate() + 1); d.setHours(0, 0, 0, 0); d.getTime()]
    leaves. *)
Definition getDate (tz t : Z) : Z := dayOfMonth ((t + tz) / msPerDay).

Definition nextLocalMidnight (tz t : Z) : Z :=
  (((t + tz) / msPerDay + 1) * msPerDay - tz)%Z.

(** ** Effects *)

Inductive Side : Type := long | short.

Inductive ExitReason : Type :=
  | EOD_FORCE_EXIT
  | TIME_STOP
  | STOP_LOSS
  | TAKE_PROFIT
  | TRAILING_STOP.

(** The records [tradeLogger] persists, one per state transition. *)
Inductive TradeEvent : Type :=
  | ENTER_LONG (symbol : string) (price quantity stopLoss takeProfit : Q)
      (timestamp : Z)
  | ENTER_SHORT (symbol : string) (price quantity stopLoss takeProfit : Q)
      (timestamp : Z)
  | EXIT (symbol : string) (side : Side) (entryPrice exitPrice quantity pnl : Q)
      (pnlPct : xnum) (reason : ExitReason) (holdTime : Q) (timestamp : Z).

(** The lines [logger] writes at level info and above, and [console.log]. *)
Inductive LogLine : Type :=
  | MaxPositionsReached
  | MaxDailyTradesReached
  | MaxDailyLossesReached
  | InCooldown (minutesLeft : Q)
  | DailyLossLimit (dailyPnL : Q)
  | PositionClosed (symbol : string) (pnl dailyPnL balance : Q)
  | DailyLossLimitReached (dailyPnL : Q)
  | NoNewPositionsToday
  | DailyPnLReset (previous : Q)
  | DailyRiskReset (at_ : Z)
  | LongSignal (symbol : string) (price : Q)
  | ShortSignal (symbol : string) (price : Q)
  | ExitLine (symbol : string) (side : Side) (price : Q) (reason : ExitReason)
      (pnl : Q) (pnlPct : xnum) (holdTime : Q)
  | EvalLine (symbol : string) (price vwap : Q) (dev slope : xnum) (rsi : Q)
  | PotentialLong (symbol : string)
  | PotentialShort (symbol : string)
  | BacktestStart (symbol : string) (bars : nat)
  | BarLine (index : nat) (price vwap : Q)
  | TradeLog (e : TradeEvent).

(** The host: what [Math.random()] and [Date.now()] answer at their n-th
    call. *)
Record Host : Type := mkHost {
  randomAt : nat -> Q;
  nowAt : nat -> Z;
}.

(** What a run has consumed and produced so far. *)
Record Trace : Type := mkTrace {
  draws : nat;
  reads : nat;
  output : list LogLine;
}.

Definition M (A : Type) : Type := Host -> Trace -> A * Trace.

Definition ret {A} (a : A) : M A := fun _ t => (a, t).

Definition bind {A B} (m : M A) (f : A -> M B) : M B :=
  fun h t => let (a, t') := m h t in f a h t'.

#[global] Instance M_ret : MRet M := @ret.
#[global] Instance M_bind : MBind M := fun A B f m => bind m f.

Definition mathRandom : M Q :=
  fun h t => (randomAt h (draws t), mkTrace (S (draws t)) (reads t) (output t)).

Definition dateNow : M Z :=
  fun h t => (nowAt h (reads t), mkTrace (draws t) (S (reads t)) (output t)).

Definition emit (l : LogLine) : M unit :=
  fun _ t => (tt, mkTrace (draws t) (reads t) (output t ++ [l])).

Definition when (b : bool) (m : M unit) : M unit := if b then m else ret tt.

(** [if (Math.random() < p) emit(l)]: a line written on a sampled basis. *)
Definition sampled (p : Q) (m : M unit) : M unit :=
  r ← mathRandom; when (Qltb r p) m.

(** ** vwap.ts *)
Module Vwap.

Record VWAPData : Type := mkVWAPData {
  price : Q;
  high : Q;
  low : Q;
  volume : Q;
  timestamp : Z;
  vwap : option xnum;
}.

Record VWAPState : Type := mkVWAPState {
  period : nat;
  dataPoints : list VWAPData;
  cumulativePriceVolume : Q;
  cumulativeVolume : Q;
}.

Definition createVWAPState (period : nat) : VWAPState :=
  {| period := period;
     dataPoints := [];
     cumulativePriceVolume := 0;
     cumulativeVolume := 0 |}.

Definition updateVWAP (state : VWAPState) (price volume : Q)
    (high low : option Q) : M VWAPState :=
  timestamp ← dateNow;
  let h := num_or high price in
  let l := num_or low price in
  let currentVWAP :=
    if Qltb 0 (cumulativeVolume state) then
      Some (jsdiv (cumulativePriceVolume state + price * volume)
                  (cumulativeVolume state + volume))
    else None in
  let newDataPoint := mkVWAPData price h l volume timestamp currentVWAP in
  let newDataPoints := dataPoints state ++ [newDataPoint] in
  let newCumulativePV := cumulativePriceVolume state + price * volume in
  let newCumulativeV := cumulativeVolume state + volume in
  if ((0 <? period state)%nat && (period state <? length newDataPoints)%nat)%bool
  then
    let removed := hd newDataPoint newDataPoints in
    ret {| period := period state;
           dataPoints := tl newDataPoints;
           cumulativePriceVolume :=
             newCumulativePV - Vwap.price removed * Vwap.volume removed;
           cumulativeVolume := newCumulativeV - Vwap.volume removed |}
  else
    ret {| period := period state;
           dataPoints := newDataPoints;
           cumulativePriceVolume := newCumulativePV;
           cumulativeVolume := newCumulativeV |}.

Definition getVWAP (state : VWAPState) : option Q :=
  if Qeq_bool (cumulativeVolume state) 0 then None
  else if ((0 <? period state)%nat
           && (length (dataPoints state) <? period state)%nat)%bool
  then None
  else Some (cumulativePriceVolume state / cumulativeVolume state).

(** [(currentPrice - vwap) / vwap]: the VWAP, hence the divisor, is zero
    when the weighted prices sum to zero. *)
Definition getDeviation (state : VWAPState) (currentPrice : Q)
    : option xnum :=
  match getVWAP state with
  | None => None
  | Some v => Some (jsdiv (currentPrice - v) v)
  end.

Definition isAboveVWAP (state : VWAPState) (currentPrice : Q)
    : option bool :=
  match getVWAP state with
  | None => None
  | Some v => Some (Qltb v currentPrice)
  end.

Definition isBelowVWAP (state : VWAPState) (currentPrice : Q)
    : option bool :=
  match getVWAP state with
  | None => None
  | Some v => Some (Qltb currentPrice v)
  end.

(** Its only log line is at debug level. *)
Definition resetVWAP (period : nat) : VWAPState := createVWAPState period.

Definition hasEnoughData (state : VWAPState) : bool :=
  (period state <=? length (dataPoints state))%nat.

End Vwap.

(** [a.slice(-n)] for [n >= 1]: the last [n] elements, all of [a] when it
    is shorter. *)
Definition slice_last {A} (n : nat) (a : list A) : list A :=
  drop (length a - n) a.

(** ** utils/indicators.ts *)
Module Indicators.

Definition trueRange (prev current : Vwap.VWAPData) : Q :=
  let high := num_or (Some (Vwap.high current)) (Vwap.price current) in
  let low := num_or (Some (Vwap.low current)) (Vwap.price current) in
  (* [prev.close] is not a field of VWAPData: [prev.close || prev.price] *)
  let prevClose := Vwap.price prev in
  Qmax (Qmax (high - low) (Qabs (high - prevClose))) (Qabs (low - prevClose)).

(** The loop [for (i = 1; i < relevantData.length; i++)], [prev] being
    [relevantData[i - 1]]. *)
Fixpoint trueRangeLoop (trSum : Q) (prev : Vwap.VWAPData)
    (rest : list Vwap.VWAPData) : Q :=
  match rest with
  | [] => trSum
  | current :: rest' =>
      trueRangeLoop (trSum + trueRange prev current) current rest'
  end.

Definition calculateATR (data : list Vwap.VWAPData) (period : nat)
    : option Q :=
  if (length data <? period + 1)%nat then None
  else
    match slice_last (period + 1) data with
    | [] => None
    | first :: rest =>
        Some (trueRangeLoop 0 first rest / inject_Z (Z.of_nat period))
    end.

Definition calculateVWAPSlope (currentVWAP : Q) (historicalVWAP : list xnum)
    (lookback : nat) : xnum :=
  if (length historicalVWAP <? lookback)%nat then XFin 0
  else
    let prevVWAP := nth (length historicalVWAP - lookback) historicalVWAP XNaN in
    xsub_from currentVWAP prevVWAP.

(** [p > v] for a price and a stored VWAP. *)
Definition above (p : Q) (v : xnum) : bool := xlt_q v p.

Fixpoint crossLoop (crosses : nat) (wasAbove : bool)
    (rest : list (Q * xnum)) : nat :=
  match rest with
  | [] => crosses
  | (p, v) :: rest' =>
      let isAbove := above p v in
      if Bool.eqb isAbove wasAbove then crossLoop crosses wasAbove rest'
      else crossLoop (S crosses) isAbove rest'
  end.

Definition isChoppy (prices : list Q) (vwaps : list xnum) (period : nat)
    (threshold : Q) : bool :=
  if ((length prices <? period)%nat || (length vwaps <? period)%nat)%bool
  then false
  else
    let recentPrices := slice_last period prices in
    let recentVWAPs := slice_last period vwaps in
    match combine recentPrices recentVWAPs with
    | [] => Qle_bool threshold 0
    | (p0, v0) :: rest =>
        let crosses := crossLoop 0 (above p0 v0) rest in
        Qle_bool threshold (inject_Z (Z.of_nat crosses))
    end.

(** [prices[i] - prices[i - 1]] for [i = 1 .. length - 1]. *)
Fixpoint changes (prices : list Q) : list Q :=
  match prices with
  | a :: (b :: _) as rest => (b - a) :: changes rest
  | _ => []
  end.

Definition seedStep (acc : Q * Q) (change : Q) : Q * Q :=
  let (gains, losses) := acc in
  if Qltb 0 change then (gains + change, losses)
  else (gains, losses - change).

Definition smoothStep (period : Q) (acc : Q * Q) (change : Q) : Q * Q :=
  let (avgGain, avgLoss) := acc in
  let gain := if Qltb 0 change then change else 0 in
  let loss := if Qltb change 0 then - change else 0 in
  ((avgGain * (period - 1) + gain) / period,
   (avgLoss * (period - 1) + loss) / period).

(** [period] is at least 1 at the only call site. *)
Definition calculateRSI (prices : list Q) (period : nat) : option Q :=
  if (length prices <? period + 1)%nat then None
  else
    let n := inject_Z (Z.of_nat period) in
    let cs := changes prices in
    let '(gains, losses) := fold_left seedStep (take period cs) (0, 0) in
    let '(avgGain, avgLoss) :=
      fold_left (smoothStep n) (drop period cs) (gains / n, losses / n) in
    if Qeq_bool avgLoss 0 then Some 100
    else
      let rs := avgGain / avgLoss in
      Some (100 - 100 / (1 + rs)).

End Indicators.

(** ** config.ts: the fields the decision core reads *)
Module Config.

(** [start_time] and [end_time] are "HH:MM" strings; each is taken as the
    pair [time.split(':').map(Number)]. *)
Record Schedule : Type := mkSchedule {
  start_time : Z * Z;
  end_time : Z * Z;
}.

Record TradingConfig : Type := mkTradingConfig {
  schedule : Schedule;
}.

Record VwapConfig : Type := mkVwapConfig {
  period : nat;
  entry_threshold : Q;
  require_confirmation : option bool;
}.

Record Filters : Type := mkFilters {
  min_volume_mult : Q;
  chop_threshold : Q;
  rsi_period : option nat;
  rsi_oversold : option Q;
  rsi_overbought : option Q;
  min_atr_pct : option Q;
}.

Inductive SizingType : Type := fixed | risk_pct.

Record PositionConfig : Type := mkPositionConfig {
  size : Q;
  sizing_type : option SizingType;
  max_risk_pct : option Q;
  max_positions : Q;
}.

Record RiskConfig : Type := mkRiskConfig {
  stop_loss_pct : Q;
  take_profit_pct : Q;
  max_daily_loss : Q;
  max_hold_seconds : option Q;
  trailing_stop : bool;
  trailing_stop_pct : Q;
  max_trades_per_day : Q;
  max_losses_per_day : Q;
  cooldown_minutes : Q;
}.

Record StrategyConfig : Type := mkStrategyConfig {
  vwap : VwapConfig;
  filters : Filters;
  position : PositionConfig;
  risk : RiskConfig;
}.

Record BacktestingConfig : Type := mkBacktestingConfig {
  initial_capital : Q;
}.

Record Config : Type := mkConfig {
  trading : TradingConfig;
  strategy : StrategyConfig;
  backtesting : option BacktestingConfig;
}.

End Config.

(** ** risk-manager.ts *)
Module Risk.

Record PositionInfo : Type := mkPositionInfo {
  symbol : string;
  entryPrice : Q;
  quantity : Q;
  entryTime : Z;
}.

Record RiskState : Type := mkRiskState {
  config : Config.Config;
  dailyPnL : Q;
  currentBalance : Q;
  positions : gmap string PositionInfo;
  dailyResetTime : Z;
  tradesToday : Q;
  lossesToday : Q;
  lastLossTime : option Z;
}.

Definition riskConfig (state : RiskState) : Config.RiskConfig :=
  Config.risk (Config.strategy (config state)).

Definition getNextResetTime (tz fromTime : Z) : Z :=
  nextLocalMidnight tz fromTime.

Definition createRiskState (tz : Z) (config : Config.Config) (startTime : Z)
    : RiskState :=
  {| config := config;
     dailyPnL := 0;
     currentBalance :=
       num_or (Config.initial_capital <$> Config.backtesting config) 10000;
     positions := ∅;
     dailyResetTime := getNextResetTime tz startTime;
     tradesToday := 0;
     lossesToday := 0;
     lastLossTime := None |}.

(** Minutes between two time values: [(a - b) / 60000]. *)
Definition minutesBetween (a b : Z) : Q := inject_Z (a - b) / 60000.

(** [if (state.lastLossTime)]: [null] and the time value [0] are falsy. *)
Definition lossTimeTruthy (t : option Z) : option Z :=
  match t with
  | Some v => if (v =? 0)%Z then None else Some v
  | None => None
  end.

Definition canOpenPosition (state : RiskState) (currentTime : Z) : M bool :=
  let risk := riskConfig state in
  if Qle_bool
       (Config.max_positions (Config.position (Config.strategy (config state))))
       (inject_Z (Z.of_nat (size (positions state))))
  then emit MaxPositionsReached;; mret false
  else if Qle_bool (Config.max_trades_per_day risk) (tradesToday state)
  then emit MaxDailyTradesReached;; mret false
  else if Qle_bool (Config.max_losses_per_day risk) (lossesToday state)
  then emit MaxDailyLossesReached;; mret false
  else
    let dailyLossCheck : M bool :=
      if Qle_bool (dailyPnL state) (- Config.max_daily_loss risk)
      then emit (DailyLossLimit (dailyPnL state));; mret false
      else mret true in
    match lossTimeTruthy (lastLossTime state) with
    | Some lossTime =>
        let minutesSinceLoss := minutesBetween currentTime lossTime in
        if Qltb minutesSinceLoss (Config.cooldown_minutes risk)
        then
          sampled 0.001
            (emit (InCooldown (Config.cooldown_minutes risk - minutesSinceLoss)));;
          mret false
        else dailyLossCheck
    | None => dailyLossCheck
    end.

(** Its only log line is at debug level. *)
Definition recordPosition (state : RiskState) (symbol : string)
    (entryPrice quantity : Q) (currentTime : Z) : RiskState :=
  let newPositions :=
    <[symbol := mkPositionInfo symbol entryPrice quantity currentTime]>
      (positions state) in
  {| config := config state;
     dailyPnL := dailyPnL state;
     currentBalance := currentBalance state;
     positions := newPositions;
     dailyResetTime := dailyResetTime state;
     tradesToday := tradesToday state;
     lossesToday := lossesToday state;
     lastLossTime := lastLossTime state |}.

Definition closePosition (state : RiskState) (symbol : string) (pnl : Q)
    (currentTime : Z) : M RiskState :=
  let newPositions := delete symbol (positions state) in
  let newDailyPnL := dailyPnL state + pnl in
  let newBalance := currentBalance state + pnl in
  emit (PositionClosed symbol pnl newDailyPnL newBalance);;
  when (Qle_bool newDailyPnL (- Config.max_daily_loss (riskConfig state)))
    (emit (DailyLossLimitReached newDailyPnL);; emit NoNewPositionsToday);;
  let isLoss := Qltb pnl 0 in
  mret {| config := config state;
          positions := newPositions;
          dailyPnL := newDailyPnL;
          currentBalance := newBalance;
          dailyResetTime := dailyResetTime state;
          tradesToday := tradesToday state + 1;
          lossesToday :=
            if isLoss then lossesToday state + 1 else lossesToday state;
          lastLossTime :=
            if isLoss then Some currentTime else lastLossTime state |}.

Definition getPositionCount (state : RiskState) : nat :=
  size (positions state).

Definition getDailyPnL (state : RiskState) : Q := dailyPnL state.

Definition getPositionInfo (state : RiskState) (symbol : string)
    : option PositionInfo :=
  positions state !! symbol.

Definition resetDailyPnL (tz : Z) (state : RiskState) : M RiskState :=
  emit (DailyPnLReset (dailyPnL state));;
  now ← dateNow;
  mret {| config := config state;
          currentBalance := currentBalance state;
          positions := positions state;
          dailyPnL := 0;
          dailyResetTime := getNextResetTime tz now;
          tradesToday := 0;
          lossesToday := 0;
          lastLossTime := None |}.

Definition checkAndResetIfNeeded (tz : Z) (state : RiskState) : M RiskState :=
  now ← dateNow;
  if (dailyResetTime state <=? now)%Z then resetDailyPnL tz state
  else mret state.


Definition checkDailyReset (tz : Z) (state : RiskState) (currentTime : Z)
    : M RiskState :=
  if (currentTime <? dailyResetTime state)%Z then mret state
  else
    emit (DailyRiskReset currentTime);;
    let nextReset := nextLocalMidnight tz currentTime in
    mret {| config := config state;
            currentBalance := currentBalance state;
            positions := positions state;
            lastLossTime := lastLossTime state;
            dailyPnL := 0;
            tradesToday := 0;
            lossesToday := 0;
            dailyResetTime := nextReset |}.

End Risk.

(** ** strategy.ts *)
Module Strategy.

Record Position : Type := mkPosition {
  symbol : string;
  side : Side;
  entryPrice : Q;
  quantity : Q;
  entryTime : Z;
  stopLoss : Q;
  takeProfit : Q;
  trailingStop : option Q;
}.

Inductive SignalType : Type := potential_long | potential_short.

Record PendingSignal : Type := mkPendingSignal {
  type : SignalType;
  triggerCandleTime : Z;
  triggerPrice : Q;
}.

Record StrategyState : Type := mkStrategyState {
  config : Config.Config;
  positions : gmap string Position;
  pendingSignals : gmap string PendingSignal;
}.

Definition createStrategyState (config : Config.Config) : StrategyState :=
  {| config := config; positions := ∅; pendingSignals := ∅ |}.

Definition withPositions (s : StrategyState) (ps : gmap string Position)
    : StrategyState :=
  {| config := config s; positions := ps; pendingSignals := pendingSignals s |}.

Definition withPendingSignals (s : StrategyState)
    (ps : gmap string PendingSignal) : StrategyState :=
  {| config := config s; positions := positions s; pendingSignals := ps |}.

Definition riskConfig (s : StrategyState) : Config.RiskConfig :=
  Config.risk (Config.strategy (config s)).

Definition filtersConfig (s : StrategyState) : Config.Filters :=
  Config.filters (Config.strategy (config s)).

Definition calculatePnL (position : Position) (currentPrice : Q) : Q :=
  match side position with
  | long => (currentPrice - entryPrice position) * quantity position
  | short => (entryPrice position - currentPrice) * quantity position
  end.

(** The share count both entry functions compute. *)
Definition entryQuantity (strategyState : StrategyState)
    (riskState : Risk.RiskState) (entryPrice : Q) : Q :=
  let position := Config.position (Config.strategy (config strategyState)) in
  let quantity := Config.size position in
  let quantity :=
    match Config.sizing_type position, Config.max_risk_pct position with
    | Some Config.risk_pct, Some pct =>
        if Qeq_bool pct 0 then quantity
        else
          let riskAmount := Risk.currentBalance riskState * pct in
          let riskPerShare :=
            entryPrice * Config.stop_loss_pct (riskConfig strategyState) in
          if Qltb 0 riskPerShare
          then inject_Z (Qfloor (riskAmount / riskPerShare))
          else quantity
    | _, _ => quantity
    end in
  if Qltb quantity 1 then 1 else quantity.

Definition enterLongPosition (strategyState : StrategyState)
    (riskState : Risk.RiskState) (symbol : string) (entryPrice : Q)
    (currentTime : Z) : M (StrategyState * Risk.RiskState) :=
  let risk := riskConfig strategyState in
  let quantity := entryQuantity strategyState riskState entryPrice in
  let stopLoss := entryPrice * (1 - Config.stop_loss_pct risk) in
  let takeProfit := entryPrice * (1 + Config.take_profit_pct risk) in
  emit (LongSignal symbol entryPrice);;
  let position :=
    {| symbol := symbol;
       side := long;
       entryPrice := entryPrice;
       quantity := quantity;
       entryTime := currentTime;
       stopLoss := stopLoss;
       takeProfit := takeProfit;
       trailingStop :=
         if Config.trailing_stop risk
         then Some (entryPrice * (1 - Config.trailing_stop_pct risk))
         else None |} in
  let newPositions := <[symbol := position]> (positions strategyState) in
  let newRiskState :=
    Risk.recordPosition riskState symbol entryPrice quantity currentTime in
  emit (TradeLog
          (ENTER_LONG symbol entryPrice quantity stopLoss takeProfit currentTime));;
  mret (withPositions strategyState newPositions, newRiskState).

Definition enterShortPosition (strategyState : StrategyState)
    (riskState : Risk.RiskState) (symbol : string) (entryPrice : Q)
    (currentTime : Z) : M (StrategyState * Risk.RiskState) :=
  let risk := riskConfig strategyState in
  let quantity := entryQuantity strategyState riskState entryPrice in
  let stopLoss := entryPrice * (1 + Config.stop_loss_pct risk) in
  let takeProfit := entryPrice * (1 - Config.take_profit_pct risk) in
  emit (ShortSignal symbol entryPrice);;
  let position :=
    {| symbol := symbol;
       side := short;
       entryPrice := entryPrice;
       quantity := quantity;
       entryTime := currentTime;
       stopLoss := stopLoss;
       takeProfit := takeProfit;
       trailingStop :=
         if Config.trailing_stop risk
         then Some (entryPrice * (1 + Config.trailing_stop_pct risk))
         else None |} in
  let newPositions := <[symbol := position]> (positions strategyState) in
  let newRiskState :=
    Risk.recordPosition riskState symbol entryPrice (- quantity) currentTime in
  emit (TradeLog
          (ENTER_SHORT symbol entryPrice quantity stopLoss takeProfit currentTime));;
  mret (withPositions strategyState newPositions, newRiskState).

(** Seconds a position has been held: [(currentTime - entryTime) / 1000]. *)
Definition holdSeconds (currentTime entryTime : Z) : Q :=
  inject_Z (currentTime - entryTime) / 1000.

Definition exitPosition (strategyState : StrategyState)
    (riskState : Risk.RiskState) (symbol : string) (exitPrice : Q)
    (reason : ExitReason) (pnl : Q) (currentTime : Z)
    : M (StrategyState * Risk.RiskState) :=
  match positions strategyState !! symbol with
  | None => mret (strategyState, riskState)
  | Some position =>
      let pnlPct :=
        xscale (jsdiv pnl (entryPrice position * quantity position)) 100 in
      let holdTime := holdSeconds currentTime (entryTime position) in
      emit (ExitLine symbol (side position) exitPrice reason pnl pnlPct holdTime);;
      let newPositions := delete symbol (positions strategyState) in
      newRiskState ← Risk.closePosition riskState symbol pnl currentTime;
      emit (TradeLog
              (EXIT symbol (side position) (entryPrice position) exitPrice
                 (quantity position) pnl pnlPct reason holdTime currentTime));;
      mret (withPositions strategyState newPositions, newRiskState)
  end.

Definition withTrailingStop (p : Position) (level : Q) : Position :=
  {| symbol := symbol p;
     side := side p;
     entryPrice := entryPrice p;
     quantity := quantity p;
     entryTime := entryTime p;
     stopLoss := stopLoss p;
     takeProfit := takeProfit p;
     trailingStop := Some level |}.

(** [x && ...] on an optional number: [undefined] and [0] are falsy. *)
Definition truthyNum (x : option Q) : option Q :=
  match x with
  | Some v => if Qeq_bool v 0 then None else Some v
  | None => None
  end.

Definition managePosition (strategyState : StrategyState)
    (riskState : Risk.RiskState) (symbol : string) (currentPrice _vwap : Q)
    (position : Position) (currentTime : Z)
    : M (StrategyState * Risk.RiskState) :=
  let risk := riskConfig strategyState in
  let pnl := calculatePnL position currentPrice in
  let holdTime := holdSeconds currentTime (entryTime position) in
  let exit reason :=
    exitPosition strategyState riskState symbol currentPrice reason pnl
      currentTime in
  let timeStop :=
    match truthyNum (Config.max_hold_seconds risk) with
    | Some maxHold => Qle_bool maxHold holdTime
    | None => false
    end in
  if timeStop then exit TIME_STOP
  else
  match side position with
  | long =>
      if Qle_bool currentPrice (stopLoss position) then exit STOP_LOSS
      else if Qle_bool (takeProfit position) currentPrice then exit TAKE_PROFIT
      else
        match
          (if Config.trailing_stop risk
           then truthyNum (trailingStop position) else None)
        with
        | Some trailing =>
            let newTrailing :=
              currentPrice * (1 - Config.trailing_stop_pct risk) in
            let updated := Qltb trailing newTrailing in
            let level := if updated then newTrailing else trailing in
            if Qle_bool currentPrice level then exit TRAILING_STOP
            else if updated
            then
              mret (withPositions strategyState
                      (<[symbol := withTrailingStop position newTrailing]>
                         (positions strategyState)),
                    riskState)
            else mret (strategyState, riskState)
        | None => mret (strategyState, riskState)
        end
  | short =>
      if Qle_bool (stopLoss position) currentPrice then exit STOP_LOSS
      else if Qle_bool currentPrice (takeProfit position) then exit TAKE_PROFIT
      else
        match
          (if Config.trailing_stop risk
           then truthyNum (trailingStop position) else None)
        with
        | Some trailing =>
            let newTrailing :=
              currentPrice * (1 + Config.trailing_stop_pct risk) in
            let updated := Qltb newTrailing trailing in
            let level := if updated then newTrailing else trailing in
            if Qle_bool level currentPrice then exit TRAILING_STOP
            else if updated
            then
              mret (withPositions strategyState
                      (<[symbol := withTrailingStop position newTrailing]>
                         (positions strategyState)),
                    riskState)
            else mret (strategyState, riskState)
        | None => mret (strategyState, riskState)
        end
  end.

(** [d.vwap || d.price]: an absent, zero or NaN stored VWAP gives way to
    the price. *)
Definition vwapOrPrice (d : Vwap.VWAPData) : xnum :=
  match Vwap.vwap d with
  | Some v => if xtruthy v then v else XFin (Vwap.price d)
  | None => XFin (Vwap.price d)
  end.

(** The session window of [checkEntrySignals]: configured times are
    shifted by five hours to UTC. *)
Definition beforeStart (s : Config.Schedule) (currentTime : Z) : bool :=
  let '(startH, startM) := Config.start_time s in
  let utcStartH := (startH + 5)%Z in
  let currentH := getUTCHours currentTime in
  let currentM := getUTCMinutes currentTime in
  ((currentH <? utcStartH)%Z
   || ((currentH =? utcStartH)%Z && (currentM <? startM)%Z))%bool.

Definition afterEnd (s : Config.Schedule) (currentTime : Z) : bool :=
  let '(endH, endM) := Config.end_time s in
  let utcEndH := (endH + 5)%Z in
  let currentH := getUTCHours currentTime in
  let currentM := getUTCMinutes currentTime in
  ((utcEndH <? currentH)%Z
   || ((currentH =? utcEndH)%Z && (endM <=? currentM)%Z))%bool.

(** The volume filter: with more than 20 samples, the newest volume must
    reach the mean of the last 20 times [min_volume_mult]. *)
Definition lowVolume (min_volume_mult : Q) (vwapState : Vwap.VWAPState)
    : bool :=
  let volumes := map Vwap.volume (Vwap.dataPoints vwapState) in
  if (20 <? length volumes)%nat then
    let recentVolumes := slice_last 20 volumes in
    let avgVol :=
      fold_left Qplus recentVolumes 0
      / inject_Z (Z.of_nat (length recentVolumes)) in
    let currentVol := List.last volumes 0 in
    Qltb currentVol (avgVol * min_volume_mult)
  else false.

(** The ATR filter: [minAtrPct > 0 && atr / currentPrice < minAtrPct]. *)
Definition lowVolatility (f : Config.Filters) (atr currentPrice : Q) : bool :=
  let minAtrPct := num_or (Config.min_atr_pct f) 0 in
  (Qltb 0 minAtrPct && xlt_q (jsdiv atr currentPrice) minAtrPct)%bool.

Definition choppy (f : Config.Filters) (vwapState : Vwap.VWAPState) : bool :=
  let prices := map Vwap.price (Vwap.dataPoints vwapState) in
  let vwaps := map vwapOrPrice (Vwap.dataPoints vwapState) in
  Indicators.isChoppy prices vwaps 20 (Config.chop_threshold f).

Definition checkEntrySignals (strategyState : StrategyState)
    (riskState : Risk.RiskState) (symbol : string) (currentPrice vwap : Q)
    (vwapSlope : xnum) (atr rsi : Q) (vwapState : Vwap.VWAPState)
    (currentTime : Z) : M (StrategyState * Risk.RiskState) :=
  canOpen ← Risk.canOpenPosition riskState currentTime;
  if negb canOpen then mret (strategyState, riskState)
  else
  sampled 0.01
    (emit (EvalLine symbol currentPrice vwap
             (xscale (jsdiv (currentPrice - vwap) vwap) 100) vwapSlope rsi));;
  let schedule := Config.schedule (Config.trading (config strategyState)) in
  if beforeStart schedule currentTime then mret (strategyState, riskState)
  else if afterEnd schedule currentTime then mret (strategyState, riskState)
  else
  let filters := filtersConfig strategyState in
  if lowVolume (Config.min_volume_mult filters) vwapState
  then sampled 0.001 (mret tt);; mret (strategyState, riskState)
  else if lowVolatility filters atr currentPrice
  then sampled 0.001 (mret tt);; mret (strategyState, riskState)
  else if choppy filters vwapState then mret (strategyState, riskState)
  else
  let newSignals : M (StrategyState * Risk.RiskState) :=
    let deviation := jsdiv (currentPrice - vwap) vwap in
    let vwapConfig := Config.vwap (Config.strategy (config strategyState)) in
    let entryThreshold := Config.entry_threshold vwapConfig in
    let confirmationOff :=
      match Config.require_confirmation vwapConfig with
      | Some false => true
      | _ => false
      end in
    let shortSetup : M (StrategyState * Risk.RiskState) :=
      if (xgt_q deviation entryThreshold
          && Qltb (num_or (Config.rsi_overbought filters) 60) rsi)%bool
      then
        if confirmationOff
        then enterShortPosition strategyState riskState symbol currentPrice
               currentTime
        else
          emit (PotentialShort symbol);;
          mret (withPendingSignals strategyState
                  (<[symbol := mkPendingSignal potential_short currentTime
                                 currentPrice]>
                     (pendingSignals strategyState)),
                riskState)
      else mret (strategyState, riskState) in
    if (xlt_q deviation (- entryThreshold)
        && Qltb rsi (num_or (Config.rsi_oversold filters) 40))%bool
    then
      if confirmationOff
      then enterLongPosition strategyState riskState symbol currentPrice
             currentTime
      else
        emit (PotentialLong symbol);;
        mret (withPendingSignals strategyState
                (<[symbol := mkPendingSignal potential_long currentTime
                               currentPrice]>
                   (pendingSignals strategyState)),
              riskState)
    else shortSetup in
  match pendingSignals strategyState !! symbol with
  | Some pending =>
      let cleared :=
        withPendingSignals strategyState
          (delete symbol (pendingSignals strategyState)) in
      match type pending with
      | potential_long =>
          if Qltb currentPrice vwap then mret (cleared, riskState)
          else enterLongPosition cleared riskState symbol currentPrice
                 currentTime
      | potential_short =>
          if Qltb vwap currentPrice then mret (cleared, riskState)
          else enterShortPosition cleared riskState symbol currentPrice
                 currentTime
      end
  | None => newSignals
  end.

(** The force-exit test of [evaluateStrategy]: [hour >= 20 && min >= 55]
    on the UTC clock. *)
Definition eodForceExit (currentTime : Z) : bool :=
  ((20 <=? getUTCHours currentTime)%Z && (55 <=? getUTCMinutes currentTime)%Z)%bool.

(** [rsi_period || 14]. *)
Definition rsiPeriodOf (f : Config.Filters) : nat :=
  match Config.rsi_period f with
  | Some (S n) => S n
  | _ => 14%nat
  end.

Definition evaluateStrategy (strategyState : StrategyState)
    (riskState : Risk.RiskState) (symbol : string) (currentPrice vwap : Q)
    (vwapState : option Vwap.VWAPState) (currentTime : Z)
    : M (StrategyState * Risk.RiskState) :=
  match vwapState with
  | None => mret (strategyState, riskState)
  | Some vwapState =>
      let vwapSlope :=
        Indicators.calculateVWAPSlope vwap
          (map vwapOrPrice (Vwap.dataPoints vwapState)) 5 in
      let atr := Indicators.calculateATR (Vwap.dataPoints vwapState) 14 in
      let prices := map Vwap.price (Vwap.dataPoints vwapState) in
      let rsiPeriod := rsiPeriodOf (filtersConfig strategyState) in
      let rsi := Indicators.calculateRSI prices rsiPeriod in
      match rsi, atr with
      | Some rsi, Some atr =>
          match positions strategyState !! symbol with
          | Some position =>
              if eodForceExit currentTime
              then
                let pnl := calculatePnL position currentPrice in
                exitPosition strategyState riskState symbol currentPrice
                  EOD_FORCE_EXIT pnl currentTime
              else
                managePosition strategyState riskState symbol currentPrice
                  vwap position currentTime
          | None =>
              checkEntrySignals strategyState riskState symbol currentPrice
                vwap vwapSlope atr rsi vwapState currentTime
          end
      | _, _ => mret (strategyState, riskState)
      end
  end.

End Strategy.

(** ** backtest.ts *)
Module Backtest.

(** An Alpaca bar; [Timestamp] is the time value
    [new Date(bar.Timestamp).getTime()] of its ISO string. *)
Record Bar : Type := mkBar {
  Timestamp : Z;
  HighPrice : Q;
  LowPrice : Q;
  ClosePrice : Q;
  Volume : Q;
}.

(** [entryTime] and [exitTime] are kept as time values (the code stores
    their ISO strings). *)
Record TradeRecord : Type := mkTradeRecord {
  symbol : string;
  side : Side;
  entryPrice : Q;
  exitPrice : Q;
  entryTime : Z;
  exitTime : Z;
  quantity : Q;
  pnl : Q;
  pnlPct : xnum;
  reason : string;
}.

Record BacktestResult : Type := mkBacktestResult {
  totalTrades : nat;
  winningTrades : nat;
  losingTrades : nat;
  totalPnL : Q;
  winRate : Q;
  maxDrawdown : Q;
  trades : list TradeRecord;
}.

(** The variables [runBacktest] carries through its loop over the bars. *)
Record Loop : Type := mkLoop {
  vwapState : Vwap.VWAPState;
  strategyState : Strategy.StrategyState;
  riskState : Risk.RiskState;
  tradesSoFar : list TradeRecord;
  peakPnL : Q;
  maxDrawdownSoFar : Q;
}.

(** One iteration of the loop, for bar [i]; [prev] is [bars[i - 1]]. *)
Definition barStep (tz : Z) (symbol : string) (config : Config.Config)
    (i : nat) (prev : option Bar) (bar : Bar) (s : Loop) : M Loop :=
  let timestamp := Timestamp bar in
  riskState ← Risk.checkDailyReset tz (riskState s) timestamp;
  let price := ClosePrice bar in
  let volume := Volume bar in
  let vwapState :=
    match prev with
    | Some prevBar =>
        let prevDay := getDate tz (Timestamp prevBar) in
        let currDay := getDate tz timestamp in
        if (negb (currDay =? prevDay)%Z
            && (Config.period (Config.vwap (Config.strategy config)) =? 0)%nat)%bool
        then Vwap.createVWAPState 0
        else vwapState s
    | None => vwapState s
    end in
  vwapState ← Vwap.updateVWAP vwapState price volume
                (Some (HighPrice bar)) (Some (LowPrice bar));
  match Vwap.getVWAP vwapState with
  | None =>
      mret (mkLoop vwapState (strategyState s) riskState (tradesSoFar s)
              (peakPnL s) (maxDrawdownSoFar s))
  | Some currentVWAP =>
      when (i mod 1000 =? 0)%nat (emit (BarLine i price currentVWAP));;
      let prevPositions := Strategy.positions (strategyState s) in
      let prevPnL := Risk.dailyPnL riskState in
      '(newStrategyState, newRiskState) ←
        Strategy.evaluateStrategy (strategyState s) riskState symbol price
          currentVWAP (Some vwapState) timestamp;
      let trades :=
        match prevPositions !! symbol,
              Strategy.positions newStrategyState !! symbol with
        | Some hadPosition, None =>
            let pnlChange := Risk.dailyPnL newRiskState - prevPnL in
            tradesSoFar s ++
              [ {| symbol := symbol;
                   side := Strategy.side hadPosition;
                   entryPrice := Strategy.entryPrice hadPosition;
                   exitPrice := price;
                   entryTime := Strategy.entryTime hadPosition;
                   exitTime := timestamp;
                   quantity := Strategy.quantity hadPosition;
                   pnl := pnlChange;
                   pnlPct :=
                     xscale
                       (jsdiv pnlChange
                          (Strategy.entryPrice hadPosition
                           * Strategy.quantity hadPosition)) 100;
                   reason := "Backtest Exit" |} ]
        | _, _ => tradesSoFar s
        end in
      let peakPnL :=
        if Qltb (peakPnL s) (Risk.dailyPnL newRiskState)
        then Risk.dailyPnL newRiskState else peakPnL s in
      let currentDrawdown := peakPnL - Risk.dailyPnL newRiskState in
      let maxDrawdown :=
        if Qltb (maxDrawdownSoFar s) currentDrawdown
        then currentDrawdown else maxDrawdownSoFar s in
      mret (mkLoop vwapState newStrategyState newRiskState trades peakPnL
              maxDrawdown)
  end.

(** [for (let i = 0; i < bars.length; i++)], from index [i] on. *)
Fixpoint barLoop (tz : Z) (symbol : string) (config : Config.Config)
    (i : nat) (prev : option Bar) (bars : list Bar) (s : Loop) : M Loop :=
  match bars with
  | [] => mret s
  | bar :: rest =>
      s' ← barStep tz symbol config i prev bar s;
      barLoop tz symbol config (S i) (Some bar) rest s'
  end.

(** "Calculate Statistics": the report built after the loop. *)
Definition summarize (s : Loop) : BacktestResult :=
  let trades := tradesSoFar s in
  let winningTrades := length (filter (fun t => Qltb 0 (pnl t) = true) trades) in
  let losingTrades := length (filter (fun t => Qle_bool (pnl t) 0 = true) trades) in
  let totalPnL := Risk.dailyPnL (riskState s) in
  let winRate :=
    if (0 <? length trades)%nat
    then inject_Z (Z.of_nat winningTrades)
         / inject_Z (Z.of_nat (length trades)) * 100
    else 0 in
  {| totalTrades := length trades;
     winningTrades := winningTrades;
     losingTrades := losingTrades;
     totalPnL := totalPnL;
     winRate := winRate;
     maxDrawdown := maxDrawdownSoFar s;
     trades := trades |}.

(** "Initialize State". *)
Definition initialLoop (tz : Z) (config : Config.Config) (startTime : Z)
    : Loop :=
  {| vwapState :=
       Vwap.createVWAPState (Config.period (Config.vwap (Config.strategy config)));
     strategyState := Strategy.createStrategyState config;
     riskState := Risk.createRiskState tz config startTime;
     tradesSoFar := [];
     peakPnL := 0;
     maxDrawdownSoFar := 0 |}.

(** [runBacktest] up to the end of its loop. *)
Definition runLoop (tz : Z) (symbol : string) (bars : list Bar)
    (config : Config.Config) : M Loop :=
  emit (BacktestStart symbol (length bars));;
  startTime ← match bars with
              | bar :: _ => mret (Timestamp bar)
              | [] => dateNow
              end;
  barLoop tz symbol config 0 None bars (initialLoop tz config startTime).

(** [tz] is the offset of the host's local time, which [getDate] and the
    daily reset read. *)
Definition runBacktest (tz : Z) (symbol : string) (bars : list Bar)
    (config : Config.Config) : M BacktestResult :=
  s ← runLoop tz symbol bars config; mret (summarize s).

End Backtest.

(** ** Notions the statements below use *)

(** *** Running a computation *)

(** Running a computation on a host from a given trace. *)
Definition result {A} (m : M A) (h : Host) (t : Trace) : A := fst (m h t).

Definition written {A} (m : M A) (h : Host) (t : Trace) : list LogLine :=
  output (snd (m h t)).

(** A computation whose result is the same on every host and trace: the
    oracles and the log reach its effects only. *)
Definition hostFree {A} (m : M A) : Prop :=
  forall h1 t1 h2 t2, result m h1 t1 = result m h2 t2.

(** The trade-log records among the lines of an output. *)
Definition tradeEvents (out : list LogLine) : list TradeEvent :=
  omap (fun l => match l with TradeLog e => Some e | _ => None end) out.

(** *** The VWAP window *)

(** A sample as the window accounts for it: its price and its volume. *)
Definition Sample : Type := (Q * Q)%type.

Definition sampleOf (d : Vwap.VWAPData) : Sample :=
  (Vwap.price d, Vwap.volume d).

Fixpoint sumPriceVolume (xs : list Sample) : Q :=
  match xs with
  | [] => 0
  | (p, v) :: rest => p * v + sumPriceVolume rest
  end.

Fixpoint sumVolume (xs : list Sample) : Q :=
  match xs with
  | [] => 0
  | (_, v) :: rest => v + sumVolume rest
  end.


(** Equality of optional numbers, up to the representation of a rational. *)
Definition sameValue (a b : option Q) : Prop :=
  match a, b with
  | Some x, Some y => x == y
  | None, None => True
  | _, _ => False
  end.

(** [ingested p xs st]: [st] is reached from [createVWAPState p] by one
    [updateVWAP] call per sample of [xs], oldest first, on any hosts. *)
Inductive ingested (p : nat) : list Sample -> Vwap.VWAPState -> Prop :=
  | ingested_create : ingested p [] (Vwap.createVWAPState p)
  | ingested_update xs st price volume high low h t :
      ingested p xs st ->
      ingested p (xs ++ [(price, volume)])
        (result (Vwap.updateVWAP st price volume high low) h t).

(** The samples a window of period [p] retains out of [xs]. *)
Definition retained (p : nat) (xs : list Sample) : list Sample :=
  if (p =? 0)%nat then xs else slice_last p xs.

(** The window invariant, with the samples retained from the history. *)
Definition windowInvariant (p : nat) (xs : list Sample)
    (st : Vwap.VWAPState) : Prop :=
  Vwap.period st = p
  /\ map sampleOf (Vwap.dataPoints st) = retained p xs
  /\ Vwap.cumulativePriceVolume st == sumPriceVolume (retained p xs)
  /\ Vwap.cumulativeVolume st == sumVolume (retained p xs).

(** [updateVWAP] once per sample, oldest first. *)
Fixpoint feed (state : Vwap.VWAPState) (samples : list Sample)
    : M Vwap.VWAPState :=
  match samples with
  | [] => mret state
  | (price, volume) :: rest =>
      state' ← Vwap.updateVWAP state price volume None None;
      feed state' rest
  end.

(** *** The gates of the risk ledger *)

(** The five gates of the risk ledger, in the order of the specification,
    and what it means for each to fail. *)
Inductive Gate : Type :=
  | PositionCap
  | TradeCap
  | LossCap
  | Cooldown
  | DailyLossCap.

Definition gateFails (state : Risk.RiskState) (now : Z) (g : Gate) : Prop :=
  let risk := Risk.riskConfig state in
  match g with
  | PositionCap =>
      Config.max_positions
        (Config.position (Config.strategy (Risk.config state)))
      <= inject_Z (Z.of_nat (size (Risk.positions state)))
  | TradeCap => Config.max_trades_per_day risk <= Risk.tradesToday state
  | LossCap => Config.max_losses_per_day risk <= Risk.lossesToday state
  | Cooldown =>
      exists lossTime,
        Risk.lastLossTime state = Some lossTime
        /\ Risk.minutesBetween now lossTime < Config.cooldown_minutes risk
  | DailyLossCap => Risk.dailyPnL state <= - Config.max_daily_loss risk
  end.

(** The cooldown gate as the code tests it: the loss time must be truthy. *)
Definition cooldownHolds (state : Risk.RiskState) (now : Z) : Prop :=
  exists lossTime,
    Risk.lastLossTime state = Some lossTime /\ lossTime <> 0%Z
    /\ Risk.minutesBetween now lossTime
       < Config.cooldown_minutes (Risk.riskConfig state).

(** The line a failing gate reports; the cooldown line is sampled. *)
Definition isReasonOf (g : Gate) (l : LogLine) : Prop :=
  match g, l with
  | PositionCap, MaxPositionsReached => True
  | TradeCap, MaxDailyTradesReached => True
  | LossCap, MaxDailyLossesReached => True
  | Cooldown, InCooldown _ => True
  | DailyLossCap, DailyLossLimit _ => True
  | _, _ => False
  end.

(** The gates that come before [g] in the precedence order. *)
Definition gatesBefore (g : Gate) : list Gate :=
  match g with
  | PositionCap => []
  | TradeCap => [PositionCap]
  | LossCap => [PositionCap; TradeCap]
  | Cooldown => [PositionCap; TradeCap; LossCap]
  | DailyLossCap => [PositionCap; TradeCap; LossCap; Cooldown]
  end.

(** *** The two position maps *)

(** What one transition may do to the two position maps for [symbol]:
    leave both alone, insert into both, remove from both, or replace the
    strategy-side position of an instrument that is already held. *)
Definition positionStep (symbol : string)
    (before after : Strategy.StrategyState * Risk.RiskState) : Prop :=
  let '(s, r) := before in
  let '(s', r') := after in
  (Strategy.positions s' = Strategy.positions s
   /\ Risk.positions r' = Risk.positions r)
  \/ (exists p i,
        Strategy.positions s' = <[symbol := p]> (Strategy.positions s)
        /\ Risk.positions r' = <[symbol := i]> (Risk.positions r))
  \/ (Strategy.positions s' = delete symbol (Strategy.positions s)
      /\ Risk.positions r' = delete symbol (Risk.positions r))
  \/ (exists p,
        is_Some (Strategy.positions s !! symbol)
        /\ Strategy.positions s' = <[symbol := p]> (Strategy.positions s)
        /\ Risk.positions r' = Risk.positions r).

(** The two position maps hold the same instruments. *)
Definition consistent (s : Strategy.StrategyState) (r : Risk.RiskState)
    : Prop :=
  dom (Strategy.positions s) = dom (Risk.positions r).

(** Whether an [evaluateStrategy] call for a flat instrument gets as far
    as the pending-signal check of [checkEntrySignals]: RSI and ATR are
    defined, the risk gate is open, the time is inside the session and
    the volume, volatility and chop filters pass. *)
Definition reachesConfirmation (s : Strategy.StrategyState)
    (r : Risk.RiskState) (currentPrice : Q) (vwapState : Vwap.VWAPState)
    (now : Z) (h : Host) (t : Trace) : bool :=
  let filters := Strategy.filtersConfig s in
  let schedule := Config.schedule (Config.trading (Strategy.config s)) in
  match
    Indicators.calculateRSI (map Vwap.price (Vwap.dataPoints vwapState))
      (Strategy.rsiPeriodOf filters),
    Indicators.calculateATR (Vwap.dataPoints vwapState) 14
  with
  | Some _, Some atr =>
      result (Risk.canOpenPosition r now) h t
      && negb (Strategy.beforeStart schedule now)
      && negb (Strategy.afterEnd schedule now)
      && negb (Strategy.lowVolume (Config.min_volume_mult filters) vwapState)
      && negb (Strategy.lowVolatility filters atr currentPrice)
      && negb (Strategy.choppy filters vwapState)
  | _, _ => false
  end.

(** *** Runs that differ in the host *)

(** A sample without the wall-clock reading stored in it. *)
Definition untimed (d : Vwap.VWAPData) : Vwap.VWAPData :=
  Vwap.mkVWAPData (Vwap.price d) (Vwap.high d) (Vwap.low d) (Vwap.volume d) 0
    (Vwap.vwap d).

(** Two windows that differ at most in the stored wall-clock readings. *)
Definition sameSamples (a b : Vwap.VWAPState) : Prop :=
  Vwap.period a = Vwap.period b
  /\ map untimed (Vwap.dataPoints a) = map untimed (Vwap.dataPoints b)
  /\ Vwap.cumulativePriceVolume a = Vwap.cumulativePriceVolume b
  /\ Vwap.cumulativeVolume a = Vwap.cumulativeVolume b.

(** Two states of the bar loop that differ at most in those readings. *)
Definition sameLoop (a b : Backtest.Loop) : Prop :=
  sameSamples (Backtest.vwapState a) (Backtest.vwapState b)
  /\ Backtest.strategyState a = Backtest.strategyState b
  /\ Backtest.riskState a = Backtest.riskState b
  /\ Backtest.tradesSoFar a = Backtest.tradesSoFar b
  /\ Backtest.peakPnL a = Backtest.peakPnL b
  /\ Backtest.maxDrawdownSoFar a = Backtest.maxDrawdownSoFar b.

(** *** Positions and the trade log *)

(** The trade-log record of the entry into a position. *)
Definition entryEvent (p : Strategy.Position) : TradeEvent :=
  match Strategy.side p with
  | long =>
      ENTER_LONG (Strategy.symbol p) (Strategy.entryPrice p)
        (Strategy.quantity p) (Strategy.stopLoss p) (Strategy.takeProfit p)
        (Strategy.entryTime p)
  | short =>
      ENTER_SHORT (Strategy.symbol p) (Strategy.entryPrice p)
        (Strategy.quantity p) (Strategy.stopLoss p) (Strategy.takeProfit p)
        (Strategy.entryTime p)
  end.

(** The trade-log record of the exit from a position at [exitPrice]. *)
Definition exitEvent (symbol : string) (p : Strategy.Position) (exitPrice : Q)
    (reason : ExitReason) (now : Z) : TradeEvent :=
  let pnl := Strategy.calculatePnL p exitPrice in
  EXIT symbol (Strategy.side p) (Strategy.entryPrice p) exitPrice
    (Strategy.quantity p) pnl
    (xscale (jsdiv pnl (Strategy.entryPrice p * Strategy.quantity p)) 100)
    reason (Strategy.holdSeconds now (Strategy.entryTime p)) now.

(** The quantity the ledger records for a position: negative for a
    short. *)
Definition signedQuantity (p : Strategy.Position) : Q :=
  match Strategy.side p with
  | long => Strategy.quantity p
  | short => - Strategy.quantity p
  end.

(** The price lies strictly between the stop and the target of a
    position. *)
Definition insideBracket (p : Strategy.Position) (price : Q) : Prop :=
  match Strategy.side p with
  | long => Strategy.stopLoss p < price /\ price < Strategy.takeProfit p
  | short => Strategy.takeProfit p < price /\ price < Strategy.stopLoss p
  end.

(** A trailing stop moved from [old] to [new] in the direction that
    favours the position, and still on the losing side of the price. *)
Definition ratchets (side : Side) (old new price : Q) : Prop :=
  match side with
  | long => old < new /\ new < price
  | short => price < new /\ new < old
  end.

(** A computation that writes nothing to the trade log. *)
Definition quiet {A} (m : M A) : Prop :=
  forall h t, tradeEvents (output (snd (m h t))) = tradeEvents (output t).

(** A line that is not a trade-log record. *)
Definition plainLine (l : LogLine) : Prop :=
  match l with
  | TradeLog _ => False
  | _ => True
  end.

(** What a search for an entry into [symbol] at [price] and [now] may do
    to the positions and the ledger, with the trade records it writes:
    nothing, or open one position and record it. *)
Definition entryStep (symbol : string) (price : Q) (now : Z)
    (before after : Strategy.StrategyState * Risk.RiskState)
    (events : list TradeEvent) : Prop :=
  (Strategy.positions (fst after) = Strategy.positions (fst before)
   /\ snd after = snd before /\ events = [])
  \/ (exists p,
        Strategy.positions (fst after)
        = <[symbol := p]> (Strategy.positions (fst before))
        /\ snd after
           = Risk.recordPosition (snd before) symbol price (signedQuantity p) now
        /\ events = [entryEvent p]
        /\ Strategy.symbol p = symbol /\ Strategy.entryPrice p = price
        /\ Strategy.entryTime p = now).

(** *** The replay report *)

(** The sum of the P&L of a list of trades. *)
Definition sumPnL (trades : list Backtest.TradeRecord) : Q :=
  fold_right (fun trade acc => Backtest.pnl trade + acc) 0 trades.

(** *** Example data *)

(** A host and an empty trace to run examples on. *)
Definition host0 : Host := mkHost (fun _ => 1 # 2) (fun n => Z.of_nat n).

Definition trace0 : Trace := mkTrace 0 0 [].

(** A ledger and configuration for examples: session VWAP, a 2% entry
    threshold, no confirmation, permissive RSI bounds and filters, every
    limit generous, a five-minute cooldown. *)
Definition exampleRisk : Config.RiskConfig :=
  {| Config.stop_loss_pct := 0.01;
     Config.take_profit_pct := 0.02;
     Config.max_daily_loss := 500;
     Config.max_hold_seconds := None;
     Config.trailing_stop := false;
     Config.trailing_stop_pct := 0.005;
     Config.max_trades_per_day := 10;
     Config.max_losses_per_day := 10;
     Config.cooldown_minutes := 5 |}.

Definition configWith (schedule : Config.Schedule) : Config.Config :=
  {| Config.trading := {| Config.schedule := schedule |};
     Config.strategy :=
       {| Config.vwap :=
            {| Config.period := 0;
               Config.entry_threshold := 0.02;
               Config.require_confirmation := Some false |};
          Config.filters :=
            {| Config.min_volume_mult := 0;
               Config.chop_threshold := 3;
               Config.rsi_period := None;
               Config.rsi_oversold := Some 101;
               Config.rsi_overbought := Some (-1);
               Config.min_atr_pct := None |};
          Config.position :=
            {| Config.size := 10;
               Config.sizing_type := None;
               Config.max_risk_pct := None;
               Config.max_positions := 5 |};
          Config.risk := exampleRisk |};
     Config.backtesting := None |}.

(** The session open around the clock (00:00 to 24:00 UTC). *)
Definition allDay : Config.Schedule :=
  {| Config.start_time := (-5, 0)%Z; Config.end_time := (19, 0)%Z |}.

(** The regular session, 09:30 to 16:00 Eastern (14:30 to 21:00 UTC). *)
Definition regularHours : Config.Schedule :=
  {| Config.start_time := (9, 30)%Z; Config.end_time := (16, 0)%Z |}.

Definition exampleConfig : Config.Config := configWith allDay.

(** 2025-01-02T00:00:00Z. *)
Definition exampleDay : Z := 1735776000000.

(** 2025-01-02T15:00:00Z, inside the session. *)
Definition exampleOpen : Z := (exampleDay + 15 * msPerHour)%Z.

(** Times of day on the example date, UTC. *)
Definition clockAt (hour minute : Z) : Z :=
  (exampleDay + hour * msPerHour + minute * msPerMinute)%Z.

Definition exampleLedger : Risk.RiskState :=
  Risk.createRiskState 0 exampleConfig exampleDay.

Definition withLastLoss (state : Risk.RiskState) (t : option Z)
    : Risk.RiskState :=
  {| Risk.config := Risk.config state;
     Risk.dailyPnL := Risk.dailyPnL state;
     Risk.currentBalance := Risk.currentBalance state;
     Risk.positions := Risk.positions state;
     Risk.dailyResetTime := Risk.dailyResetTime state;
     Risk.tradesToday := Risk.tradesToday state;
     Risk.lossesToday := Risk.lossesToday state;
     Risk.lastLossTime := t |}.

(** Bars one minute apart from [start], each with its close as high and
    low, all of one volume. *)
Definition barsFrom (start : Z) (volume : Q) (closes : list Q)
    : list Backtest.Bar :=
  imap (fun i close =>
          Backtest.mkBar (start + Z.of_nat i * msPerMinute) close close close
            volume)
       closes.

Definition fiveBars : list Backtest.Bar :=
  barsFrom exampleOpen 1000 [100; 100; 100; 95; 95].

Definition sixteenBars : list Backtest.Bar :=
  barsFrom exampleOpen 1000 (replicate 14 100 ++ [95; 95]).

(** A session window of fifteen samples: fourteen at 100, then 95. *)
Definition exampleWindow : Vwap.VWAPState :=
  result (feed (Vwap.createVWAPState 0)
            (replicate 14 (100, 1000) ++ [(95, 1000)])) host0 trace0.

(** A session window of one sample. *)
Definition shortWindow : Vwap.VWAPState :=
  result (feed (Vwap.createVWAPState 0) [(96, 1000)]) host0 trace0.

(** A long of ten shares entered at 95 at 15:14 UTC, with the stop 1%
    below and the target 2% above, in both maps. *)
Definition heldPosition : Strategy.Position :=
  {| Strategy.symbol := "SPY";
     Strategy.side := long;
     Strategy.entryPrice := 95;
     Strategy.quantity := 10;
     Strategy.entryTime := (exampleOpen + 14 * msPerMinute)%Z;
     Strategy.stopLoss := 95 * (1 - 0.01);
     Strategy.takeProfit := 95 * (1 + 0.02);
     Strategy.trailingStop := None |}.

Definition heldStrategy : Strategy.StrategyState :=
  {| Strategy.config := exampleConfig;
     Strategy.positions := {[ "SPY" := heldPosition ]};
     Strategy.pendingSignals := ∅ |}.

Definition heldLedger : Risk.RiskState :=
  Risk.recordPosition exampleLedger "SPY" 95 10
    (exampleOpen + 14 * msPerMinute)%Z.

(** A flat strategy state that waits for the confirmation of a long
    raised at [raisedAt]. *)
Definition pendingLong (config : Config.Config) (raisedAt : Z)
    : Strategy.StrategyState :=
  {| Strategy.config := config;
     Strategy.positions := ∅;
     Strategy.pendingSignals :=
       {[ "SPY" := Strategy.mkPendingSignal Strategy.potential_long raisedAt 95 ]} |}.

(** A host whose clock reads [now] at every call. *)
Definition fixedClock (now : Z) : Host := mkHost (fun _ => 1 # 2) (fun _ => now).

(** Fourteen bars at 100, one at 95 and one at 97: under the example
    configuration a long opened at 95 meets its target at 97. *)
Definition roundTripBars : list Backtest.Bar :=
  barsFrom exampleOpen 1000 (replicate 14 100 ++ [95; 97]).

(** A configuration with another VWAP period. *)
Definition withPeriod (config : Config.Config) (period : nat) : Config.Config :=
  {| Config.trading := Config.trading config;
     Config.strategy :=
       {| Config.vwap :=
            {| Config.period := period;
               Config.entry_threshold :=
                 Config.entry_threshold (Config.vwap (Config.strategy config));
               Config.require_confirmation :=
                 Config.require_confirmation
                   (Config.vwap (Config.strategy config)) |};
          Config.filters := Config.filters (Config.strategy config);
          Config.position := Config.position (Config.strategy config);
          Config.risk := Config.risk (Config.strategy config) |};
     Config.backtesting := Config.backtesting config |}.

(** * Properties *)

(** ** Comparisons on rationals *)

Lemma Qltb_lt (x y : Q) : Qltb x y = true <-> x < y.
Proof.
  unfold Qltb. rewrite negb_true_iff, <- not_true_iff_false, Qle_bool_iff.
  split; [apply Qnot_le_lt | apply Qlt_not_le].
Qed.

Lemma Qltb_ge (x y : Q) : Qltb x y = false <-> y <= x.
Proof.
  unfold Qltb. rewrite negb_false_iff. apply Qle_bool_iff.
Qed.

Lemma Qeq_bool_false (x y : Q) : Qeq_bool x y = false <-> ~ x == y.
Proof.
  rewrite <- not_true_iff_false, Qeq_bool_iff. reflexivity.
Qed.


(** ** The monad *)

Ltac run_monad :=
  unfold sampled, when, result, written in *;
  unfold mbind, M_bind, bind, mret, M_ret, ret, emit, mathRandom, dateNow in *;
  cbv beta iota zeta in *.

Lemma result_bind {A B} (m : M A) (f : A -> M B) (h : Host) (t : Trace) :
  result (x ← m; f x) h t = result (f (result m h t)) h (snd (m h t)).
Proof. unfold result, mbind, M_bind, bind. destruct (m h t). reflexivity. Qed.

Lemma result_mret {A} (a : A) (h : Host) (t : Trace) : result (mret a) h t = a.
Proof. reflexivity. Qed.

Lemma written_bind {A B} (m : M A) (f : A -> M B) (h : Host) (t : Trace) :
  written (x ← m; f x) h t = written (f (result m h t)) h (snd (m h t)).
Proof. unfold written, result, mbind, M_bind, bind. destruct (m h t). reflexivity. Qed.

Lemma written_mret {A} (a : A) (h : Host) (t : Trace) :
  written (mret a) h t = output t.
Proof. reflexivity. Qed.

(** ** The VWAP window *)

Lemma sumPriceVolume_app (xs ys : list Sample) :
  sumPriceVolume (xs ++ ys) == sumPriceVolume xs + sumPriceVolume ys.
Proof.
  induction xs as [|[p v] xs IH]; simpl.
  - ring.
  - rewrite IH. ring.
Qed.
Lemma sumVolume_app (xs ys : list Sample) :
  sumVolume (xs ++ ys) == sumVolume xs + sumVolume ys.
Proof.
  induction xs as [|[p v] xs IH]; simpl.
  - ring.
  - rewrite IH. ring.
Qed.
Lemma slice_last_snoc {A} (p : nat) (xs : list A) (x : A) :
  (0 < p)%nat ->
  slice_last p (xs ++ [x]) =
    if (p <? length (slice_last p xs ++ [x]))%nat
    then tl (slice_last p xs ++ [x])
    else slice_last p xs ++ [x].
Proof.
  intros Hp. unfold slice_last.
  rewrite !length_app, !length_drop. simpl length.
  destruct (Nat.ltb_spec p (length xs - (length xs - p) + 1)) as [Hlt|Hge].
  - assert (Hlen : (p <= length xs)%nat) by lia.
    replace (length xs + 1 - p)%nat with (S (length xs - p)) by lia.
    rewrite drop_app_le by lia.
    destruct (lookup_lt_is_Some_2 xs (length xs - p)) as [y Hy]; [lia|].
    rewrite (drop_S _ _ _ Hy). reflexivity.
  - replace (length xs + 1 - p)%nat with 0%nat by lia.
    replace (length xs - p)%nat with 0%nat by lia.
    reflexivity.
Qed.

Lemma updateVWAP_invariant (p : nat) (xs : list Sample) (st : Vwap.VWAPState)
    (price volume : Q) (high low : option Q) (h : Host) (t : Trace) :
  windowInvariant p xs st ->
  windowInvariant p (xs ++ [(price, volume)])
    (result (Vwap.updateVWAP st price volume high low) h t).
Proof.
  unfold windowInvariant.
  intros (Hp & Hkept & Hpv & Hv).
  unfold result, Vwap.updateVWAP, mbind, M_bind, bind, dateNow.
  cbn [fst snd reads].
  set (d := Vwap.mkVWAPData _ _ _ _ _ _).
  assert (Hmap : map sampleOf (Vwap.dataPoints st ++ [d])
                 = retained p xs ++ [(price, volume)]).
  { rewrite map_app, Hkept. reflexivity. }
  assert (Hlen : length (Vwap.dataPoints st ++ [d])
                 = length (retained p xs ++ [(price, volume)])).
  { rewrite <- Hmap, length_map. reflexivity. }
  rewrite Hp, Hlen.
  assert (Hnew : retained p (xs ++ [(price, volume)]) =
    if ((0 <? p)%nat && (p <? length (retained p xs ++ [(price, volume)]))%nat)%bool
    then tl (retained p xs ++ [(price, volume)])
    else retained p xs ++ [(price, volume)]).
  { unfold retained. destruct (Nat.eqb_spec p 0) as [->|Hnz]; [reflexivity|].
    assert (Hpos : (0 < p)%nat) by lia.
    apply Nat.ltb_lt in Hpos as ->. apply slice_last_snoc. lia. }
  rewrite Hnew.
  destruct ((0 <? p)%nat && (p <? length (retained p xs ++ [(price, volume)]))%nat)%bool;
    unfold mret, M_ret, ret;
    cbn [fst Vwap.period Vwap.dataPoints
         Vwap.cumulativePriceVolume Vwap.cumulativeVolume].
  - destruct (Vwap.dataPoints st) as [|d0 ds] eqn:Hds.
    + cbn [map] in Hkept. rewrite <- Hkept in *.
      cbn [app hd tl map sumPriceVolume sumVolume] in *.
      change (Vwap.price d) with price. change (Vwap.volume d) with volume.
      repeat split; [rewrite Hpv | rewrite Hv]; ring.
    + cbn [app hd tl]. cbn [app map] in Hmap. rewrite <- Hkept in *.
      cbn [map app tl sumPriceVolume sumVolume] in *.
      apply (f_equal tl) in Hmap. cbn [tl] in Hmap.
      unfold sampleOf at 1 in Hpv. unfold sampleOf at 1 in Hv.
      repeat split.
      * exact Hmap.
      * rewrite <- Hmap, map_app, sumPriceVolume_app, Hpv.
        cbn [map sumPriceVolume sampleOf]. change (Vwap.price d) with price.
        change (Vwap.volume d) with volume. ring.
      * rewrite <- Hmap, map_app, sumVolume_app, Hv.
        cbn [map sumVolume sampleOf]. change (Vwap.volume d) with volume. ring.
  - repeat split.
    + exact Hmap.
    + rewrite sumPriceVolume_app, Hpv. cbn [sumPriceVolume]. ring.
    + rewrite sumVolume_app, Hv. cbn [sumVolume]. ring.
Qed.

Lemma ingested_invariant (p : nat) (xs : list Sample) (st : Vwap.VWAPState) :
  ingested p xs st -> windowInvariant p xs st.
Proof.
  induction 1 as [|xs st price volume high low h t _ IH].
  - unfold windowInvariant, retained, slice_last. cbn.
    destruct (p =? 0)%nat; repeat split; reflexivity.
  - apply updateVWAP_invariant, IH.
Qed.




(** C7.  [getVWAP] returns [null] exactly when the cumulative volume is 0
    or the period is positive and fewer than period samples are retained;
    whenever it returns a number, that number is
    [cumulativePriceVolume / cumulativeVolume] and the divisor is not
    zero. *)
Theorem getVWAP_none_exactly (st : Vwap.VWAPState) :
  (Vwap.getVWAP st = None <->
     Vwap.cumulativeVolume st == 0
     \/ (0 < Vwap.period st
         /\ length (Vwap.dataPoints st) < Vwap.period st)%nat)
  /\ (forall q, Vwap.getVWAP st = Some q ->
        q = Vwap.cumulativePriceVolume st / Vwap.cumulativeVolume st
        /\ ~ Vwap.cumulativeVolume st == 0).
Proof.
  unfold Vwap.getVWAP.
  destruct (Qeq_bool (Vwap.cumulativeVolume st) 0) eqn:Hz.
  - apply Qeq_bool_iff in Hz. split; [tauto | discriminate].
  - apply Qeq_bool_false in Hz.
    destruct ((0 <? Vwap.period st)%nat
              && (length (Vwap.dataPoints st) <? Vwap.period st)%nat)%bool
      eqn:Hshort.
    + apply andb_true_iff in Hshort as [Hp Hl].
      apply Nat.ltb_lt in Hp, Hl. split; [tauto | discriminate].
    + split.
      * split; [discriminate|]. intros [Hv | [Hp Hl]]; [tauto|].
        apply Nat.ltb_lt in Hp, Hl. rewrite Hp, Hl in Hshort. discriminate.
      * intros q [= <-]. split; [reflexivity | exact Hz].
Qed.

(** ** The risk ledger *)

Lemma lossTimeTruthy_Some (t : option Z) (v : Z) :
  Risk.lossTimeTruthy t = Some v <-> t = Some v /\ v <> 0%Z.
Proof.
  unfold Risk.lossTimeTruthy. destruct t as [u|]; [|split; [discriminate | intros [? _]; discriminate]].
  destruct (Z.eqb_spec u 0) as [->|Hu].
  - split; [discriminate | intros [[= <-] Hv]; congruence].
  - split; [intros [= <-]; auto | intros [[= <-] _]; reflexivity].
Qed.

Lemma canOpenPosition_false_iff (state : Risk.RiskState) (now : Z)
    (h : Host) (t : Trace) :
  result (Risk.canOpenPosition state now) h t = false <->
    gateFails state now PositionCap \/ gateFails state now TradeCap
    \/ gateFails state now LossCap \/ cooldownHolds state now
    \/ gateFails state now DailyLossCap.
Proof.
  unfold Risk.canOpenPosition, gateFails, cooldownHolds.
  destruct (Qle_bool _ (inject_Z _)) eqn:G1.
  { apply Qle_bool_iff in G1. run_monad. cbn. tauto. }
  destruct (Qle_bool _ (Risk.tradesToday state)) eqn:G2.
  { apply Qle_bool_iff in G2. run_monad. cbn. tauto. }
  destruct (Qle_bool _ (Risk.lossesToday state)) eqn:G3.
  { apply Qle_bool_iff in G3. run_monad. cbn. tauto. }
  apply not_true_iff_false in G1, G2, G3. rewrite Qle_bool_iff in G1, G2, G3.
  destruct (Risk.lossTimeTruthy (Risk.lastLossTime state)) as [lossTime|] eqn:HL.
  - apply lossTimeTruthy_Some in HL as [HL Hnz].
    destruct (Qltb _ (Config.cooldown_minutes _)) eqn:G4.
    + apply Qltb_lt in G4. rewrite result_bind, result_mret.
      split; auto; intros _; right; right; right; left; eauto.
    + apply Qltb_ge in G4.
      destruct (Qle_bool (Risk.dailyPnL state) _) eqn:G5.
      * apply Qle_bool_iff in G5. run_monad. cbn. tauto.
      * apply not_true_iff_false in G5. rewrite Qle_bool_iff in G5.
        run_monad. cbn. split; [discriminate|].
        intros [?|[?|[?|[(u & Hu & _ & Hlt)|?]]]]; try tauto.
        rewrite HL in Hu. injection Hu as <-.
        exfalso. apply (Qlt_not_le _ _ Hlt G4).
  - assert (Hno : ~ exists lossTime, Risk.lastLossTime state = Some lossTime
                     /\ lossTime <> 0%Z
                     /\ Risk.minutesBetween now lossTime
                        < Config.cooldown_minutes (Risk.riskConfig state)).
    { intros (u & Hu & Hnz & _).
      assert (Risk.lossTimeTruthy (Risk.lastLossTime state) = Some u)
        by (apply lossTimeTruthy_Some; auto).
      congruence. }
    destruct (Qle_bool (Risk.dailyPnL state) _) eqn:G5.
    + apply Qle_bool_iff in G5. run_monad. cbn. tauto.
    + apply not_true_iff_false in G5. rewrite Qle_bool_iff in G5.
      run_monad. cbn. split; [discriminate|]. tauto.
Qed.

Lemma written_sampled (p : Q) (l : LogLine) (h : Host) (t : Trace) :
  exists ls, output (snd (sampled p (emit l) h t)) = output t ++ ls
             /\ (ls = [] \/ ls = [l]).
Proof.
  run_monad. destruct (Qltb _ p); cbn.
  - exists [l]. auto.
  - exists []. rewrite app_nil_r. auto.
Qed.

(** X7.  When the loss time of the ledger is not the time value 0 and a
    gate fails while every gate before it in the order position cap,
    trade cap, loss cap, cooldown, daily loss cap passes,
    [canOpenPosition] answers false and what it writes is the line of
    that gate: exactly one line, except for the cooldown, whose line is
    written on a sampled basis. *)
Lemma canOpenPosition_reports_first_failing (state : Risk.RiskState) (now : Z)
    (h : Host) (t : Trace) (g : Gate) :
  Risk.lastLossTime state <> Some 0%Z ->
  gateFails state now g ->
  Forall (fun g' => ~ gateFails state now g') (gatesBefore g) ->
  result (Risk.canOpenPosition state now) h t = false
  /\ exists ls, written (Risk.canOpenPosition state now) h t = output t ++ ls
                /\ Forall (isReasonOf g) ls
                /\ (g <> Cooldown -> length ls = 1%nat).
Proof.
  intros Hnz Hfail Hbefore.
  assert (Hpass : forall g', In g' (gatesBefore g) -> ~ gateFails state now g').
  { intros g' Hin. rewrite Forall_forall in Hbefore. apply Hbefore.
    apply list_elem_of_In. exact Hin. }
  unfold Risk.canOpenPosition.
  destruct (Qle_bool _ (inject_Z _)) eqn:G1.
  { apply Qle_bool_iff in G1.
    destruct g; try (exfalso; apply (Hpass PositionCap); [cbn; tauto | exact G1]).
    split; [reflexivity|]. exists [MaxPositionsReached].
    repeat split; [repeat constructor]. }
  apply not_true_iff_false in G1. rewrite Qle_bool_iff in G1.
  destruct g; [contradiction| | | |].
  all: destruct (Qle_bool _ (Risk.tradesToday state)) eqn:G2.
  all: try (apply Qle_bool_iff in G2).
  all: try (exfalso; apply (Hpass TradeCap); [cbn; tauto | exact G2]).
  all: try (apply not_true_iff_false in G2; rewrite Qle_bool_iff in G2).
  all: try contradiction.
  { split; [reflexivity|]. exists [MaxDailyTradesReached].
    repeat split; [repeat constructor]. }
  all: destruct (Qle_bool _ (Risk.lossesToday state)) eqn:G3.
  all: try (apply Qle_bool_iff in G3).
  all: try (exfalso; apply (Hpass LossCap); [cbn; tauto | exact G3]).
  all: try (apply not_true_iff_false in G3; rewrite Qle_bool_iff in G3).
  all: try contradiction.
  { split; [reflexivity|]. exists [MaxDailyLossesReached].
    repeat split; [repeat constructor]. }
  - (* cooldown *)
    destruct Hfail as (lossTime & HL & Hlt).
    assert (HT : Risk.lossTimeTruthy (Risk.lastLossTime state) = Some lossTime).
    { apply lossTimeTruthy_Some. split; [exact HL | congruence]. }
    rewrite HT. apply Qltb_lt in Hlt. rewrite Hlt.
    split; [rewrite result_bind; reflexivity|].
    rewrite written_bind, written_mret.
    destruct (written_sampled 0.001
                (InCooldown (Config.cooldown_minutes (Risk.riskConfig state)
                             - Risk.minutesBetween now lossTime)) h t)
      as (ls & Hls & Hone).
    exists ls. split; [exact Hls|]. split; [|congruence].
    destruct Hone as [-> | ->]; repeat constructor.
  - (* daily loss, the cooldown gate having passed *)
    assert (Hcool : ~ gateFails state now Cooldown).
    { apply Hpass. cbn. tauto. }
    apply Qle_bool_iff in Hfail.
    assert (Hfinal :
      result (if Qle_bool (Risk.dailyPnL state)
                   (- Config.max_daily_loss (Risk.riskConfig state))
              then emit (DailyLossLimit (Risk.dailyPnL state));; mret false
              else mret true) h t = false
      /\ exists ls,
           written (if Qle_bool (Risk.dailyPnL state)
                         (- Config.max_daily_loss (Risk.riskConfig state))
                    then emit (DailyLossLimit (Risk.dailyPnL state));; mret false
                    else mret true) h t = output t ++ ls
           /\ Forall (isReasonOf DailyLossCap) ls
           /\ (DailyLossCap <> Cooldown -> length ls = 1%nat)).
    { rewrite Hfail. split; [reflexivity|].
      exists [DailyLossLimit (Risk.dailyPnL state)].
      repeat split; repeat constructor. }
    destruct (Risk.lossTimeTruthy (Risk.lastLossTime state)) as [lossTime|] eqn:HL;
      [|exact Hfinal].
    apply lossTimeTruthy_Some in HL as [HL _].
    destruct (Qltb _ (Config.cooldown_minutes _)) eqn:G4; [|exact Hfinal].
    exfalso. apply Hcool. exists lossTime. split; [exact HL|].
    apply Qltb_lt. exact G4.
Qed.

Lemma canOpenPosition_true_silent (state : Risk.RiskState) (now : Z)
    (h : Host) (t : Trace) :
  result (Risk.canOpenPosition state now) h t = true ->
  written (Risk.canOpenPosition state now) h t = output t.
Proof.
  unfold Risk.canOpenPosition.
  repeat match goal with
         | |- context [if ?b then _ else _] => destruct b
         | |- context [match ?x with Some _ => _ | None => _ end] => destruct x
         end; try discriminate; try reflexivity;
    rewrite result_bind; discriminate.
Qed.

(** At the epoch loss time the cooldown gate of the specification fails,
    and the code opens all the same. *)
(** C2, at the input where the code departs from it.  With every other
    gate open, a last loss stamped at time value 0 and the clock one
    minute later, the cooldown gate of the specification fails (one minute
    is less than the five configured), yet [canOpenPosition] answers
    [true]: [if (state.lastLossTime)] reads the time value 0 as unset. *)
Theorem canOpenPosition_epoch_loss_time :
  let state := withLastLoss exampleLedger (Some 0%Z) in
  let now := 60000%Z in
  gateFails state now Cooldown
  /\ result (Risk.canOpenPosition state now) host0 trace0 = true.
Proof.
  split.
  - exists 0%Z. split; [reflexivity|]. reflexivity.
  - vm_compute. reflexivity.
Qed.

(** ** Closing a position *)

(** C6.  [closePosition] removes the instrument's entry from the open
    positions, adds the realized P&L to [dailyPnL] and to
    [currentBalance], and increments [tradesToday]; when the P&L is
    negative it increments [lossesToday] and stamps [lastLossTime] with
    the close time, and otherwise leaves both as they were. *)
Theorem closePosition_bookkeeping (state : Risk.RiskState) (symbol : string)
    (pnl : Q) (now : Z) (h : Host) (t : Trace) :
  let state' := result (Risk.closePosition state symbol pnl now) h t in
  Risk.positions state' = delete symbol (Risk.positions state)
  /\ Risk.positions state' !! symbol = None
  /\ Risk.dailyPnL state' = Risk.dailyPnL state + pnl
  /\ Risk.currentBalance state' = Risk.currentBalance state + pnl
  /\ Risk.tradesToday state' = Risk.tradesToday state + 1
  /\ (pnl < 0 ->
      Risk.lossesToday state' = Risk.lossesToday state + 1
      /\ Risk.lastLossTime state' = Some now)
  /\ (0 <= pnl ->
      Risk.lossesToday state' = Risk.lossesToday state
      /\ Risk.lastLossTime state' = Risk.lastLossTime state).
Proof.
  intros state'. subst state'. unfold Risk.closePosition.
  rewrite !result_bind, result_mret. cbn [Risk.positions Risk.dailyPnL
    Risk.currentBalance Risk.tradesToday Risk.lossesToday Risk.lastLossTime].
  split; [reflexivity|]. split; [apply lookup_delete_eq|].
  do 3 (split; [reflexivity|]). split.
  - intros Hloss. apply Qltb_lt in Hloss. rewrite Hloss. split; reflexivity.
  - intros Hgain. apply Qltb_ge in Hgain. rewrite Hgain. split; reflexivity.
Qed.

(** ** The daily reset *)

Lemma nextLocalMidnight_spec (tz now : Z) :
  let next := nextLocalMidnight tz now in
  (now < next <= now + msPerDay)%Z /\ ((next + tz) mod msPerDay = 0)%Z.
Proof.
  unfold nextLocalMidnight, msPerDay. cbv zeta.
  pose proof (Z.div_mod (now + tz) 86400000 ltac:(lia)) as Hdm.
  pose proof (Z.mod_pos_bound (now + tz) 86400000 ltac:(lia)) as Hb.
  split; [lia|].
  replace (((now + tz) / 86400000 + 1) * 86400000 - tz + tz)%Z
    with (((now + tz) / 86400000 + 1) * 86400000)%Z by lia.
  apply Z.mod_mul. lia.
Qed.

Lemma checkDailyReset_before (tz : Z) (state : Risk.RiskState) (now : Z)
    (h : Host) (t : Trace) :
  (now < Risk.dailyResetTime state)%Z ->
  result (Risk.checkDailyReset tz state now) h t = state.
Proof.
  intros Hlt. unfold Risk.checkDailyReset.
  apply Z.ltb_lt in Hlt. rewrite Hlt. reflexivity.
Qed.

Lemma checkDailyReset_after (tz : Z) (state : Risk.RiskState) (now : Z)
    (h : Host) (t : Trace) :
  (Risk.dailyResetTime state <= now)%Z ->
  let state' := result (Risk.checkDailyReset tz state now) h t in
  Risk.dailyPnL state' = 0 /\ Risk.tradesToday state' = 0
  /\ Risk.lossesToday state' = 0
  /\ Risk.dailyResetTime state' = nextLocalMidnight tz now
  /\ Risk.lastLossTime state' = Risk.lastLossTime state
  /\ Risk.positions state' = Risk.positions state
  /\ Risk.currentBalance state' = Risk.currentBalance state
  /\ Risk.config state' = Risk.config state.
Proof.
  intros Hge. unfold Risk.checkDailyReset.
  apply Z.ltb_ge in Hge. rewrite Hge. cbv zeta.
  rewrite result_bind, result_mret. cbn. repeat split.
Qed.

Lemma resetDailyPnL_clears_lastLossTime (tz : Z) (state : Risk.RiskState)
    (h : Host) (t : Trace) :
  Risk.lastLossTime (result (Risk.resetDailyPnL tz state) h t) = None.
Proof.
  unfold Risk.resetDailyPnL. rewrite !result_bind, result_mret. reflexivity.
Qed.

(** C3, at an input where the code departs from it.  At the reset
    boundary [checkDailyReset] zeroes the three daily counters and moves
    the boundary to the next local midnight, but the ledger it returns
    still carries the loss time of the day before; [resetDailyPnL], the
    reset of the live path, clears it on the same ledger. *)
Theorem checkDailyReset_keeps_lastLossTime :
  let state := withLastLoss exampleLedger (Some (exampleDay + 3600000)%Z) in
  let now := Risk.dailyResetTime state in
  let state' := result (Risk.checkDailyReset 0 state now) host0 trace0 in
  Risk.dailyPnL state' = 0 /\ Risk.tradesToday state' = 0
  /\ Risk.lossesToday state' = 0
  /\ Risk.dailyResetTime state' = (now + msPerDay)%Z
  /\ Risk.lastLossTime state' = Some (exampleDay + 3600000)%Z
  /\ Risk.lastLossTime (result (Risk.resetDailyPnL 0 state) host0 trace0) = None.
Proof.
  vm_compute. repeat split.
Qed.

(** ** Results that do not depend on the host *)

Create HintDb hostfree.

Lemma hostFree_mret {A} (a : A) : hostFree (mret a).
Proof. intros h1 t1 h2 t2. reflexivity. Qed.

Lemma hostFree_unit (m : M unit) : hostFree m.
Proof.
  intros h1 t1 h2 t2. unfold result.
  destruct (m h1 t1) as [[] ?], (m h2 t2) as [[] ?]. reflexivity.
Qed.

Lemma hostFree_bind {A B} (m : M A) (f : A -> M B) :
  hostFree m -> (forall a, hostFree (f a)) -> hostFree (x ← m; f x).
Proof.
  intros Hm Hf h1 t1 h2 t2. rewrite !result_bind.
  rewrite (Hm h1 t1 h2 t2). apply Hf.
Qed.

#[local] Hint Resolve hostFree_mret hostFree_unit : hostfree.

Ltac host_free :=
  repeat first
    [ solve [auto with hostfree]
    | apply hostFree_mret
    | apply hostFree_unit
    | apply hostFree_bind; [| intros ?]
    | match goal with
      | |- hostFree (if ?b then _ else _) => destruct b
      | |- hostFree (match ?x with Some _ => _ | None => _ end) => destruct x
      | |- hostFree (match ?x with long => _ | short => _ end) => destruct x
      | |- hostFree (match ?x with
                     | Strategy.potential_long => _
                     | Strategy.potential_short => _
                     end) => destruct x
      | |- hostFree (let '(_, _) := ?x in _) => destruct x
      end ].

Lemma canOpenPosition_hostFree (state : Risk.RiskState) (now : Z) :
  hostFree (Risk.canOpenPosition state now).
Proof. unfold Risk.canOpenPosition. cbv zeta. host_free. Qed.

Lemma closePosition_hostFree (state : Risk.RiskState) (symbol : string)
    (pnl : Q) (now : Z) :
  hostFree (Risk.closePosition state symbol pnl now).
Proof. unfold Risk.closePosition. cbv zeta. host_free. Qed.

Lemma checkDailyReset_hostFree (tz : Z) (state : Risk.RiskState) (now : Z) :
  hostFree (Risk.checkDailyReset tz state now).
Proof. unfold Risk.checkDailyReset. cbv zeta. host_free. Qed.

#[local] Hint Resolve canOpenPosition_hostFree closePosition_hostFree
  checkDailyReset_hostFree : hostfree.

Lemma enterLongPosition_hostFree s r symbol (entryPrice : Q) (now : Z) :
  hostFree (Strategy.enterLongPosition s r symbol entryPrice now).
Proof. unfold Strategy.enterLongPosition. cbv zeta. host_free. Qed.

Lemma enterShortPosition_hostFree s r symbol (entryPrice : Q) (now : Z) :
  hostFree (Strategy.enterShortPosition s r symbol entryPrice now).
Proof. unfold Strategy.enterShortPosition. cbv zeta. host_free. Qed.

Lemma exitPosition_hostFree s r symbol (exitPrice : Q) reason (pnl : Q)
    (now : Z) :
  hostFree (Strategy.exitPosition s r symbol exitPrice reason pnl now).
Proof. unfold Strategy.exitPosition. cbv zeta. host_free. Qed.

#[local] Hint Resolve enterLongPosition_hostFree enterShortPosition_hostFree
  exitPosition_hostFree : hostfree.

Lemma managePosition_hostFree s r symbol (currentPrice vwap : Q) position
    (now : Z) :
  hostFree (Strategy.managePosition s r symbol currentPrice vwap position now).
Proof. unfold Strategy.managePosition. cbv zeta. host_free. Qed.

Lemma checkEntrySignals_hostFree s r symbol (currentPrice vwap : Q) slope
    (atr rsi : Q) vwapState (now : Z) :
  hostFree (Strategy.checkEntrySignals s r symbol currentPrice vwap slope atr
              rsi vwapState now).
Proof. unfold Strategy.checkEntrySignals. cbv zeta. host_free. Qed.

#[local] Hint Resolve managePosition_hostFree checkEntrySignals_hostFree
  : hostfree.

Lemma evaluateStrategy_hostFree s r symbol (currentPrice vwap : Q) vwapState
    (now : Z) :
  hostFree (Strategy.evaluateStrategy s r symbol currentPrice vwap vwapState
              now).
Proof. unfold Strategy.evaluateStrategy. cbv zeta. host_free. Qed.

(** ** Entries and exits *)

Lemma closePosition_positions state symbol (pnl : Q) (now : Z) h t :
  Risk.positions (result (Risk.closePosition state symbol pnl now) h t)
  = delete symbol (Risk.positions state).
Proof.
  unfold Risk.closePosition. rewrite !result_bind, result_mret. reflexivity.
Qed.

Lemma closePosition_dailyPnL state symbol (pnl : Q) (now : Z) h t :
  Risk.dailyPnL (result (Risk.closePosition state symbol pnl now) h t)
  = Risk.dailyPnL state + pnl.
Proof.
  unfold Risk.closePosition. rewrite !result_bind, result_mret. reflexivity.
Qed.

Lemma tradeEvents_app (xs ys : list LogLine) :
  tradeEvents (xs ++ ys) = tradeEvents xs ++ tradeEvents ys.
Proof. apply omap_app. Qed.

Lemma closePosition_written state symbol (pnl : Q) (now : Z) h t :
  tradeEvents (written (Risk.closePosition state symbol pnl now) h t)
  = tradeEvents (output t).
Proof.
  unfold Risk.closePosition. cbv zeta. run_monad.
  destruct (Qle_bool _ _); cbn [snd output];
    rewrite ?tradeEvents_app; cbn; rewrite ?app_nil_r; reflexivity.
Qed.

Lemma enterLongPosition_result s r symbol (entryPrice : Q) (now : Z) h t :
  exists p,
    result (Strategy.enterLongPosition s r symbol entryPrice now) h t
    = (Strategy.withPositions s (<[symbol := p]> (Strategy.positions s)),
       Risk.recordPosition r symbol entryPrice
         (Strategy.entryQuantity s r entryPrice) now)
    /\ Strategy.quantity p = Strategy.entryQuantity s r entryPrice
    /\ Strategy.side p = long /\ Strategy.entryPrice p = entryPrice
    /\ Strategy.entryTime p = now /\ Strategy.symbol p = symbol.
Proof.
  unfold Strategy.enterLongPosition. cbv zeta.
  rewrite !result_bind, result_mret. eexists. split; [reflexivity|].
  repeat split.
Qed.

Lemma enterShortPosition_result s r symbol (entryPrice : Q) (now : Z) h t :
  exists p,
    result (Strategy.enterShortPosition s r symbol entryPrice now) h t
    = (Strategy.withPositions s (<[symbol := p]> (Strategy.positions s)),
       Risk.recordPosition r symbol entryPrice
         (- Strategy.entryQuantity s r entryPrice) now)
    /\ Strategy.quantity p = Strategy.entryQuantity s r entryPrice
    /\ Strategy.side p = short /\ Strategy.entryPrice p = entryPrice
    /\ Strategy.entryTime p = now /\ Strategy.symbol p = symbol.
Proof.
  unfold Strategy.enterShortPosition. cbv zeta.
  rewrite !result_bind, result_mret. eexists. split; [reflexivity|].
  repeat split.
Qed.

Lemma exitPosition_result s r symbol (exitPrice : Q) reason (pnl : Q)
    (now : Z) h t position :
  Strategy.positions s !! symbol = Some position ->
  result (Strategy.exitPosition s r symbol exitPrice reason pnl now) h t
  = (Strategy.withPositions s (delete symbol (Strategy.positions s)),
     result (Risk.closePosition r symbol pnl now) h t).
Proof.
  intros Hpos. unfold Strategy.exitPosition. rewrite Hpos. cbv zeta.
  rewrite !result_bind, result_mret. f_equal.
  apply closePosition_hostFree.
Qed.

Lemma exitPosition_written s r symbol (exitPrice : Q) reason (pnl : Q)
    (now : Z) h t position :
  Strategy.positions s !! symbol = Some position ->
  tradeEvents
    (written (Strategy.exitPosition s r symbol exitPrice reason pnl now) h t)
  = tradeEvents (output t)
    ++ [EXIT symbol (Strategy.side position) (Strategy.entryPrice position)
          exitPrice (Strategy.quantity position) pnl
          (xscale
             (jsdiv pnl
                (Strategy.entryPrice position * Strategy.quantity position))
             100)
          reason
          (Strategy.holdSeconds now (Strategy.entryTime position)) now].
Proof.
  intros Hpos. unfold Strategy.exitPosition. rewrite Hpos. cbv zeta.
  rewrite !written_bind, written_mret.
  set (t1 := snd (emit _ h t)).
  change (output (snd (emit ?l h ?u))) with (output u ++ [l]).
  rewrite tradeEvents_app.
  change (output (snd (Risk.closePosition r symbol pnl now h t1)))
    with (written (Risk.closePosition r symbol pnl now) h t1).
  rewrite closePosition_written. subst t1. cbn [emit snd output].
  rewrite tradeEvents_app. cbn. rewrite app_nil_r. reflexivity.
Qed.

Lemma exitPosition_step s r symbol (exitPrice : Q) reason (pnl : Q) (now : Z)
    h t :
  positionStep symbol (s, r)
    (result (Strategy.exitPosition s r symbol exitPrice reason pnl now) h t).
Proof.
  destruct (Strategy.positions s !! symbol) as [position|] eqn:Hpos.
  - rewrite (exitPosition_result _ _ _ _ _ _ _ _ _ _ Hpos).
    right; right; left. split; [reflexivity|]. apply closePosition_positions.
  - unfold Strategy.exitPosition. rewrite Hpos. left. split; reflexivity.
Qed.

Lemma enterLongPosition_step s r symbol (entryPrice : Q) (now : Z) h t :
  positionStep symbol (s, r)
    (result (Strategy.enterLongPosition s r symbol entryPrice now) h t).
Proof.
  destruct (enterLongPosition_result s r symbol entryPrice now h t)
    as (p & -> & _).
  right; left. eexists _, _. split; reflexivity.
Qed.

Lemma enterShortPosition_step s r symbol (entryPrice : Q) (now : Z) h t :
  positionStep symbol (s, r)
    (result (Strategy.enterShortPosition s r symbol entryPrice now) h t).
Proof.
  destruct (enterShortPosition_result s r symbol entryPrice now h t)
    as (p & -> & _).
  right; left. eexists _, _. split; reflexivity.
Qed.

Lemma positionStep_refl symbol s r : positionStep symbol (s, r) (s, r).
Proof. left. split; reflexivity. Qed.

(** Clearing or setting a pending signal first does not change the step. *)
Lemma positionStep_pending symbol s r ps after :
  positionStep symbol (Strategy.withPendingSignals s ps, r) after ->
  positionStep symbol (s, r) after.
Proof. destruct after. exact (fun H => H). Qed.

Lemma managePosition_step s r symbol (currentPrice vwap : Q) position
    (now : Z) h t :
  Strategy.positions s !! symbol = Some position ->
  positionStep symbol (s, r)
    (result (Strategy.managePosition s r symbol currentPrice vwap position now)
       h t).
Proof.
  intros Hpos. unfold Strategy.managePosition. cbv zeta.
  repeat match goal with
         | |- context [if ?b then _ else _] => destruct b
         | |- context [match ?x with Some _ => _ | None => _ end] => destruct x
         | |- context [match ?x with long => _ | short => _ end] => destruct x
         end;
    try apply exitPosition_step; try apply positionStep_refl;
    right; right; right; eexists; (split; [rewrite Hpos; eauto|]);
    split; reflexivity.
Qed.

Lemma positionStep_unchanged symbol s r s' :
  Strategy.positions s' = Strategy.positions s ->
  positionStep symbol (s, r) (s', r).
Proof. intros Hs. left. split; [exact Hs | reflexivity]. Qed.

Lemma checkEntrySignals_step s r symbol (currentPrice vwap : Q) slope
    (atr rsi : Q) vwapState (now : Z) h t :
  positionStep symbol (s, r)
    (result (Strategy.checkEntrySignals s r symbol currentPrice vwap slope atr
               rsi vwapState now) h t).
Proof.
  unfold Strategy.checkEntrySignals. cbv zeta.
  rewrite result_bind.
  destruct (result (Risk.canOpenPosition r now) h t); cbn [negb];
    [|apply positionStep_refl].
  rewrite result_bind.
  destruct (Strategy.beforeStart _ now); [apply positionStep_refl|].
  destruct (Strategy.afterEnd _ now); [apply positionStep_refl|].
  destruct (Strategy.lowVolume _ vwapState);
    [rewrite result_bind; apply positionStep_refl|].
  destruct (Strategy.lowVolatility _ atr currentPrice);
    [rewrite result_bind; apply positionStep_refl|].
  destruct (Strategy.choppy _ vwapState); [apply positionStep_refl|].
  destruct (Strategy.pendingSignals s !! symbol) as [pending|].
  - destruct (Strategy.type pending).
    + destruct (Qltb currentPrice vwap).
      * apply positionStep_unchanged. reflexivity.
      * eapply positionStep_pending. apply enterLongPosition_step.
    + destruct (Qltb vwap currentPrice).
      * apply positionStep_unchanged. reflexivity.
      * eapply positionStep_pending. apply enterShortPosition_step.
  - destruct (xlt_q _ _ && Qltb rsi _)%bool.
    + destruct (Config.require_confirmation _) as [[|]|].
      * rewrite result_bind, result_mret.
        apply positionStep_unchanged. reflexivity.
      * apply enterLongPosition_step.
      * rewrite result_bind, result_mret.
        apply positionStep_unchanged. reflexivity.
    + destruct (xgt_q _ _ && Qltb _ rsi)%bool; [|apply positionStep_refl].
      destruct (Config.require_confirmation _) as [[|]|].
      * rewrite result_bind, result_mret.
        apply positionStep_unchanged. reflexivity.
      * apply enterShortPosition_step.
      * rewrite result_bind, result_mret.
        apply positionStep_unchanged. reflexivity.
Qed.

Lemma evaluateStrategy_step s r symbol (currentPrice vwap : Q) vwapState
    (now : Z) h t :
  positionStep symbol (s, r)
    (result (Strategy.evaluateStrategy s r symbol currentPrice vwap vwapState
               now) h t).
Proof.
  unfold Strategy.evaluateStrategy. cbv zeta.
  destruct vwapState as [vs|]; [|apply positionStep_refl].
  destruct (Indicators.calculateRSI _ _); [|apply positionStep_refl].
  destruct (Indicators.calculateATR _ _); [|apply positionStep_refl].
  destruct (Strategy.positions s !! symbol) as [position|] eqn:Hpos.
  - destruct (Strategy.eodForceExit now).
    + apply exitPosition_step.
    + apply managePosition_step. exact Hpos.
  - apply checkEntrySignals_step.
Qed.

Lemma positionStep_consistent symbol s r s' r' :
  positionStep symbol (s, r) (s', r') -> consistent s r -> consistent s' r'.
Proof.
  unfold positionStep, consistent.
  intros [[-> ->] | [(p & i & -> & ->) | [[-> ->] | (p & Hin & -> & ->)]]] Hdom.
  - exact Hdom.
  - rewrite !dom_insert_L, Hdom. reflexivity.
  - rewrite !dom_delete_L, Hdom. reflexivity.
  - rewrite dom_insert_lookup_L by exact Hin. exact Hdom.
Qed.

Lemma positionStep_others symbol s r s' r' other :
  positionStep symbol (s, r) (s', r') -> other <> symbol ->
  Strategy.positions s' !! other = Strategy.positions s !! other
  /\ Risk.positions r' !! other = Risk.positions r !! other.
Proof.
  unfold positionStep.
  intros [[-> ->] | [(p & i & -> & ->) | [[-> ->] | (p & Hin & -> & ->)]]] Hne;
    rewrite ?lookup_insert_ne, ?lookup_delete_ne by congruence; auto.
Qed.

(** C10.  When the strategy-side positions and the ledger's open positions
    hold the same instruments before [evaluateStrategy], they hold the
    same instruments after it: the entries of every other instrument are
    untouched in both maps, and the evaluated instrument has a position
    exactly when it has a ledger entry. *)
Theorem evaluateStrategy_keeps_maps_consistent
    (s : Strategy.StrategyState) (r : Risk.RiskState) (symbol : string)
    (currentPrice vwap : Q) (vwapState : option Vwap.VWAPState) (now : Z)
    (h : Host) (t : Trace) :
  consistent s r ->
  let after :=
    result (Strategy.evaluateStrategy s r symbol currentPrice vwap vwapState
              now) h t in
  consistent (fst after) (snd after)
  /\ (forall other, other <> symbol ->
        Strategy.positions (fst after) !! other = Strategy.positions s !! other
        /\ Risk.positions (snd after) !! other = Risk.positions r !! other)
  /\ (is_Some (Strategy.positions (fst after) !! symbol)
      <-> is_Some (Risk.positions (snd after) !! symbol)).
Proof.
  intros Hcons after.
  pose proof (evaluateStrategy_step s r symbol currentPrice vwap vwapState now
                h t) as Hstep.
  fold after in Hstep. destruct after as [s' r']. cbn [fst snd].
  assert (Hc : consistent s' r') by (eapply positionStep_consistent; eauto).
  split; [exact Hc|]. split.
  - intros other Hne. eapply positionStep_others; eauto.
  - unfold consistent in Hc. rewrite <- !elem_of_dom, Hc. reflexivity.
Qed.

(** ** The end-of-day exit *)

Lemma eodForceExit_true (now : Z) :
  Strategy.eodForceExit now = true <->
  (20 <= getUTCHours now)%Z /\ (55 <= getUTCMinutes now)%Z.
Proof.
  unfold Strategy.eodForceExit. rewrite andb_true_iff, !Z.leb_le. reflexivity.
Qed.

(** C9, as the code has it.  With an open position, RSI and ATR defined
    on the window, and a time whose UTC hour is at least 20 and whose
    minute is at least 55, [evaluateStrategy] removes the position from
    both maps, books its P&L whatever its sign, and writes one trade
    record, an EXIT with reason EOD_FORCE_EXIT; no other exit condition
    is looked at. *)
Theorem eod_force_exit_closes_position
    (s : Strategy.StrategyState) (r : Risk.RiskState) (symbol : string)
    (currentPrice vwap : Q) (vwapState : Vwap.VWAPState) (now : Z)
    (h : Host) (t : Trace) (position : Strategy.Position) (rsi atr : Q) :
  Strategy.positions s !! symbol = Some position ->
  Indicators.calculateRSI (map Vwap.price (Vwap.dataPoints vwapState))
    (Strategy.rsiPeriodOf (Strategy.filtersConfig s)) = Some rsi ->
  Indicators.calculateATR (Vwap.dataPoints vwapState) 14 = Some atr ->
  (20 <= getUTCHours now)%Z ->
  (55 <= getUTCMinutes now)%Z ->
  let run :=
    Strategy.evaluateStrategy s r symbol currentPrice vwap (Some vwapState)
      now in
  let pnl := Strategy.calculatePnL position currentPrice in
  let after := result run h t in
  Strategy.positions (fst after) = delete symbol (Strategy.positions s)
  /\ Strategy.positions (fst after) !! symbol = None
  /\ Risk.positions (snd after) !! symbol = None
  /\ Risk.dailyPnL (snd after) = Risk.dailyPnL r + pnl
  /\ tradeEvents (written run h t)
     = tradeEvents (output t)
       ++ [EXIT symbol (Strategy.side position)
             (Strategy.entryPrice position) currentPrice
             (Strategy.quantity position) pnl
             (xscale
                (jsdiv pnl
                   (Strategy.entryPrice position * Strategy.quantity position))
                100)
             EOD_FORCE_EXIT
             (Strategy.holdSeconds now (Strategy.entryTime position)) now].
Proof.
  intros Hpos Hrsi Hatr Hhour Hmin run pnl after.
  assert (Heod : Strategy.eodForceExit now = true)
    by (apply eodForceExit_true; split; assumption).
  assert (Hrun : run = Strategy.exitPosition s r symbol currentPrice
                         EOD_FORCE_EXIT pnl now).
  { unfold run, Strategy.evaluateStrategy. cbv zeta.
    rewrite Hrsi, Hatr, Hpos, Heod. reflexivity. }
  subst after. rewrite Hrun.
  rewrite (exitPosition_result _ _ _ _ _ _ _ _ _ _ Hpos). cbn [fst snd].
  repeat split.
  - apply lookup_delete_eq.
  - rewrite closePosition_positions. apply lookup_delete_eq.
  - apply closePosition_dailyPnL.
  - apply exitPosition_written. exact Hpos.
Qed.

(** ** Confirmation of a pending signal *)


(** ** The replay driver does not depend on the host *)

Lemma sameSamples_refl (a : Vwap.VWAPState) : sameSamples a a.
Proof. repeat split. Qed.

Lemma trueRangeLoop_untimed (trSum : Q) (prev : Vwap.VWAPData)
    (rest : list Vwap.VWAPData) :
  Indicators.trueRangeLoop trSum (untimed prev) (map untimed rest)
  = Indicators.trueRangeLoop trSum prev rest.
Proof.
  revert trSum prev. induction rest as [|d rest IH]; intros trSum prev.
  - reflexivity.
  - cbn [map Indicators.trueRangeLoop]. rewrite IH. reflexivity.
Qed.

Lemma slice_last_map {A B} (f : A -> B) (n : nat) (l : list A) :
  slice_last n (map f l) = map f (slice_last n l).
Proof. unfold slice_last. rewrite length_map. symmetry. apply fmap_drop. Qed.

Lemma calculateATR_untimed (data : list Vwap.VWAPData) (period : nat) :
  Indicators.calculateATR (map untimed data) period
  = Indicators.calculateATR data period.
Proof.
  unfold Indicators.calculateATR. rewrite length_map, slice_last_map.
  destruct (length data <? period + 1)%nat; [reflexivity|].
  destruct (slice_last (period + 1) data) as [|first rest]; [reflexivity|].
  cbn [map]. rewrite trueRangeLoop_untimed. reflexivity.
Qed.

Lemma vwapOrPrice_untimed (d : Vwap.VWAPData) :
  Strategy.vwapOrPrice (untimed d) = Strategy.vwapOrPrice d.
Proof. reflexivity. Qed.

(** What two windows with the same samples agree on. *)
Section SameSamples.

Variables a b : Vwap.VWAPState.
Hypothesis Hsame : sameSamples a b.

Lemma sameSamples_length :
  length (Vwap.dataPoints a) = length (Vwap.dataPoints b).
Proof using Hsame.
  destruct Hsame as (_ & Hmap & _). apply (f_equal length) in Hmap.
  rewrite !length_map in Hmap. exact Hmap.
Qed.

(** A reading of the samples that ignores the stored clock agrees on both
    windows. *)
Lemma sameSamples_map {B} (f : Vwap.VWAPData -> B) :
  (forall d, f (untimed d) = f d) ->
  map f (Vwap.dataPoints a) = map f (Vwap.dataPoints b).
Proof using Hsame.
  intros Hf. destruct Hsame as (_ & Hmap & _).
  rewrite <- (map_ext _ _ Hf (Vwap.dataPoints a)).
  rewrite <- (map_ext _ _ Hf (Vwap.dataPoints b)).
  rewrite <- !(map_map untimed f). rewrite Hmap. reflexivity.
Qed.

Lemma calculateATR_same (period : nat) :
  Indicators.calculateATR (Vwap.dataPoints a) period
  = Indicators.calculateATR (Vwap.dataPoints b) period.
Proof using Hsame.
  destruct Hsame as (_ & Hmap & _).
  rewrite <- (calculateATR_untimed (Vwap.dataPoints a)).
  rewrite <- (calculateATR_untimed (Vwap.dataPoints b)).
  rewrite Hmap. reflexivity.
Qed.

Lemma getVWAP_same : Vwap.getVWAP a = Vwap.getVWAP b.
Proof using Hsame.
  pose proof sameSamples_length as Hlen.
  destruct Hsame as (Hp & _ & Hpv & Hv).
  unfold Vwap.getVWAP. rewrite Hp, Hlen, Hpv, Hv. reflexivity.
Qed.

Lemma updateVWAP_same (price volume : Q) (high low : option Q)
    (h1 h2 : Host) (t1 t2 : Trace) :
  sameSamples (result (Vwap.updateVWAP a price volume high low) h1 t1)
              (result (Vwap.updateVWAP b price volume high low) h2 t2).
Proof using Hsame.
  pose proof sameSamples_length as Hlen.
  destruct Hsame as (Hp & Hmap & Hpv & Hv).
  unfold Vwap.updateVWAP. rewrite !result_bind. cbv zeta.
  rewrite !length_app, Hp, Hlen, Hpv, Hv.
  set (d1 := Vwap.mkVWAPData _ _ _ _ (result dateNow h1 t1) _).
  set (d2 := Vwap.mkVWAPData _ _ _ _ (result dateNow h2 t2) _).
  assert (Hd : untimed d1 = untimed d2) by reflexivity.
  assert (Hall : map untimed (Vwap.dataPoints a ++ [d1])
                 = map untimed (Vwap.dataPoints b ++ [d2])).
  { rewrite !map_app, Hmap. cbn [map]. rewrite Hd. reflexivity. }
  change (length [d1]) with 1%nat. change (length [d2]) with 1%nat.
  destruct ((0 <? Vwap.period b)%nat
            && (Vwap.period b <? length (Vwap.dataPoints b) + 1)%nat)%bool;
    rewrite !result_mret; unfold sameSamples;
    cbn [Vwap.period Vwap.dataPoints Vwap.cumulativePriceVolume
         Vwap.cumulativeVolume].
  - destruct (Vwap.dataPoints a) as [|x xs], (Vwap.dataPoints b) as [|y ys];
      try discriminate; cbn [app hd tl map] in *.
    + subst d1 d2. cbn [Vwap.price Vwap.volume]. repeat split.
    + injection Hall as Hpx _ _ Hvx _ Hrest.
      rewrite Hpx, Hvx. repeat split. exact Hrest.
  - repeat split. exact Hall.
Qed.

Lemma evaluateStrategy_same s r symbol (currentPrice vwap : Q) (now : Z) :
  Strategy.evaluateStrategy s r symbol currentPrice vwap (Some a) now
  = Strategy.evaluateStrategy s r symbol currentPrice vwap (Some b) now.
Proof using Hsame.
  unfold Strategy.evaluateStrategy, Strategy.checkEntrySignals,
    Strategy.lowVolume, Strategy.choppy.
  rewrite (calculateATR_same 14).
  rewrite (sameSamples_map Vwap.price (fun _ => eq_refl)).
  rewrite (sameSamples_map Vwap.volume (fun _ => eq_refl)).
  rewrite (sameSamples_map Strategy.vwapOrPrice vwapOrPrice_untimed).
  reflexivity.
Qed.

End SameSamples.

Lemma barStep_same tz symbol config (i : nat) prev bar (a b : Backtest.Loop)
    (h1 h2 : Host) (t1 t2 : Trace) :
  sameLoop a b ->
  sameLoop (result (Backtest.barStep tz symbol config i prev bar a) h1 t1)
           (result (Backtest.barStep tz symbol config i prev bar b) h2 t2).
Proof.
  intros (Hv & Hs & Hr & Ht & Hp & Hm).
  unfold Backtest.barStep. cbv zeta. rewrite <- Hs, <- Hr, <- Ht, <- Hp, <- Hm.
  rewrite !result_bind.
  rewrite (checkDailyReset_hostFree tz (Backtest.riskState a)
             (Backtest.Timestamp bar) h2 t2 h1 t1).
  set (r := result (Risk.checkDailyReset tz _ _) h1 t1).
  set (wa := match prev with Some _ => _ | None => Backtest.vwapState a end).
  set (wb := match prev with Some _ => _ | None => Backtest.vwapState b end).
  assert (Hw : sameSamples wa wb).
  { subst wa wb. destruct prev as [prevBar|]; [|exact Hv].
    destruct (_ && _)%bool; [apply sameSamples_refl | exact Hv]. }
  set (ua := snd (Risk.checkDailyReset tz _ _ h1 t1)).
  set (ub := snd (Risk.checkDailyReset tz _ _ h2 t2)).
  pose proof (updateVWAP_same wa wb Hw (Backtest.ClosePrice bar)
                (Backtest.Volume bar) (Some (Backtest.HighPrice bar))
                (Some (Backtest.LowPrice bar)) h1 h2 ua ub) as Hu.
  set (va := result (Vwap.updateVWAP wa _ _ _ _) h1 ua) in *.
  set (vb := result (Vwap.updateVWAP wb _ _ _ _) h2 ub) in *.
  rewrite (getVWAP_same va vb Hu).
  destruct (Vwap.getVWAP vb) as [currentVWAP|].
  - rewrite !result_bind.
    rewrite (evaluateStrategy_same va vb Hu).
    repeat match goal with
           | |- context [result (Strategy.evaluateStrategy ?s ?q ?sy ?p ?v ?w ?n)
                           ?h ?u] =>
               lazymatch u with
               | t1 => fail
               | _ => rewrite (evaluateStrategy_hostFree s q sy p v w n h u h1 t1)
               end
           end.
    destruct (result (Strategy.evaluateStrategy _ _ _ _ _ _ _) h1 t1)
      as [newStrategyState newRiskState].
    rewrite !result_mret. split; [exact Hu | repeat split].
  - rewrite !result_mret. split; [exact Hu | repeat split].
Qed.

Lemma barLoop_same tz symbol config bars :
  forall (i : nat) prev (a b : Backtest.Loop) (h1 h2 : Host) (t1 t2 : Trace),
  sameLoop a b ->
  sameLoop (result (Backtest.barLoop tz symbol config i prev bars a) h1 t1)
           (result (Backtest.barLoop tz symbol config i prev bars b) h2 t2).
Proof.
  induction bars as [|bar rest IH]; intros i prev a b h1 h2 t1 t2 Hab.
  - exact Hab.
  - cbn [Backtest.barLoop]. rewrite !result_bind.
    apply IH. apply barStep_same. exact Hab.
Qed.


Lemma runLoop_same tz symbol bar rest config (h1 h2 : Host) (t1 t2 : Trace) :
  sameLoop (result (Backtest.runLoop tz symbol (bar :: rest) config) h1 t1)
           (result (Backtest.runLoop tz symbol (bar :: rest) config) h2 t2).
Proof.
  unfold Backtest.runLoop. rewrite !result_bind, !result_mret.
  apply barLoop_same. repeat split.
Qed.


(** ** Runs too short for the ATR *)

Lemma calculateATR_short (data : list Vwap.VWAPData) (period : nat) :
  (length data < period + 1)%nat -> Indicators.calculateATR data period = None.
Proof.
  intros Hlt. unfold Indicators.calculateATR.
  apply Nat.ltb_lt in Hlt. rewrite Hlt. reflexivity.
Qed.

Lemma evaluateStrategy_short s r symbol (currentPrice vwap : Q)
    (vwapState : Vwap.VWAPState) (now : Z) :
  (length (Vwap.dataPoints vwapState) < 15)%nat ->
  Strategy.evaluateStrategy s r symbol currentPrice vwap (Some vwapState) now
  = mret (s, r).
Proof.
  intros Hlt. unfold Strategy.evaluateStrategy. cbv zeta.
  rewrite (calculateATR_short _ 14 Hlt).
  destruct (Indicators.calculateRSI _ _); reflexivity.
Qed.

Lemma updateVWAP_length st (price volume : Q) high low h t :
  (length (Vwap.dataPoints (result (Vwap.updateVWAP st price volume high low) h t))
   <= length (Vwap.dataPoints st) + 1)%nat.
Proof.
  unfold Vwap.updateVWAP. rewrite result_bind. cbv zeta.
  destruct (_ && _)%bool; rewrite result_mret; cbn [Vwap.dataPoints].
  - destruct (Vwap.dataPoints st); cbn [app tl length];
      rewrite ?length_app; cbn [length]; lia.
  - rewrite length_app. cbn [length]. lia.
Qed.

Lemma updateVWAP_written st (price volume : Q) high low h t :
  written (Vwap.updateVWAP st price volume high low) h t = output t.
Proof.
  unfold Vwap.updateVWAP. rewrite written_bind. cbv zeta.
  destruct (_ && _)%bool; reflexivity.
Qed.

Lemma checkDailyReset_written tz state (now : Z) h t :
  tradeEvents (written (Risk.checkDailyReset tz state now) h t)
  = tradeEvents (output t).
Proof.
  unfold Risk.checkDailyReset. destruct (now <? _)%Z; [reflexivity|].
  cbv zeta. rewrite written_bind, written_mret. cbn [emit snd output].
  rewrite tradeEvents_app. cbn. apply app_nil_r.
Qed.

(** One bar on a window that stays below 15 samples: the strategy state
    and the trade list stay as they are, and nothing reaches the trade
    log. *)
Lemma barStep_short tz symbol config (i : nat) prev bar (a : Backtest.Loop)
    h t :
  (length (Vwap.dataPoints (Backtest.vwapState a)) < 14)%nat ->
  let a' := result (Backtest.barStep tz symbol config i prev bar a) h t in
  Backtest.strategyState a' = Backtest.strategyState a
  /\ Backtest.tradesSoFar a' = Backtest.tradesSoFar a
  /\ (length (Vwap.dataPoints (Backtest.vwapState a'))
      <= length (Vwap.dataPoints (Backtest.vwapState a)) + 1)%nat
  /\ tradeEvents (written (Backtest.barStep tz symbol config i prev bar a) h t)
     = tradeEvents (output t).
Proof.
  intros Hlen. unfold Backtest.barStep. cbv zeta.
  set (w := match prev with Some _ => _ | None => Backtest.vwapState a end).
  assert (Hw : (length (Vwap.dataPoints w)
                <= length (Vwap.dataPoints (Backtest.vwapState a)))%nat).
  { subst w. destruct prev as [prevBar|]; [|lia].
    destruct (_ && _)%bool; cbn; lia. }
  rewrite !result_bind, !written_bind.
  set (t1 := snd (Risk.checkDailyReset tz _ _ h t)).
  assert (Ht1 : tradeEvents (output t1) = tradeEvents (output t))
    by apply checkDailyReset_written.
  set (r := result (Risk.checkDailyReset tz _ _) h t).
  pose proof (updateVWAP_length w (Backtest.ClosePrice bar)
                (Backtest.Volume bar) (Some (Backtest.HighPrice bar))
                (Some (Backtest.LowPrice bar)) h t1) as Hup.
  pose proof (updateVWAP_written w (Backtest.ClosePrice bar)
                (Backtest.Volume bar) (Some (Backtest.HighPrice bar))
                (Some (Backtest.LowPrice bar)) h t1) as Hout.
  unfold written in Hout.
  set (v := result (Vwap.updateVWAP w _ _ _ _) h t1) in *.
  set (t2 := snd (Vwap.updateVWAP w _ _ _ _ h t1)) in *.
  destruct (Vwap.getVWAP v) as [currentVWAP|].
  - rewrite (evaluateStrategy_short _ _ _ _ _ v) by lia.
    rewrite !result_bind, !written_bind, !result_mret, written_mret.
    cbn [Backtest.strategyState Backtest.tradesSoFar Backtest.vwapState].
    split; [reflexivity|]. split.
    { destruct (Strategy.positions (Backtest.strategyState a) !! symbol);
        reflexivity. }
    split; [lia|].
    destruct (i mod 1000 =? 0)%nat; cbn [when emit mret M_ret ret snd output];
      rewrite ?tradeEvents_app, Hout, Ht1; cbn; rewrite ?app_nil_r; reflexivity.
  - rewrite result_mret, written_mret.
    cbn [Backtest.strategyState Backtest.tradesSoFar Backtest.vwapState].
    repeat split; [lia | rewrite Hout; exact Ht1].
Qed.

Lemma barLoop_short tz symbol config bars :
  forall (i : nat) prev (a : Backtest.Loop) h t,
  (length (Vwap.dataPoints (Backtest.vwapState a)) + length bars < 15)%nat ->
  let a' := result (Backtest.barLoop tz symbol config i prev bars a) h t in
  Backtest.strategyState a' = Backtest.strategyState a
  /\ Backtest.tradesSoFar a' = Backtest.tradesSoFar a
  /\ tradeEvents (written (Backtest.barLoop tz symbol config i prev bars a) h t)
     = tradeEvents (output t).
Proof.
  induction bars as [|bar rest IH]; intros i prev a h t Hlen.
  - repeat split.
  - cbn [length] in Hlen. cbn [Backtest.barLoop]. cbv zeta.
    rewrite result_bind, written_bind.
    destruct (barStep_short tz symbol config i prev bar a h t ltac:(lia))
      as (Hs & Ht & Hl & Hw).
    set (a1 := result (Backtest.barStep tz symbol config i prev bar a) h t) in *.
    set (t1 := snd (Backtest.barStep tz symbol config i prev bar a h t)) in *.
    destruct (IH (S i) (Some bar) a1 h t1 ltac:(lia)) as (Hs' & Ht' & Hw').
    rewrite Hs', Ht', Hw', Hs, Ht. repeat split. exact Hw.
Qed.

Lemma runLoop_short tz symbol bars config h t :
  (length bars < 15)%nat ->
  let a := result (Backtest.runLoop tz symbol bars config) h t in
  Backtest.strategyState a = Strategy.createStrategyState config
  /\ Backtest.tradesSoFar a = []
  /\ tradeEvents (written (Backtest.runLoop tz symbol bars config) h t)
     = tradeEvents (output t).
Proof.
  intros Hlen. unfold Backtest.runLoop.
  rewrite !result_bind, !written_bind.
  match goal with
  | |- context [Backtest.barLoop _ _ _ _ _ _ (Backtest.initialLoop tz config ?st)] =>
      set (start := st)
  end.
  match goal with
  | |- context [result (Backtest.barLoop _ _ _ _ _ _ _) h ?u] => set (t1 := u)
  end.
  destruct (barLoop_short tz symbol config bars 0 None
              (Backtest.initialLoop tz config start) h t1 ltac:(cbn; lia))
    as (Hs & Ht & Hw).
  rewrite Hs, Ht, Hw. repeat split.
  subst t1. destruct bars; cbn; rewrite ?tradeEvents_app; cbn;
    rewrite ?app_nil_r; reflexivity.
Qed.

(** ** Examples for the strategy engine *)



(** An open long at 20:57 UTC on a window of one sample: VWAP is defined,
    ATR is not, and the call returns before the force-exit test. *)
Lemma eod_exit_skipped_without_indicators :
  let now := clockAt 20 57 in
  let after :=
    result
      (Strategy.evaluateStrategy heldStrategy heldLedger "SPY" 96 96
         (Some shortWindow) now)
      host0 trace0 in
  getUTCHours now = 20%Z /\ getUTCMinutes now = 57%Z
  /\ sameValue (Vwap.getVWAP shortWindow) (Some 96)
  /\ Strategy.positions heldStrategy !! "SPY" = Some heldPosition
  /\ Strategy.positions (fst after) !! "SPY" = Some heldPosition
  /\ Risk.positions (snd after) = Risk.positions heldLedger.
Proof. vm_compute. repeat split. Qed.

(** The same long at 20:57 UTC on a window of fifteen samples. *)
Lemma eod_force_exit_witness :
  let run :=
    Strategy.evaluateStrategy heldStrategy heldLedger "SPY" 96
      (1495000 # 15000) (Some exampleWindow) (clockAt 20 57) in
  Strategy.positions (fst (result run host0 trace0)) !! "SPY" = None
  /\ Risk.positions (snd (result run host0 trace0)) !! "SPY" = None
  /\ exists pnl pct held,
       tradeEvents (written run host0 trace0)
       = [EXIT "SPY" long 95 96 10 pnl pct EOD_FORCE_EXIT held (clockAt 20 57)].
Proof.
  intros run.
  assert (H := eod_force_exit_closes_position heldStrategy heldLedger "SPY" 96
                 (1495000 # 15000) exampleWindow (clockAt 20 57) host0 trace0
                 heldPosition (0 # 70) (5 # 14)).
  do 3 (specialize (H ltac:(vm_compute; reflexivity))).
  do 2 (specialize (H ltac:(vm_compute; discriminate))).
  cbv zeta in H. fold run in H.
  destruct H as (_ & Hs & Hr & _ & Hlog).
  split; [exact Hs|]. split; [exact Hr|].
  eexists _, _, _. exact Hlog.
Defined.

(** At 21:10 UTC the test [hour >= 20 && min >= 55] is false and the
    long, inside its stop and target, stays open. *)
Lemma eod_exit_skipped_at_2110 :
  let now := clockAt 21 10 in
  let after :=
    result
      (Strategy.evaluateStrategy heldStrategy heldLedger "SPY" 96
         (1495000 # 15000) (Some exampleWindow) now)
      host0 trace0 in
  getUTCHours now = 21%Z /\ getUTCMinutes now = 10%Z
  /\ Strategy.eodForceExit now = false
  /\ Strategy.positions (fst after) !! "SPY" = Some heldPosition.
Proof. vm_compute. repeat split. Qed.

(** The force exit of the held long keeps the two maps in step. *)
Lemma maps_consistent_witness :
  let after :=
    result
      (Strategy.evaluateStrategy heldStrategy heldLedger "SPY" 96
         (1495000 # 15000) (Some exampleWindow) (clockAt 20 57))
      host0 trace0 in
  consistent heldStrategy heldLedger /\ consistent (fst after) (snd after).
Proof.
  intros after.
  assert (Hc : consistent heldStrategy heldLedger) by (vm_compute; reflexivity).
  split; [exact Hc|].
  assert (H := evaluateStrategy_keeps_maps_consistent heldStrategy heldLedger
                 "SPY" 96 (1495000 # 15000) (Some exampleWindow)
                 (clockAt 20 57) host0 trace0 Hc).
  cbv zeta in H. fold after in H. exact (proj1 H).
Defined.

(** ** The five-bar scenario *)

(** The scenario of C5 on the example configuration (session VWAP, 2%
    threshold, no confirmation, permissive RSI and filters): after the
    five bars no position is held and no trade was logged. *)
Lemma five_bar_replay_opens_nothing :
  let run := Backtest.runLoop 0 "SPY" fiveBars exampleConfig in
  map Backtest.ClosePrice fiveBars = [100; 100; 100; 95; 95]
  /\ Strategy.positions (Backtest.strategyState (result run host0 trace0))
       !! "SPY" = None
  /\ tradeEvents (written run host0 trace0) = []
  /\ Backtest.trades
       (result (Backtest.runBacktest 0 "SPY" fiveBars exampleConfig)
          host0 trace0) = [].
Proof. vm_compute. repeat split. Qed.

Lemma runLoop_strategy_hostFree tz symbol bars config h t :
  Backtest.strategyState (result (Backtest.runLoop tz symbol bars config) h t)
  = Backtest.strategyState
      (result (Backtest.runLoop tz symbol bars config) host0 trace0).
Proof.
  destruct bars as [|bar rest].
  - unfold Backtest.runLoop. rewrite !result_bind. reflexivity.
  - apply (runLoop_same tz symbol bar rest config h host0 t trace0).
Qed.

(** C5, as the code has it.  A replay of any five bars, under any
    configuration, opens nothing: [evaluateStrategy] returns its inputs
    until the window holds 15 samples, which the 14-period ATR needs.
    With fourteen bars at 100 before the two at 95 (volume 1000, session
    VWAP, 2% threshold, no confirmation, permissive RSI), the replay is
    flat after the fourteenth bar and long at 95 from the first 95 bar
    on, entered at that bar's time. *)
Theorem replay_opens_long_once_atr_is_defined
    (tz : Z) (symbol : string) (config : Config.Config)
    (b1 b2 b3 b4 b5 : Backtest.Bar) (h : Host) (t : Trace) :
  let five := Backtest.runLoop tz symbol [b1; b2; b3; b4; b5] config in
  let heldAfter bars :=
    Strategy.positions
      (Backtest.strategyState
         (result (Backtest.runLoop 0 "SPY" bars exampleConfig) h t))
      !! "SPY" in
  (Strategy.positions (Backtest.strategyState (result five h t)) = ∅
   /\ Backtest.tradesSoFar (result five h t) = []
   /\ tradeEvents (written five h t) = tradeEvents (output t))
  /\ map Backtest.ClosePrice sixteenBars = replicate 14 100 ++ [95; 95]
  /\ heldAfter (take 14 sixteenBars) = None
  /\ heldAfter (take 15 sixteenBars) = Some heldPosition
  /\ heldAfter sixteenBars = Some heldPosition
  /\ Strategy.entryPrice heldPosition = 95
  /\ Some (Strategy.entryTime heldPosition)
     = Backtest.Timestamp <$> sixteenBars !! 14%nat.
Proof.
  intros five heldAfter. split.
  - destruct (runLoop_short tz symbol [b1; b2; b3; b4; b5] config h t)
      as (Hs & Ht & Hw); [cbn; lia|].
    fold five in Hs, Ht, Hw. rewrite Hs. repeat split; assumption.
  - subst heldAfter. cbv beta.
    rewrite (runLoop_strategy_hostFree 0 "SPY" (take 14 sixteenBars) _ h t).
    rewrite (runLoop_strategy_hostFree 0 "SPY" (take 15 sixteenBars) _ h t).
    rewrite (runLoop_strategy_hostFree 0 "SPY" sixteenBars _ h t).
    vm_compute. repeat split.
Qed.

(** * Further properties *)

(** ** Further properties: the VWAP window *)

Lemma Qdiv_pos_iff (a v : Q) : 0 < v -> (0 < a / v <-> 0 < a).
Proof.
  intros Hv. split; intros H.
  - assert (E : a == a / v * v) by (field; intros E; rewrite E in Hv; discriminate).
    rewrite E. apply Qmult_lt_0_compat; assumption.
  - apply Qlt_shift_div_l; [exact Hv|]. rewrite Qmult_0_l. exact H.
Qed.

Lemma Qdiv_neg_iff (a v : Q) : 0 < v -> (a / v < 0 <-> a < 0).
Proof.
  intros Hv. split; intros H.
  - destruct (Qlt_le_dec a 0) as [|Hge]; [assumption | exfalso].
    apply (Qlt_not_le _ _ H). apply Qle_shift_div_l; [exact Hv|].
    rewrite Qmult_0_l. exact Hge.
  - apply Qlt_shift_div_r; [exact Hv|]. rewrite Qmult_0_l. exact H.
Qed.

Lemma Qltb_irrefl_pair (x y : Q) : (Qltb x y && Qltb y x)%bool = false.
Proof.
  destruct (Qltb x y) eqn:A; [|reflexivity].
  destruct (Qltb y x) eqn:B; [|reflexivity].
  apply Qltb_lt in A, B. exfalso. apply (Qlt_irrefl x).
  apply Qlt_trans with y; assumption.
Qed.

(** X1.  [getDeviation], [isAboveVWAP] and [isBelowVWAP] are [null]
    exactly when [getVWAP] is; otherwise the price is reported above
    (below) exactly when it is strictly greater (less) than the VWAP, never
    both, neither exactly when the two are equal, and for a positive VWAP
    the sign of the deviation tells the side.  With a VWAP of zero the
    deviation is not a finite number. *)
Theorem vwap_queries_follow_getVWAP (st : Vwap.VWAPState) (price : Q) :
  match Vwap.getVWAP st with
  | None =>
      Vwap.getDeviation st price = None
      /\ Vwap.isAboveVWAP st price = None
      /\ Vwap.isBelowVWAP st price = None
  | Some v =>
      exists isAbove isBelow deviation,
        Vwap.isAboveVWAP st price = Some isAbove
        /\ Vwap.isBelowVWAP st price = Some isBelow
        /\ Vwap.getDeviation st price = Some deviation
        /\ (isAbove = true <-> v < price)
        /\ (isBelow = true <-> price < v)
        /\ (isAbove && isBelow)%bool = false
        /\ (isAbove = false /\ isBelow = false <-> price == v)
        /\ (0 < v -> xgt_q deviation 0 = isAbove /\ xlt_q deviation 0 = isBelow)
        /\ (v == 0 -> forall q, deviation <> XFin q)
  end.
Proof.
  unfold Vwap.getDeviation, Vwap.isAboveVWAP, Vwap.isBelowVWAP.
  destruct (Vwap.getVWAP st) as [v|]; [|auto].
  exists (Qltb v price), (Qltb price v), (jsdiv (price - v) v).
  split; [reflexivity|]. split; [reflexivity|]. split; [reflexivity|].
  split; [apply Qltb_lt|]. split; [apply Qltb_lt|].
  split; [apply Qltb_irrefl_pair|].
  split; [|split].
  - split.
    + intros [A B]. apply Qltb_ge in A, B. apply Qle_antisym; assumption.
    + intros E. split; apply Qltb_ge; rewrite E; apply Qle_refl.
  - intros Hv. unfold jsdiv.
    assert (Hz : Qeq_bool v 0 = false).
    { apply Qeq_bool_false. intros E. rewrite E in Hv. discriminate. }
    rewrite Hz. cbn [xgt_q xlt_q].
    split; apply eq_true_iff_eq; rewrite !Qltb_lt.
    + rewrite (Qdiv_pos_iff _ _ Hv). split; intros L; lra.
    + rewrite (Qdiv_neg_iff _ _ Hv). split; intros L; lra.
  - intros Hv q. unfold jsdiv. apply Qeq_bool_iff in Hv. rewrite Hv.
    destruct (Qeq_bool (price - v) 0); [discriminate|].
    destruct (Qltb 0 (price - v)); discriminate.
Qed.

Lemma slice_last_length {A} (n : nat) (l : list A) :
  length (slice_last n l) = Nat.min n (length l).
Proof. unfold slice_last. rewrite length_drop. lia. Qed.

Lemma ingested_feed (p : nat) (ys : list Sample) :
  forall (xs : list Sample) (st : Vwap.VWAPState) (h : Host) (t : Trace),
  ingested p xs st -> ingested p (xs ++ ys) (result (feed st ys) h t).
Proof.
  induction ys as [|[price volume] ys IH]; intros xs st h t Hing.
  - rewrite app_nil_r. exact Hing.
  - cbn [feed]. rewrite result_bind.
    pose proof (IH (xs ++ [(price, volume)]) _ h
                  (snd (Vwap.updateVWAP st price volume None None h t))
                  (ingested_update p xs st price volume None None h t Hing))
      as Hstep.
    rewrite <- app_assoc in Hstep. exact Hstep.
Qed.

(** X2.  A window reached from [createVWAPState p] by one [updateVWAP]
    call per sample never holds more than [p] samples when [p > 0] (it
    holds every sample when [p = 0]); [hasEnoughData] is true exactly
    from the [p]-th sample on, and [getVWAP] is defined exactly when, in
    addition, the retained volume is not zero.  [resetVWAP] gives the
    window of no samples, whose VWAP is [null]. *)
Theorem window_holds_at_most_period (p : nat) (xs : list Sample)
    (st : Vwap.VWAPState) :
  ingested p xs st ->
  length (Vwap.dataPoints st)
  = (if (p =? 0)%nat then length xs else Nat.min p (length xs))
  /\ (Vwap.hasEnoughData st = true <-> (p <= length xs)%nat)
  /\ (is_Some (Vwap.getVWAP st) <->
      (p <= length xs)%nat /\ ~ Vwap.cumulativeVolume st == 0)
  /\ ingested p [] (Vwap.resetVWAP p)
  /\ Vwap.getVWAP (Vwap.resetVWAP p) = None.
Proof.
  intros Hing.
  destruct (ingested_invariant p xs st Hing) as (Hp & Hkept & _ & _).
  assert (Hlen : length (Vwap.dataPoints st)
                 = if (p =? 0)%nat then length xs else Nat.min p (length xs)).
  { rewrite <- (length_map sampleOf), Hkept. unfold retained.
    destruct (p =? 0)%nat; [reflexivity | apply slice_last_length]. }
  split; [exact Hlen|].
  assert (Hfull : (Vwap.period st <= length (Vwap.dataPoints st))%nat
                  <-> (p <= length xs)%nat).
  { rewrite Hlen, Hp. destruct (Nat.eqb_spec p 0); lia. }
  split.
  - unfold Vwap.hasEnoughData. rewrite Nat.leb_le. exact Hfull.
  - split; [|split; [apply ingested_create | reflexivity]].
    unfold Vwap.getVWAP.
    destruct (Qeq_bool (Vwap.cumulativeVolume st) 0) eqn:Hz.
    { apply Qeq_bool_iff in Hz. split; [intros [q [=]] | tauto]. }
    apply Qeq_bool_false in Hz.
    destruct (Nat.ltb_spec 0 (Vwap.period st)) as [Hpos|Hzero];
      destruct (Nat.ltb_spec (length (Vwap.dataPoints st)) (Vwap.period st))
        as [Hshort|Hlong]; cbn [andb].
    + split; [intros [q [=]] | intros [Hle _]; apply Hfull in Hle; lia].
    + split; [intros _; split; [apply Hfull|]; assumption | eauto].
    + split; [intros _; split; [apply Hfull; lia | assumption] | eauto].
    + split; [intros _; split; [apply Hfull|]; assumption | eauto].
Qed.

(** The rolling-window test of the repository again: period 2, three
    samples. *)
Lemma window_size_witness :
  let st :=
    result (feed (Vwap.createVWAPState 2) [(100, 10); (110, 10); (120, 10)])
      host0 trace0 in
  length (Vwap.dataPoints st) = 2%nat /\ Vwap.hasEnoughData st = true.
Proof.
  intros st.
  destruct (window_holds_at_most_period 2 [(100, 10); (110, 10); (120, 10)] st)
    as (Hlen & Henough & _).
  { apply (ingested_feed 2 _ []). apply ingested_create. }
  split; [exact Hlen | apply Henough; cbn; lia].
Defined.

(** ** Further properties: the indicators *)

Lemma slice_last_idem {A} (n : nat) (l : list A) :
  slice_last n (slice_last n l) = slice_last n l.
Proof.
  unfold slice_last at 1. rewrite slice_last_length.
  replace (Nat.min n (length l) - n)%nat with 0%nat by lia. reflexivity.
Qed.

Lemma trueRange_nonneg (prev current : Vwap.VWAPData) :
  0 <= Indicators.trueRange prev current.
Proof.
  unfold Indicators.trueRange.
  eapply Qle_trans; [apply Qabs_nonneg | apply Q.le_max_r].
Qed.

Lemma trueRangeLoop_ge (rest : list Vwap.VWAPData) :
  forall (trSum : Q) (prev : Vwap.VWAPData),
  trSum <= Indicators.trueRangeLoop trSum prev rest.
Proof.
  induction rest as [|current rest IH]; intros trSum prev; cbn.
  - apply Qle_refl.
  - eapply Qle_trans; [|apply IH].
    pose proof (trueRange_nonneg prev current). lra.
Qed.

Lemma inject_nat_pos (n : nat) : (0 < n)%nat -> 0 < inject_Z (Z.of_nat n).
Proof.
  intros H. change 0 with (inject_Z 0). rewrite <- Zlt_Qlt. lia.
Qed.

(** X3.  With a positive period, [calculateATR] is [null] exactly when it
    is given fewer than [period + 1] samples; a value it returns is never
    negative, and it depends on the last [period + 1] samples only. *)
Theorem calculateATR_defined_and_nonneg (data : list Vwap.VWAPData)
    (period : nat) :
  (0 < period)%nat ->
  (Indicators.calculateATR data period = None
   <-> (length data < period + 1)%nat)
  /\ (forall atr, Indicators.calculateATR data period = Some atr -> 0 <= atr)
  /\ Indicators.calculateATR data period
     = Indicators.calculateATR (slice_last (period + 1) data) period.
Proof.
  intros Hpos. unfold Indicators.calculateATR.
  rewrite slice_last_idem, slice_last_length.
  destruct (Nat.ltb_spec (length data) (period + 1)) as [Hshort|Hlong].
  - split; [tauto|]. split; [discriminate|].
    replace (Nat.min (period + 1) (length data) <? period + 1)%nat with true
      by (symmetry; apply Nat.ltb_lt; lia).
    reflexivity.
  - replace (Nat.min (period + 1) (length data) <? period + 1)%nat with false
      by (symmetry; apply Nat.ltb_ge; lia).
    pose proof (slice_last_length (period + 1) data) as Hlen.
    destruct (slice_last (period + 1) data) as [|first rest].
    { cbn in Hlen. lia. }
    split; [split; [discriminate | lia]|]. split; [|reflexivity].
    intros atr [= <-].
    apply Qle_shift_div_l; [apply inject_nat_pos, Hpos|].
    rewrite Qmult_0_l. apply trueRangeLoop_ge.
Qed.

(** The example window of fifteen samples, with the period 14 of the only
    call site. *)
Lemma calculateATR_witness :
  exists atr,
    Indicators.calculateATR (Vwap.dataPoints exampleWindow) 14 = Some atr
    /\ 0 <= atr.
Proof.
  exists (5 # 14).
  assert (H : Indicators.calculateATR (Vwap.dataPoints exampleWindow) 14
              = Some (5 # 14)) by (vm_compute; reflexivity).
  split; [exact H|].
  destruct (calculateATR_defined_and_nonneg (Vwap.dataPoints exampleWindow) 14)
    as (_ & Hnonneg & _); [lia|].
  apply Hnonneg. exact H.
Defined.

Lemma seedStep_nonneg (cs : list Q) :
  forall gains losses : Q,
  0 <= gains -> 0 <= losses ->
  0 <= fst (fold_left Indicators.seedStep cs (gains, losses))
  /\ 0 <= snd (fold_left Indicators.seedStep cs (gains, losses)).
Proof.
  induction cs as [|c cs IH]; intros gains losses Hg Hl; cbn [fold_left].
  - cbn. auto.
  - unfold Indicators.seedStep at 2 4.
    destruct (Qltb 0 c) eqn:Hc.
    + apply Qltb_lt in Hc. apply IH; lra.
    + apply Qltb_ge in Hc. apply IH; lra.
Qed.

Lemma smoothStep_nonneg (n : Q) (cs : list Q) :
  1 <= n ->
  forall avgGain avgLoss : Q,
  0 <= avgGain -> 0 <= avgLoss ->
  0 <= fst (fold_left (Indicators.smoothStep n) cs (avgGain, avgLoss))
  /\ 0 <= snd (fold_left (Indicators.smoothStep n) cs (avgGain, avgLoss)).
Proof.
  intros Hn.
  induction cs as [|c cs IH]; intros avgGain avgLoss Hg Hl; cbn [fold_left].
  - cbn. auto.
  - unfold Indicators.smoothStep at 2 4.
    apply IH.
    + apply Qle_shift_div_l; [lra|]. rewrite Qmult_0_l.
      assert (0 <= avgGain * (n - 1)) by (apply Qmult_le_0_compat; lra).
      destruct (Qltb 0 c) eqn:Hc; [apply Qltb_lt in Hc|]; lra.
    + apply Qle_shift_div_l; [lra|]. rewrite Qmult_0_l.
      assert (0 <= avgLoss * (n - 1)) by (apply Qmult_le_0_compat; lra).
      destruct (Qltb c 0) eqn:Hc; [apply Qltb_lt in Hc|]; lra.
Qed.

Lemma seedStep_no_loss (cs : list Q) :
  Forall (fun change => 0 <= change) cs ->
  forall gains losses : Q,
  losses == 0 -> snd (fold_left Indicators.seedStep cs (gains, losses)) == 0.
Proof.
  induction 1 as [|c cs Hc _ IH]; intros gains losses Hl; cbn [fold_left].
  - exact Hl.
  - unfold Indicators.seedStep at 2.
    destruct (Qltb 0 c) eqn:Hlt.
    + apply IH. exact Hl.
    + apply Qltb_ge in Hlt. apply IH. lra.
Qed.

Lemma smoothStep_no_loss (n : Q) (cs : list Q) :
  1 <= n ->
  Forall (fun change => 0 <= change) cs ->
  forall avgGain avgLoss : Q,
  avgLoss == 0 ->
  snd (fold_left (Indicators.smoothStep n) cs (avgGain, avgLoss)) == 0.
Proof.
  intros Hn. induction 1 as [|c cs Hc _ IH]; intros avgGain avgLoss Hl;
    cbn [fold_left].
  - exact Hl.
  - unfold Indicators.smoothStep at 2. apply IH.
    replace (Qltb c 0) with false by (symmetry; apply Qltb_ge; exact Hc).
    rewrite Hl. field. intros E. lra.
Qed.

Lemma inject_nat_ge_1 (n : nat) : (0 < n)%nat -> 1 <= inject_Z (Z.of_nat n).
Proof.
  intros H. change 1 with (inject_Z 1). rewrite <- Zle_Qle. lia.
Qed.

(** X4.  With a positive period, [calculateRSI] is [null] exactly when it
    is given fewer than [period + 1] prices; a value it returns lies
    between 0 and 100, and it is 100 whenever no price is below the one
    before it (constant prices included). *)
Theorem calculateRSI_bounds (prices : list Q) (period : nat) :
  (0 < period)%nat ->
  (Indicators.calculateRSI prices period = None
   <-> (length prices < period + 1)%nat)
  /\ (forall rsi, Indicators.calculateRSI prices period = Some rsi ->
        0 <= rsi <= 100)
  /\ (Forall (fun change => 0 <= change) (Indicators.changes prices) ->
      (period + 1 <= length prices)%nat ->
      Indicators.calculateRSI prices period = Some 100).
Proof.
  intros Hpos. unfold Indicators.calculateRSI.
  pose proof (inject_nat_ge_1 period Hpos) as Hn.
  set (n := inject_Z (Z.of_nat period)) in *.
  set (cs := Indicators.changes prices).
  destruct (Nat.ltb_spec (length prices) (period + 1)) as [Hshort|Hlong].
  { split; [tauto|]. split; [discriminate | intros _ ?; lia]. }
  destruct (seedStep_nonneg (take period cs) 0 0) as [Hg0 Hl0]; [lra | lra |].
  pose proof (fun Hup => seedStep_no_loss (take period cs) Hup 0 0 (Qeq_refl 0))
    as Hseed.
  destruct (fold_left Indicators.seedStep (take period cs) (0, 0))
    as [gains losses].
  cbn [fst snd] in Hg0, Hl0, Hseed.
  destruct (smoothStep_nonneg n (drop period cs) Hn (gains / n) (losses / n))
    as [Hg Hl].
  { apply Qle_shift_div_l; [lra|]. rewrite Qmult_0_l. exact Hg0. }
  { apply Qle_shift_div_l; [lra|]. rewrite Qmult_0_l. exact Hl0. }
  pose proof (fun Hup => smoothStep_no_loss n (drop period cs) Hn Hup
                          (gains / n) (losses / n)) as Hsmooth.
  destruct (fold_left (Indicators.smoothStep n) (drop period cs)
              (gains / n, losses / n)) as [avgGain avgLoss].
  cbn [fst snd] in Hg, Hl, Hsmooth.
  destruct (Qeq_bool avgLoss 0) eqn:Hz.
  { split; [split; [discriminate | lia]|].
    split; [intros rsi [= <-]; lra | reflexivity]. }
  apply Qeq_bool_false in Hz.
  split; [split; [discriminate | lia]|]. split.
  - intros rsi [= <-].
    assert (Hloss : 0 < avgLoss).
    { destruct (Qlt_le_dec 0 avgLoss) as [|Hle]; [assumption|].
      exfalso. apply Hz. lra. }
    assert (Hrs : 0 <= avgGain / avgLoss).
    { apply Qle_shift_div_l; [exact Hloss|]. rewrite Qmult_0_l. exact Hg. }
    assert (Hq : 0 <= 100 / (1 + avgGain / avgLoss)).
    { apply Qle_shift_div_l; lra. }
    assert (Hq' : 100 / (1 + avgGain / avgLoss) <= 100).
    { apply Qle_shift_div_r; lra. }
    lra.
  - intros Hup _. exfalso. apply Hz. apply Hsmooth.
    + apply Forall_drop. exact Hup.
    + assert (E : losses == 0) by (apply Hseed, Forall_take, Hup).
      rewrite E. field. intros E'. lra.
Qed.

(** The fifteen prices of the example window (fourteen at 100, then 95),
    with the default period. *)
Lemma calculateRSI_witness :
  exists rsi,
    Indicators.calculateRSI
      (map Vwap.price (Vwap.dataPoints exampleWindow)) 14 = Some rsi
    /\ 0 <= rsi <= 100.
Proof.
  exists (0 # 70).
  assert (H : Indicators.calculateRSI
                (map Vwap.price (Vwap.dataPoints exampleWindow)) 14
              = Some (0 # 70)) by (vm_compute; reflexivity).
  split; [exact H|].
  destruct (calculateRSI_bounds
              (map Vwap.price (Vwap.dataPoints exampleWindow)) 14)
    as (_ & Hbounds & _); [lia|].
  apply Hbounds. exact H.
Defined.

Lemma crossLoop_bound (rest : list (Q * xnum)) :
  forall (crosses : nat) (wasAbove : bool),
  (Indicators.crossLoop crosses wasAbove rest <= crosses + length rest)%nat.
Proof.
  induction rest as [|[p v] rest IH]; intros crosses wasAbove; cbn.
  - lia.
  - destruct (eqb _ _).
    + specialize (IH crosses wasAbove). lia.
    + specialize (IH (S crosses) (Indicators.above p v)). lia.
Qed.

(** X5.  With a positive period, [isChoppy] answers true only when both
    histories hold at least [period] entries and the threshold is at most
    [period - 1], the largest number of crossings [period] observations
    can show; on such histories a threshold of zero or less always
    answers true. *)
Theorem isChoppy_bounds (prices : list Q) (vwaps : list xnum) (period : nat)
    (threshold : Q) :
  (0 < period)%nat ->
  (Indicators.isChoppy prices vwaps period threshold = true ->
     (period <= length prices)%nat /\ (period <= length vwaps)%nat
     /\ threshold <= inject_Z (Z.of_nat (period - 1)))
  /\ ((period <= length prices)%nat -> (period <= length vwaps)%nat ->
      threshold <= 0 ->
      Indicators.isChoppy prices vwaps period threshold = true).
Proof.
  intros Hpos. unfold Indicators.isChoppy.
  destruct (Nat.ltb_spec (length prices) period) as [Hp|Hp]; cbn [orb].
  { split; [discriminate | intros; lia]. }
  destruct (Nat.ltb_spec (length vwaps) period) as [Hv|Hv].
  { split; [discriminate | intros; lia]. }
  pose proof (length_combine (slice_last period prices)
                (slice_last period vwaps)) as Hlen.
  rewrite !slice_last_length in Hlen.
  destruct (combine (slice_last period prices) (slice_last period vwaps))
    as [|[p0 v0] rest].
  { cbn in Hlen. lia. }
  cbn [length] in Hlen.
  pose proof (crossLoop_bound rest 0 (Indicators.above p0 v0)) as Hc.
  split.
  - intros Hchop. apply Qle_bool_iff in Hchop.
    split; [exact Hp|]. split; [exact Hv|].
    eapply Qle_trans; [exact Hchop|]. rewrite <- Zle_Qle. lia.
  - intros _ _ Hthr. apply Qle_bool_iff.
    eapply Qle_trans; [exact Hthr|].
    change 0 with (inject_Z 0). rewrite <- Zle_Qle. lia.
Qed.

Lemma isChoppy_witness :
  Indicators.isChoppy [10; 12; 10; 12] [XFin 11; XFin 11; XFin 11; XFin 11] 4 3
  = true
  /\ 3 <= inject_Z (Z.of_nat (4 - 1)).
Proof.
  assert (H : Indicators.isChoppy [10; 12; 10; 12]
                [XFin 11; XFin 11; XFin 11; XFin 11] 4 3 = true)
    by (vm_compute; reflexivity).
  split; [exact H|].
  destruct (isChoppy_bounds [10; 12; 10; 12]
              [XFin 11; XFin 11; XFin 11; XFin 11] 4 3) as [Honly _]; [lia|].
  apply Honly. exact H.
Defined.

(** ** Further properties: the risk ledger *)

Lemma closePosition_result state symbol (pnl : Q) (now : Z) h t :
  result (Risk.closePosition state symbol pnl now) h t
  = {| Risk.config := Risk.config state;
       Risk.dailyPnL := Risk.dailyPnL state + pnl;
       Risk.currentBalance := Risk.currentBalance state + pnl;
       Risk.positions := delete symbol (Risk.positions state);
       Risk.dailyResetTime := Risk.dailyResetTime state;
       Risk.tradesToday := Risk.tradesToday state + 1;
       Risk.lossesToday :=
         if Qltb pnl 0 then Risk.lossesToday state + 1
         else Risk.lossesToday state;
       Risk.lastLossTime :=
         if Qltb pnl 0 then Some now else Risk.lastLossTime state |}.
Proof.
  unfold Risk.closePosition. rewrite !result_bind, result_mret. reflexivity.
Qed.

Lemma canOpenPosition_one_line (state : Risk.RiskState) (now : Z)
    (h : Host) (t : Trace) :
  exists ls, written (Risk.canOpenPosition state now) h t = output t ++ ls
             /\ (length ls <= 1)%nat.
Proof.
  assert (Hnone : forall b : bool,
            exists ls, written (mret b : M bool) h t = output t ++ ls
                       /\ (length ls <= 1)%nat).
  { intros b. exists []. rewrite app_nil_r. split; [reflexivity | cbn; lia]. }
  assert (Hone : forall (l : LogLine) (b : bool),
            exists ls, written (emit l;; mret b) h t = output t ++ ls
                       /\ (length ls <= 1)%nat).
  { intros l b. exists [l]. split; [reflexivity | cbn; lia]. }
  unfold Risk.canOpenPosition.
  destruct (Qle_bool _ (inject_Z _)); [apply Hone|].
  destruct (Qle_bool _ (Risk.tradesToday state)); [apply Hone|].
  destruct (Qle_bool _ (Risk.lossesToday state)); [apply Hone|].
  cbv zeta.
  assert (Hloss : exists ls,
            written (if Qle_bool (Risk.dailyPnL state)
                          (- Config.max_daily_loss (Risk.riskConfig state))
                     then emit (DailyLossLimit (Risk.dailyPnL state));; mret false
                     else mret true) h t = output t ++ ls
            /\ (length ls <= 1)%nat).
  { destruct (Qle_bool (Risk.dailyPnL state) _); [apply Hone | apply Hnone]. }
  destruct (Risk.lossTimeTruthy (Risk.lastLossTime state)) as [lossTime|];
    [|exact Hloss].
  destruct (Qltb _ (Config.cooldown_minutes _)); [|exact Hloss].
  rewrite written_bind.
  destruct (written_sampled 0.001
              (InCooldown (Config.cooldown_minutes (Risk.riskConfig state)
                           - Risk.minutesBetween now lossTime)) h t)
    as (ls & Hls & Hcase).
  exists ls. split.
  - rewrite written_mret. exact Hls.
  - destruct Hcase as [-> | ->]; cbn; lia.
Qed.

(** X6.  [canOpenPosition] answers false exactly when one of its five
    gates fails, the cooldown gate in the reading of the code (a loss
    time that is set and not the time value 0, less than
    [cooldown_minutes] ago).  A call writes at most one line, and none
    when it answers true. *)
Theorem canOpenPosition_gates (state : Risk.RiskState) (now : Z)
    (h : Host) (t : Trace) :
  (result (Risk.canOpenPosition state now) h t = false <->
     gateFails state now PositionCap \/ gateFails state now TradeCap
     \/ gateFails state now LossCap \/ cooldownHolds state now
     \/ gateFails state now DailyLossCap)
  /\ (result (Risk.canOpenPosition state now) h t = true ->
      written (Risk.canOpenPosition state now) h t = output t)
  /\ exists ls, written (Risk.canOpenPosition state now) h t = output t ++ ls
                /\ (length ls <= 1)%nat.
Proof.
  split; [apply canOpenPosition_false_iff|].
  split; [apply canOpenPosition_true_silent | apply canOpenPosition_one_line].
Qed.

Lemma closed_ledger_config state symbol (pnl : Q) (now : Z) h t :
  Risk.riskConfig (result (Risk.closePosition state symbol pnl now) h t)
  = Risk.riskConfig state.
Proof. rewrite closePosition_result. reflexivity. Qed.

(** X8.  After a position is closed at a loss (at a time value other
    than 0), [canOpenPosition] answers false at every time less than
    [cooldown_minutes] after the close; from [cooldown_minutes] on the
    cooldown gate no longer holds. *)
Theorem losing_close_starts_cooldown (state : Risk.RiskState)
    (symbol : string) (pnl : Q) (now later : Z) (h h' : Host) (t t' : Trace) :
  pnl < 0 -> now <> 0%Z ->
  let state' := result (Risk.closePosition state symbol pnl now) h t in
  let cooldown := Config.cooldown_minutes (Risk.riskConfig state) in
  (Risk.minutesBetween later now < cooldown ->
   result (Risk.canOpenPosition state' later) h' t' = false)
  /\ (cooldown <= Risk.minutesBetween later now ->
      ~ cooldownHolds state' later).
Proof.
  intros Hloss Hnz state' cooldown.
  assert (Hlast : Risk.lastLossTime state' = Some now).
  { subst state'. rewrite closePosition_result. cbn [Risk.lastLossTime].
    apply Qltb_lt in Hloss. rewrite Hloss. reflexivity. }
  assert (Hcfg : Risk.riskConfig state' = Risk.riskConfig state)
    by apply closed_ledger_config.
  split.
  - intros Hsoon. apply canOpenPosition_false_iff.
    right. right. right. left. exists now. rewrite Hcfg. auto.
  - intros Hlate (lossTime & Hl & _ & Hlt). rewrite Hlast in Hl.
    injection Hl as <-. rewrite Hcfg in Hlt.
    apply (Qlt_not_le _ _ Hlt Hlate).
Qed.

Lemma losing_close_witness :
  result
    (Risk.canOpenPosition
       (result (Risk.closePosition exampleLedger "SPY" (-10) (clockAt 15 0))
          host0 trace0)
       (clockAt 15 1)) host0 trace0 = false.
Proof.
  assert (H := losing_close_starts_cooldown exampleLedger "SPY" (-10)
                 (clockAt 15 0) (clockAt 15 1) host0 host0 trace0 trace0).
  specialize (H ltac:(reflexivity) ltac:(discriminate)).
  cbv zeta in H. destruct H as [Hsoon _].
  apply Hsoon. vm_compute. reflexivity.
Defined.

(** X9.  Once a close brings the day's P&L to [-max_daily_loss] or below,
    [closePosition] reports the limit and [canOpenPosition] answers false
    at every later time, whatever the host. *)
Theorem daily_loss_limit_blocks_entries (state : Risk.RiskState)
    (symbol : string) (pnl : Q) (now : Z) (h : Host) (t : Trace) :
  Risk.dailyPnL state + pnl
  <= - Config.max_daily_loss (Risk.riskConfig state) ->
  let state' := result (Risk.closePosition state symbol pnl now) h t in
  (forall later h' t',
     result (Risk.canOpenPosition state' later) h' t' = false)
  /\ In (DailyLossLimitReached (Risk.dailyPnL state + pnl))
       (written (Risk.closePosition state symbol pnl now) h t).
Proof.
  intros Hlimit state'. split.
  - intros later h' t'. apply canOpenPosition_false_iff.
    do 4 right. unfold gateFails. subst state'.
    rewrite closed_ledger_config, closePosition_result. exact Hlimit.
  - unfold Risk.closePosition. cbv zeta.
    apply Qle_bool_iff in Hlimit. rewrite Hlimit.
    run_monad. cbn.
    apply in_or_app. left. apply in_or_app. right. left. reflexivity.
Qed.

Lemma daily_loss_limit_witness :
  result
    (Risk.canOpenPosition
       (result (Risk.closePosition exampleLedger "SPY" (-500) (clockAt 15 0))
          host0 trace0)
       (clockAt 20 0)) host0 trace0 = false.
Proof.
  assert (H := daily_loss_limit_blocks_entries exampleLedger "SPY" (-500)
                 (clockAt 15 0) host0 trace0).
  specialize (H ltac:(vm_compute; discriminate)).
  cbv zeta in H. destruct H as [Hblocked _]. apply Hblocked.
Defined.

(** X10.  When the replay's [checkDailyReset] resets (the time is at or
    past the boundary), the trade, loss and daily-loss gates reopen unless
    their limits are zero or less, while the position cap and the cooldown
    stay as they were: [canOpenPosition] on the reset ledger answers false
    exactly when the position cap or the cooldown of the ledger before
    still fails, or a limit is not positive. *)
Theorem daily_reset_reopens_daily_gates (tz : Z) (state : Risk.RiskState)
    (now later : Z) (h h' : Host) (t t' : Trace) :
  (Risk.dailyResetTime state <= now)%Z ->
  let state' := result (Risk.checkDailyReset tz state now) h t in
  let risk := Risk.riskConfig state in
  result (Risk.canOpenPosition state' later) h' t' = false <->
    gateFails state later PositionCap
    \/ Config.max_trades_per_day risk <= 0
    \/ Config.max_losses_per_day risk <= 0
    \/ cooldownHolds state later
    \/ Config.max_daily_loss risk <= 0.
Proof.
  intros Hge state' risk.
  destruct (checkDailyReset_after tz state now h t Hge)
    as (Hpnl & Htrades & Hlosses & _ & Hlast & Hpos & _ & Hcfg).
  fold state' in Hpnl, Htrades, Hlosses, Hlast, Hpos, Hcfg.
  rewrite canOpenPosition_false_iff.
  unfold gateFails, cooldownHolds, Risk.riskConfig.
  rewrite Hpnl, Htrades, Hlosses, Hlast, Hpos, Hcfg.
  fold (Risk.riskConfig state). fold risk.
  assert (Hloss : 0 <= - Config.max_daily_loss risk
                  <-> Config.max_daily_loss risk <= 0) by (split; intros; lra).
  rewrite Hloss. reflexivity.
Qed.

Lemma daily_reset_witness :
  let now := Risk.dailyResetTime exampleLedger in
  result
    (Risk.canOpenPosition
       (result (Risk.checkDailyReset 0 exampleLedger now) host0 trace0)
       now) host0 trace0 = true.
Proof.
  intros now.
  assert (H := daily_reset_reopens_daily_gates 0 exampleLedger now now
                 host0 host0 trace0 trace0).
  specialize (H ltac:(vm_compute; discriminate)). cbv zeta in H.
  apply not_false_iff_true. intros Hfalse. apply H in Hfalse.
  destruct Hfalse as [F|[F|[F|[(u & Hu & _)|F]]]];
    [unfold gateFails in F| | |discriminate|];
    apply Qle_bool_iff in F; vm_compute in F; discriminate.
Defined.

(** X11.  After [checkDailyReset] the reset boundary lies strictly after
    the time of the call, so a second call at that time changes nothing
    and writes nothing; a boundary it sets is a local midnight at most 24
    hours ahead; and a ledger created at a time does not reset at that
    time. *)
Theorem checkDailyReset_settles (tz : Z) (state : Risk.RiskState) (now : Z)
    (h : Host) (t : Trace) :
  let state' := result (Risk.checkDailyReset tz state now) h t in
  (now < Risk.dailyResetTime state')%Z
  /\ (forall h' t', Risk.checkDailyReset tz state' now h' t' = (state', t'))
  /\ ((Risk.dailyResetTime state <= now)%Z ->
      (Risk.dailyResetTime state' <= now + msPerDay)%Z
      /\ ((Risk.dailyResetTime state' + tz) mod msPerDay = 0)%Z)
  /\ (forall config h' t',
        Risk.checkDailyReset tz (Risk.createRiskState tz config now) now h' t'
        = (Risk.createRiskState tz config now, t')).
Proof.
  intros state'.
  pose proof (nextLocalMidnight_spec tz now) as [[Hnext Hday] Hmid].
  assert (Hafter : (now < Risk.dailyResetTime state')%Z).
  { destruct (Z.lt_ge_cases now (Risk.dailyResetTime state)) as [Hlt|Hge].
    - subst state'. rewrite checkDailyReset_before by exact Hlt. exact Hlt.
    - destruct (checkDailyReset_after tz state now h t Hge)
        as (_ & _ & _ & Hreset & _).
      fold state' in Hreset. rewrite Hreset. exact Hnext. }
  split; [exact Hafter|]. split; [|split].
  - intros h' t'. unfold Risk.checkDailyReset at 1.
    apply Z.ltb_lt in Hafter. rewrite Hafter. reflexivity.
  - intros Hge.
    destruct (checkDailyReset_after tz state now h t Hge)
      as (_ & _ & _ & Hreset & _).
    fold state' in Hreset. rewrite Hreset. split; assumption.
  - intros config h' t'. unfold Risk.checkDailyReset.
    cbn [Risk.dailyResetTime Risk.createRiskState].
    unfold Risk.getNextResetTime.
    apply Z.ltb_lt in Hnext. rewrite Hnext. reflexivity.
Qed.

(** X12.  Recording a position for an instrument the ledger does not
    hold makes [getPositionInfo] return it and raises the position count
    by one without touching the day's P&L; closing it again restores the
    open positions and the count the ledger had before. *)
Theorem record_then_close_restores_positions (state : Risk.RiskState)
    (symbol : string) (entryPrice quantity : Q) (opened : Z) (pnl : Q)
    (closed : Z) (h : Host) (t : Trace) :
  Risk.positions state !! symbol = None ->
  let held := Risk.recordPosition state symbol entryPrice quantity opened in
  let state' := result (Risk.closePosition held symbol pnl closed) h t in
  Risk.getPositionInfo held symbol
  = Some (Risk.mkPositionInfo symbol entryPrice quantity opened)
  /\ Risk.getPositionCount held = S (Risk.getPositionCount state)
  /\ Risk.getDailyPnL held = Risk.getDailyPnL state
  /\ Risk.positions state' = Risk.positions state
  /\ Risk.getPositionCount state' = Risk.getPositionCount state
  /\ Risk.getPositionInfo state' symbol = None.
Proof.
  intros Hflat held state'.
  assert (Hback : Risk.positions state' = Risk.positions state).
  { subst state' held. rewrite closePosition_positions.
    cbn [Risk.positions Risk.recordPosition].
    apply delete_insert_id. exact Hflat. }
  unfold Risk.getPositionInfo, Risk.getPositionCount, Risk.getDailyPnL.
  rewrite Hback. subst held. cbn [Risk.positions Risk.recordPosition Risk.dailyPnL].
  split; [apply lookup_insert_eq|].
  split; [apply map_size_insert_None; exact Hflat|].
  repeat split. exact Hflat.
Qed.

Lemma record_then_close_witness :
  Risk.positions
    (result
       (Risk.closePosition
          (Risk.recordPosition exampleLedger "SPY" 95 10 (clockAt 15 0))
          "SPY" 5 (clockAt 15 5)) host0 trace0)
  = Risk.positions exampleLedger.
Proof.
  assert (H := record_then_close_restores_positions exampleLedger "SPY" 95 10
                 (clockAt 15 0) 5 (clockAt 15 5) host0 trace0).
  specialize (H ltac:(reflexivity)). cbv zeta in H.
  destruct H as (_ & _ & _ & Hback & _). exact Hback.
Defined.


(** X14.  On a host whose clock reads [now], at or past the reset
    boundary, the reset of the live path ([checkAndResetIfNeeded]) returns
    what the reset of the replay ([checkDailyReset] at [now]) returns,
    except that it also clears [lastLossTime]. *)
Theorem live_reset_also_clears_cooldown (tz : Z) (state : Risk.RiskState)
    (now : Z) (h h' : Host) (t t' : Trace) :
  (Risk.dailyResetTime state <= now)%Z ->
  nowAt h (reads t) = now -> nowAt h (S (reads t)) = now ->
  result (Risk.checkAndResetIfNeeded tz state) h t
  = withLastLoss (result (Risk.checkDailyReset tz state now) h' t') None.
Proof.
  intros Hge Hfirst Hsecond.
  unfold Risk.checkAndResetIfNeeded, Risk.checkDailyReset, Risk.resetDailyPnL.
  pose proof Hge as Hge'. apply Z.leb_le in Hge. apply Z.ltb_ge in Hge'.
  rewrite Hge'. run_monad. cbn [fst snd reads]. rewrite Hfirst, Hge.
  cbn [fst snd reads]. rewrite Hsecond. reflexivity.
Qed.

Lemma live_reset_witness :
  let now := Risk.dailyResetTime exampleLedger in
  Risk.lastLossTime
    (result
       (Risk.checkAndResetIfNeeded 0
          (withLastLoss exampleLedger (Some (clockAt 23 59))))
       (fixedClock now) trace0) = None.
Proof.
  intros now.
  rewrite (live_reset_also_clears_cooldown 0
             (withLastLoss exampleLedger (Some (clockAt 23 59))) now
             (fixedClock now) host0 trace0 trace0);
    [reflexivity | vm_compute; discriminate | reflexivity | reflexivity].
Defined.

(** A loss at 15:00 and the clock at 15:01, every other gate open: the
    cooldown gate is the first that fails. *)
Lemma first_failing_gate_witness :
  let state := withLastLoss exampleLedger (Some (clockAt 15 0)) in
  result (Risk.canOpenPosition state (clockAt 15 1)) host0 trace0 = false.
Proof.
  intros state.
  destruct (canOpenPosition_reports_first_failing state (clockAt 15 1)
              host0 trace0 Cooldown) as [Hfalse _].
  - discriminate.
  - exists (clockAt 15 0). split; reflexivity.
  - repeat constructor; intros F; unfold gateFails in F;
      apply Qle_bool_iff in F; vm_compute in F; discriminate.
  - exact Hfalse.
Defined.

(** ** Further properties: the strategy *)

(** *** Computations that leave the trade log alone *)

Lemma quiet_mret {A} (a : A) : quiet (mret a).
Proof. intros h t. reflexivity. Qed.

Lemma quiet_emit (l : LogLine) : plainLine l -> quiet (emit l).
Proof.
  intros Hl h t. cbn [emit snd output]. rewrite tradeEvents_app.
  destruct l; try contradiction; apply app_nil_r.
Qed.

Lemma quiet_bind {A B} (m : M A) (f : A -> M B) :
  quiet m -> (forall a, quiet (f a)) -> quiet (x ← m; f x).
Proof.
  intros Hm Hf h t. unfold mbind, M_bind, bind.
  specialize (Hm h t). destruct (m h t) as [a t1]. cbn [snd] in Hm.
  rewrite (Hf a h t1). exact Hm.
Qed.

Lemma quiet_sampled (p : Q) (m : M unit) : quiet m -> quiet (sampled p m).
Proof.
  intros Hm. unfold sampled. apply quiet_bind.
  - intros h t. reflexivity.
  - intros r. unfold when. destruct (Qltb r p); [exact Hm | apply quiet_mret].
Qed.

Lemma canOpenPosition_quiet (state : Risk.RiskState) (now : Z) :
  quiet (Risk.canOpenPosition state now).
Proof.
  unfold Risk.canOpenPosition. cbv zeta.
  repeat first
    [ apply quiet_mret
    | apply quiet_emit; exact I
    | apply quiet_sampled
    | apply quiet_bind; [|intros ?]
    | match goal with
      | |- quiet (if ?b then _ else _) => destruct b
      | |- quiet (match ?x with Some _ => _ | None => _ end) => destruct x
      end ].
Qed.

Lemma quiet_written {A} (m : M A) (h : Host) (t : Trace) :
  quiet m -> tradeEvents (written m h t) = tradeEvents (output t).
Proof. intros Hm. apply Hm. Qed.

(** *** Entries *)

Lemma enterLongPosition_entry s r symbol (price : Q) (now : Z) h t :
  exists p,
    result (Strategy.enterLongPosition s r symbol price now) h t
    = (Strategy.withPositions s (<[symbol := p]> (Strategy.positions s)),
       Risk.recordPosition r symbol price (signedQuantity p) now)
    /\ tradeEvents (written (Strategy.enterLongPosition s r symbol price now) h t)
       = tradeEvents (output t) ++ [entryEvent p]
    /\ Strategy.symbol p = symbol /\ Strategy.side p = long
    /\ Strategy.entryPrice p = price
    /\ Strategy.quantity p = Strategy.entryQuantity s r price
    /\ Strategy.entryTime p = now
    /\ Strategy.stopLoss p
       = price * (1 - Config.stop_loss_pct (Strategy.riskConfig s))
    /\ Strategy.takeProfit p
       = price * (1 + Config.take_profit_pct (Strategy.riskConfig s))
    /\ Strategy.trailingStop p
       = if Config.trailing_stop (Strategy.riskConfig s)
         then Some (price * (1 - Config.trailing_stop_pct (Strategy.riskConfig s)))
         else None.
Proof.
  unfold Strategy.enterLongPosition. cbv zeta.
  rewrite !result_bind, result_mret, !written_bind, written_mret.
  match goal with
  | |- context [<[symbol := ?p]> (Strategy.positions s)] => exists p
  end.
  split; [reflexivity|]. split; [|repeat split].
  cbn [emit snd output]. rewrite !tradeEvents_app. cbn. rewrite app_nil_r.
  reflexivity.
Qed.

Lemma enterShortPosition_entry s r symbol (price : Q) (now : Z) h t :
  exists p,
    result (Strategy.enterShortPosition s r symbol price now) h t
    = (Strategy.withPositions s (<[symbol := p]> (Strategy.positions s)),
       Risk.recordPosition r symbol price (signedQuantity p) now)
    /\ tradeEvents (written (Strategy.enterShortPosition s r symbol price now) h t)
       = tradeEvents (output t) ++ [entryEvent p]
    /\ Strategy.symbol p = symbol /\ Strategy.side p = short
    /\ Strategy.entryPrice p = price
    /\ Strategy.quantity p = Strategy.entryQuantity s r price
    /\ Strategy.entryTime p = now
    /\ Strategy.stopLoss p
       = price * (1 + Config.stop_loss_pct (Strategy.riskConfig s))
    /\ Strategy.takeProfit p
       = price * (1 - Config.take_profit_pct (Strategy.riskConfig s))
    /\ Strategy.trailingStop p
       = if Config.trailing_stop (Strategy.riskConfig s)
         then Some (price * (1 + Config.trailing_stop_pct (Strategy.riskConfig s)))
         else None.
Proof.
  unfold Strategy.enterShortPosition. cbv zeta.
  rewrite !result_bind, result_mret, !written_bind, written_mret.
  match goal with
  | |- context [<[symbol := ?p]> (Strategy.positions s)] => exists p
  end.
  split; [reflexivity|]. split; [|repeat split].
  cbn [emit snd output]. rewrite !tradeEvents_app. cbn. rewrite app_nil_r.
  reflexivity.
Qed.

(** *** Managing an open position *)

Lemma truthyNum_Some (x : option Q) (v : Q) :
  Strategy.truthyNum x = Some v -> x = Some v /\ ~ v == 0.
Proof.
  unfold Strategy.truthyNum. destruct x as [u|]; [|discriminate].
  destruct (Qeq_bool u 0) eqn:Hz; [discriminate|].
  intros [= <-]. split; [reflexivity | apply Qeq_bool_false, Hz].
Qed.

Lemma managePosition_cases s r symbol (price vwap : Q) position (now : Z) :
  let run := Strategy.managePosition s r symbol price vwap position now in
  (exists reason,
     reason <> EOD_FORCE_EXIT
     /\ run = Strategy.exitPosition s r symbol price reason
                (Strategy.calculatePnL position price) now)
  \/ (insideBracket position price
      /\ (run = mret (s, r)
          \/ exists old new,
               Strategy.trailingStop position = Some old
               /\ ratchets (Strategy.side position) old new price
               /\ run = mret (Strategy.withPositions s
                                (<[symbol := Strategy.withTrailingStop position new]>
                                   (Strategy.positions s)),
                              r))).
Proof.
  unfold Strategy.managePosition, insideBracket, ratchets. cbv zeta.
  destruct (match Strategy.truthyNum _ with Some _ => _ | None => false end).
  { left. exists TIME_STOP. split; [discriminate | reflexivity]. }
  destruct (Strategy.side position).
  - destruct (Qle_bool price (Strategy.stopLoss position)) eqn:Hsl.
    { left. exists STOP_LOSS. split; [discriminate | reflexivity]. }
    destruct (Qle_bool (Strategy.takeProfit position) price) eqn:Htp.
    { left. exists TAKE_PROFIT. split; [discriminate | reflexivity]. }
    apply not_true_iff_false in Hsl, Htp. rewrite Qle_bool_iff in Hsl, Htp.
    apply Qnot_le_lt in Hsl, Htp.
    destruct (if Config.trailing_stop _ then _ else None) as [trailing|] eqn:Htr;
      [|right; split; [split; assumption | left; reflexivity]].
    assert (Hold : Strategy.trailingStop position = Some trailing).
    { destruct (Config.trailing_stop _); [|discriminate].
      apply truthyNum_Some in Htr. tauto. }
    destruct (Qltb trailing _) eqn:Hup.
    + destruct (Qle_bool price _) eqn:Hlevel.
      { left. exists TRAILING_STOP. split; [discriminate | reflexivity]. }
      apply not_true_iff_false in Hlevel. rewrite Qle_bool_iff in Hlevel.
      apply Qnot_le_lt in Hlevel. apply Qltb_lt in Hup.
      right. split; [split; assumption|]. right.
      eexists _, _. split; [exact Hold|]. split; [|reflexivity].
      split; assumption.
    + destruct (Qle_bool price trailing).
      { left. exists TRAILING_STOP. split; [discriminate | reflexivity]. }
      right. split; [split; assumption | left; reflexivity].
  - destruct (Qle_bool (Strategy.stopLoss position) price) eqn:Hsl.
    { left. exists STOP_LOSS. split; [discriminate | reflexivity]. }
    destruct (Qle_bool price (Strategy.takeProfit position)) eqn:Htp.
    { left. exists TAKE_PROFIT. split; [discriminate | reflexivity]. }
    apply not_true_iff_false in Hsl, Htp. rewrite Qle_bool_iff in Hsl, Htp.
    apply Qnot_le_lt in Hsl, Htp.
    destruct (if Config.trailing_stop _ then _ else None) as [trailing|] eqn:Htr;
      [|right; split; [split; assumption | left; reflexivity]].
    assert (Hold : Strategy.trailingStop position = Some trailing).
    { destruct (Config.trailing_stop _); [|discriminate].
      apply truthyNum_Some in Htr. tauto. }
    destruct (Qltb _ trailing) eqn:Hup.
    + destruct (Qle_bool _ price) eqn:Hlevel.
      { left. exists TRAILING_STOP. split; [discriminate | reflexivity]. }
      apply not_true_iff_false in Hlevel. rewrite Qle_bool_iff in Hlevel.
      apply Qnot_le_lt in Hlevel. apply Qltb_lt in Hup.
      right. split; [split; assumption|]. right.
      eexists _, _. split; [exact Hold|]. split; [|reflexivity].
      split; assumption.
    + destruct (Qle_bool trailing price).
      { left. exists TRAILING_STOP. split; [discriminate | reflexivity]. }
      right. split; [split; assumption | left; reflexivity].
Qed.

Lemma entryQuantity_ge_1 s r (price : Q) : 1 <= Strategy.entryQuantity s r price.
Proof.
  unfold Strategy.entryQuantity. cbv zeta.
  destruct (Qltb _ 1) eqn:Hq; [apply Qle_refl | apply Qltb_ge, Hq].
Qed.


(** X17.  [managePosition] on a held position either closes it or keeps
    it.  When it closes, the position leaves both maps, the ledger books
    [calculatePnL] and counts a trade, and one EXIT record is written,
    with a reason other than EOD_FORCE_EXIT.  It keeps the position only
    when the price lies strictly between stop and target; then the ledger
    is untouched, nothing is written, and the position is as before
    except that its trailing stop may have moved, in the direction that
    favours the position and not past the price. *)
Theorem managePosition_exit_or_hold (s : Strategy.StrategyState)
    (r : Risk.RiskState) (symbol : string) (price vwap : Q)
    (position : Strategy.Position) (now : Z) (h : Host) (t : Trace) :
  Strategy.positions s !! symbol = Some position ->
  let run := Strategy.managePosition s r symbol price vwap position now in
  let after := result run h t in
  (Strategy.positions (fst after) !! symbol = None
   /\ Risk.positions (snd after) !! symbol = None
   /\ Risk.dailyPnL (snd after)
      = Risk.dailyPnL r + Strategy.calculatePnL position price
   /\ Risk.tradesToday (snd after) = Risk.tradesToday r + 1
   /\ exists reason,
        reason <> EOD_FORCE_EXIT
        /\ tradeEvents (written run h t)
           = tradeEvents (output t)
             ++ [exitEvent symbol position price reason now])
  \/ (insideBracket position price
      /\ snd after = r
      /\ written run h t = output t
      /\ exists p',
           Strategy.positions (fst after) !! symbol = Some p'
           /\ (p' = position
               \/ exists old new,
                    Strategy.trailingStop position = Some old
                    /\ ratchets (Strategy.side position) old new price
                    /\ p' = Strategy.withTrailingStop position new)).
Proof.
  intros Hpos run after.
  destruct (managePosition_cases s r symbol price vwap position now)
    as [(reason & Hreason & Hrun) | (Hin & [Hrun | (old & new & Hold & Hmove & Hrun)])];
    fold run in Hrun; subst after; rewrite Hrun.
  - left.
    rewrite (exitPosition_result _ _ _ _ _ _ _ _ _ _ Hpos).
    rewrite (exitPosition_written _ _ _ _ _ _ _ _ _ _ Hpos).
    cbn [fst snd Strategy.positions Strategy.withPositions].
    rewrite closePosition_result.
    cbn [Risk.positions Risk.dailyPnL Risk.tradesToday].
    split; [apply lookup_delete_eq|]. split; [apply lookup_delete_eq|].
    split; [reflexivity|]. split; [reflexivity|].
    exists reason. split; [exact Hreason | reflexivity].
  - right. split; [exact Hin|]. split; [reflexivity|]. split; [reflexivity|].
    exists position. split; [exact Hpos | left; reflexivity].
  - right. split; [exact Hin|]. split; [reflexivity|]. split; [reflexivity|].
    exists (Strategy.withTrailingStop position new).
    split; [apply lookup_insert_eq|]. right. eauto.
Qed.

(** The held long of the examples (entered at 95, stop 94.05, target
    96.9) observed at 96: it is kept. *)
Lemma managePosition_hold_witness :
  insideBracket heldPosition 96
  /\ result
       (Strategy.managePosition heldStrategy heldLedger "SPY" 96 96
          heldPosition (clockAt 15 30)) host0 trace0
     = (heldStrategy, heldLedger).
Proof.
  assert (Hin : insideBracket heldPosition 96) by (split; reflexivity).
  split; [exact Hin|].
  assert (H := managePosition_exit_or_hold heldStrategy heldLedger "SPY" 96 96
                 heldPosition (clockAt 15 30) host0 trace0).
  specialize (H ltac:(reflexivity)). cbv zeta in H.
  destruct H as [(Hgone & _) | _]; [|reflexivity].
  vm_compute in Hgone. discriminate.
Defined.

Lemma holdSeconds_same (now : Z) : Strategy.holdSeconds now now == 0.
Proof.
  unfold Strategy.holdSeconds. rewrite Z.sub_diag. reflexivity.
Qed.

(** A position observed at its entry time, at a price strictly inside
    its bracket and strictly on the winning side of a trailing stop
    that the price itself would set: [managePosition] does nothing. *)
Lemma managePosition_at_entry s r symbol (price vwap : Q) p (now : Z) :
  Strategy.entryTime p = now ->
  (forall maxHold,
     Config.max_hold_seconds (Strategy.riskConfig s) = Some maxHold ->
     0 <= maxHold) ->
  insideBracket p price ->
  (Config.trailing_stop (Strategy.riskConfig s) = true ->
   0 < price * Config.trailing_stop_pct (Strategy.riskConfig s)
   /\ Strategy.trailingStop p
      = Some (match Strategy.side p with
              | long =>
                  price * (1 - Config.trailing_stop_pct (Strategy.riskConfig s))
              | short =>
                  price * (1 + Config.trailing_stop_pct (Strategy.riskConfig s))
              end)) ->
  Strategy.managePosition s r symbol price vwap p now = mret (s, r).
Proof.
  intros Htime Hhold Hin Htrail.
  unfold Strategy.managePosition. cbv zeta. rewrite Htime.
  assert (Hstop : match Strategy.truthyNum
                          (Config.max_hold_seconds (Strategy.riskConfig s)) with
                  | Some maxHold => Qle_bool maxHold (Strategy.holdSeconds now now)
                  | None => false
                  end = false).
  { destruct (Strategy.truthyNum _) as [maxHold|] eqn:Hm; [|reflexivity].
    apply truthyNum_Some in Hm as [Hm Hnz]. apply Hhold in Hm.
    apply not_true_iff_false. rewrite Qle_bool_iff, holdSeconds_same.
    intros Hle. apply Hnz. lra. }
  rewrite Hstop. unfold insideBracket in Hin.
  destruct (Strategy.side p).
  - destruct Hin as [Hsl Htp].
    replace (Qle_bool price (Strategy.stopLoss p)) with false
      by (symmetry; apply not_true_iff_false; rewrite Qle_bool_iff; lra).
    replace (Qle_bool (Strategy.takeProfit p) price) with false
      by (symmetry; apply not_true_iff_false; rewrite Qle_bool_iff; lra).
    destruct (Config.trailing_stop (Strategy.riskConfig s)); [|reflexivity].
    destruct Htrail as [Hpct Hat]; [reflexivity|]. rewrite Hat.
    destruct (Strategy.truthyNum (Some _)) as [trailing|] eqn:Htr; [|reflexivity].
    apply truthyNum_Some in Htr as [[= <-] _].
    replace (Qltb _ _) with false
      by (symmetry; apply Qltb_ge; apply Qle_refl).
    replace (Qle_bool _ _) with false
      by (symmetry; apply not_true_iff_false; rewrite Qle_bool_iff; lra).
    reflexivity.
  - destruct Hin as [Htp Hsl].
    replace (Qle_bool (Strategy.stopLoss p) price) with false
      by (symmetry; apply not_true_iff_false; rewrite Qle_bool_iff; lra).
    replace (Qle_bool price (Strategy.takeProfit p)) with false
      by (symmetry; apply not_true_iff_false; rewrite Qle_bool_iff; lra).
    destruct (Config.trailing_stop (Strategy.riskConfig s)); [|reflexivity].
    destruct Htrail as [Hpct Hat]; [reflexivity|]. rewrite Hat.
    destruct (Strategy.truthyNum (Some _)) as [trailing|] eqn:Htr; [|reflexivity].
    apply truthyNum_Some in Htr as [[= <-] _].
    replace (Qltb _ _) with false
      by (symmetry; apply Qltb_ge; apply Qle_refl).
    replace (Qle_bool _ _) with false
      by (symmetry; apply not_true_iff_false; rewrite Qle_bool_iff; lra).
    reflexivity.
Qed.

(** X16.  With a positive price and positive stop and target
    percentages, [enterLongPosition] and [enterShortPosition] open a
    position of at least one share whose stop and target bracket the
    entry price (the stop below and the target above for a long, the
    reverse for a short), and record it in the ledger with a quantity that
    is negative for a short.  Observed again at the entry price and time,
    the position is kept: [managePosition] changes nothing and writes
    nothing (given a positive trailing percentage when trailing is on,
    and no negative [max_hold_seconds]). *)
Theorem fresh_position_is_held_at_entry_price (s : Strategy.StrategyState)
    (r : Risk.RiskState) (symbol : string) (price vwap : Q) (now : Z)
    (side : Side) (h : Host) (t : Trace) :
  let risk := Strategy.riskConfig s in
  0 < price ->
  0 < Config.stop_loss_pct risk ->
  0 < Config.take_profit_pct risk ->
  (Config.trailing_stop risk = true -> 0 < Config.trailing_stop_pct risk) ->
  (forall maxHold, Config.max_hold_seconds risk = Some maxHold -> 0 <= maxHold) ->
  let entered :=
    result
      (match side with
       | long => Strategy.enterLongPosition s r symbol price now
       | short => Strategy.enterShortPosition s r symbol price now
       end) h t in
  exists p,
    Strategy.positions (fst entered) !! symbol = Some p
    /\ Strategy.side p = side
    /\ insideBracket p price
    /\ 1 <= Strategy.quantity p
    /\ Risk.getPositionInfo (snd entered) symbol
       = Some (Risk.mkPositionInfo symbol price (signedQuantity p) now)
    /\ forall h' t',
         Strategy.managePosition (fst entered) (snd entered) symbol price vwap
           p now h' t'
         = (entered, t').
Proof.
  intros risk Hprice Hsl Htp Htrailing Hhold entered.
  assert (Hmove : Config.trailing_stop risk = true ->
                  0 < price * Config.trailing_stop_pct risk).
  { intros Hon. apply Qmult_lt_0_compat; auto. }
  pose proof (Qmult_lt_0_compat _ _ Hprice Hsl) as Hs.
  pose proof (Qmult_lt_0_compat _ _ Hprice Htp) as Ht.
  destruct side.
  - destruct (enterLongPosition_entry s r symbol price now h t)
      as (p & Hres & _ & _ & Hside & _ & Hqty & Htime & Hstop & Htarget & Htr).
    fold risk in Hstop, Htarget, Htr.
    assert (Hin : insideBracket p price).
    { unfold insideBracket. rewrite Hside, Hstop, Htarget. split; lra. }
    subst entered. rewrite Hres. cbn [fst snd]. exists p.
    split; [apply lookup_insert_eq|]. split; [exact Hside|].
    split; [exact Hin|].
    split; [rewrite Hqty; apply entryQuantity_ge_1|].
    split; [apply lookup_insert_eq|].
    intros h' t'. rewrite managePosition_at_entry; auto.
    change (Strategy.riskConfig (Strategy.withPositions s _)) with risk.
    intros Hon. split; [apply Hmove, Hon|].
    rewrite Hside, Htr, Hon. reflexivity.
  - destruct (enterShortPosition_entry s r symbol price now h t)
      as (p & Hres & _ & _ & Hside & _ & Hqty & Htime & Hstop & Htarget & Htr).
    fold risk in Hstop, Htarget, Htr.
    assert (Hin : insideBracket p price).
    { unfold insideBracket. rewrite Hside, Hstop, Htarget. split; lra. }
    subst entered. rewrite Hres. cbn [fst snd]. exists p.
    split; [apply lookup_insert_eq|]. split; [exact Hside|].
    split; [exact Hin|].
    split; [rewrite Hqty; apply entryQuantity_ge_1|].
    split; [apply lookup_insert_eq|].
    intros h' t'. rewrite managePosition_at_entry; auto.
    change (Strategy.riskConfig (Strategy.withPositions s _)) with risk.
    intros Hon. split; [apply Hmove, Hon|].
    rewrite Hside, Htr, Hon. reflexivity.
Qed.

(** A long entered at 95 under the example configuration (stop 1%,
    target 2%). *)
Lemma fresh_position_witness :
  exists p,
    Strategy.positions
      (fst (result
              (Strategy.enterLongPosition
                 (Strategy.createStrategyState exampleConfig) exampleLedger
                 "SPY" 95 (clockAt 15 14)) host0 trace0)) !! "SPY" = Some p
    /\ insideBracket p 95.
Proof.
  assert (H := fresh_position_is_held_at_entry_price
                 (Strategy.createStrategyState exampleConfig) exampleLedger
                 "SPY" 95 95 (clockAt 15 14) long host0 trace0).
  cbv zeta in H.
  specialize (H ltac:(reflexivity) ltac:(reflexivity) ltac:(reflexivity)
                ltac:(discriminate) ltac:(discriminate)).
  destruct H as (p & Hheld & _ & Hin & _). exists p. split; assumption.
Defined.

(** *** Looking for an entry *)

Lemma entryStep_stay symbol (price : Q) (now : Z) s r s' :
  Strategy.positions s' = Strategy.positions s ->
  entryStep symbol price now (s, r) (s', r) [].
Proof. intros Hs. left. auto. Qed.

Lemma enterLongPosition_entryStep s r symbol (price : Q) (now : Z) h t s0 :
  Strategy.positions s = Strategy.positions s0 ->
  exists events,
    tradeEvents (written (Strategy.enterLongPosition s r symbol price now) h t)
    = tradeEvents (output t) ++ events
    /\ entryStep symbol price now (s0, r)
         (result (Strategy.enterLongPosition s r symbol price now) h t) events.
Proof.
  intros Hs.
  destruct (enterLongPosition_entry s r symbol price now h t)
    as (p & Hres & Hw & Hsym & _ & Hprice & _ & Htime & _).
  exists [entryEvent p]. split; [exact Hw|]. right. exists p.
  rewrite Hres. cbn [fst snd Strategy.positions Strategy.withPositions].
  rewrite Hs. auto 10.
Qed.

Lemma enterShortPosition_entryStep s r symbol (price : Q) (now : Z) h t s0 :
  Strategy.positions s = Strategy.positions s0 ->
  exists events,
    tradeEvents (written (Strategy.enterShortPosition s r symbol price now) h t)
    = tradeEvents (output t) ++ events
    /\ entryStep symbol price now (s0, r)
         (result (Strategy.enterShortPosition s r symbol price now) h t) events.
Proof.
  intros Hs.
  destruct (enterShortPosition_entry s r symbol price now h t)
    as (p & Hres & Hw & Hsym & _ & Hprice & _ & Htime & _).
  exists [entryEvent p]. split; [exact Hw|]. right. exists p.
  rewrite Hres. cbn [fst snd Strategy.positions Strategy.withPositions].
  rewrite Hs. auto 10.
Qed.

(** [checkEntrySignals] leaves positions and ledger alone (a pending
    signal may be set or cleared) and writes no trade record, or opens
    one position at the current price and time and writes its entry
    record. *)
Lemma checkEntrySignals_entryStep s r symbol (price vwap : Q) slope
    (atr rsi : Q) vwapState (now : Z) h t :
  let run :=
    Strategy.checkEntrySignals s r symbol price vwap slope atr rsi vwapState
      now in
  exists events,
    tradeEvents (written run h t) = tradeEvents (output t) ++ events
    /\ entryStep symbol price now (s, r) (result run h t) events.
Proof.
  intros run. subst run. unfold Strategy.checkEntrySignals. cbv zeta.
  rewrite result_bind, written_bind.
  pose proof (canOpenPosition_quiet r now h t) as Hq1.
  set (t1 := snd (Risk.canOpenPosition r now h t)) in *.
  assert (Hstay : forall (u : Trace) (s' : Strategy.StrategyState),
            tradeEvents (output u) = tradeEvents (output t) ->
            Strategy.positions s' = Strategy.positions s ->
            exists events,
              tradeEvents (written (mret (s', r)) h u)
              = tradeEvents (output t) ++ events
              /\ entryStep symbol price now (s, r) (result (mret (s', r)) h u)
                   events).
  { intros u s' Hu Hs'. exists []. rewrite result_mret, written_mret, app_nil_r.
    split; [exact Hu | apply entryStep_stay, Hs']. }
  destruct (result (Risk.canOpenPosition r now) h t); cbn [negb];
    [|apply Hstay; [exact Hq1 | reflexivity]].
  rewrite result_bind, written_bind.
  match goal with
  | |- context [snd (sampled ?q (emit ?l) h t1)] =>
      pose proof (quiet_sampled q (emit l) (quiet_emit l I) h t1) as Hq2;
      set (t2 := snd (sampled q (emit l) h t1)) in *
  end.
  rewrite Hq1 in Hq2.
  destruct (Strategy.beforeStart _ now); [apply Hstay; auto|].
  destruct (Strategy.afterEnd _ now); [apply Hstay; auto|].
  destruct (Strategy.lowVolume _ vwapState).
  { rewrite result_bind, written_bind. apply Hstay; [|reflexivity].
    rewrite (quiet_sampled _ _ (quiet_mret tt) h t2). exact Hq2. }
  destruct (Strategy.lowVolatility _ atr price).
  { rewrite result_bind, written_bind. apply Hstay; [|reflexivity].
    rewrite (quiet_sampled _ _ (quiet_mret tt) h t2). exact Hq2. }
  destruct (Strategy.choppy _ vwapState); [apply Hstay; auto|].
  rewrite <- Hq2.
  assert (Hsignal : forall l ps,
            plainLine l ->
            exists events,
              tradeEvents
                (written (emit l;; mret (Strategy.withPendingSignals s ps, r)) h t2)
              = tradeEvents (output t2) ++ events
              /\ entryStep symbol price now (s, r)
                   (result (emit l;; mret (Strategy.withPendingSignals s ps, r))
                      h t2) events).
  { intros l ps Hl. exists [].
    rewrite result_bind, result_mret, written_bind, written_mret, app_nil_r.
    split; [apply (quiet_emit l Hl h t2) | apply entryStep_stay; reflexivity]. }
  destruct (Strategy.pendingSignals s !! symbol) as [pending|].
  - destruct (Strategy.type pending).
    + destruct (Qltb price vwap).
      * rewrite Hq2. apply Hstay; auto.
      * apply enterLongPosition_entryStep. reflexivity.
    + destruct (Qltb vwap price).
      * rewrite Hq2. apply Hstay; auto.
      * apply enterShortPosition_entryStep. reflexivity.
  - destruct (xlt_q _ _ && Qltb rsi _)%bool.
    + destruct (Config.require_confirmation _) as [[|]|].
      * apply Hsignal. exact I.
      * apply enterLongPosition_entryStep. reflexivity.
      * apply Hsignal. exact I.
    + destruct (xgt_q _ _ && Qltb _ rsi)%bool;
        [|rewrite Hq2; apply Hstay; auto].
      destruct (Config.require_confirmation _) as [[|]|].
      * apply Hsignal. exact I.
      * apply enterShortPosition_entryStep. reflexivity.
      * apply Hsignal. exact I.
Qed.

(** X18.  The trade log follows the positions.  Whatever
    [evaluateStrategy] is called with, it writes at most one trade
    record: an EXIT record exactly when the instrument had a position
    and has none afterwards (the ledger then books [calculatePnL] at the
    current price, counts a trade and drops its entry, and the reason is
    EOD_FORCE_EXIT exactly when the force-exit test holds), an entry
    record exactly when it had none and has one afterwards (opened at the
    current price and time and recorded in the ledger), and none
    otherwise, the ledger being returned as it was. *)
Theorem trade_log_matches_positions (s : Strategy.StrategyState)
    (r : Risk.RiskState) (symbol : string) (price vwap : Q)
    (vwapState : option Vwap.VWAPState) (now : Z) (h : Host) (t : Trace) :
  let run := Strategy.evaluateStrategy s r symbol price vwap vwapState now in
  let after := result run h t in
  exists events,
    tradeEvents (written run h t) = tradeEvents (output t) ++ events
    /\ match Strategy.positions s !! symbol,
             Strategy.positions (fst after) !! symbol with
       | Some p, None =>
           (exists reason,
              events = [exitEvent symbol p price reason now]
              /\ (reason = EOD_FORCE_EXIT <-> Strategy.eodForceExit now = true))
           /\ Risk.dailyPnL (snd after)
              = Risk.dailyPnL r + Strategy.calculatePnL p price
           /\ Risk.tradesToday (snd after) = Risk.tradesToday r + 1
           /\ Risk.positions (snd after) = delete symbol (Risk.positions r)
       | None, Some p =>
           events = [entryEvent p]
           /\ Strategy.symbol p = symbol /\ Strategy.entryPrice p = price
           /\ Strategy.entryTime p = now
           /\ snd after
              = Risk.recordPosition r symbol price (signedQuantity p) now
       | _, _ => events = [] /\ snd after = r
       end.
Proof.
  intros run after. subst after run.
  assert (Hnothing :
    exists events,
      tradeEvents (written (mret (s, r)) h t) = tradeEvents (output t) ++ events
      /\ match Strategy.positions s !! symbol,
               Strategy.positions (fst (result (mret (s, r)) h t)) !! symbol with
         | Some p, None =>
             (exists reason,
                events = [exitEvent symbol p price reason now]
                /\ (reason = EOD_FORCE_EXIT <-> Strategy.eodForceExit now = true))
             /\ Risk.dailyPnL (snd (result (mret (s, r)) h t))
                = Risk.dailyPnL r + Strategy.calculatePnL p price
             /\ Risk.tradesToday (snd (result (mret (s, r)) h t))
                = Risk.tradesToday r + 1
             /\ Risk.positions (snd (result (mret (s, r)) h t))
                = delete symbol (Risk.positions r)
         | None, Some p =>
             events = [entryEvent p]
             /\ Strategy.symbol p = symbol /\ Strategy.entryPrice p = price
             /\ Strategy.entryTime p = now
             /\ snd (result (mret (s, r)) h t)
                = Risk.recordPosition r symbol price (signedQuantity p) now
         | _, _ => events = [] /\ snd (result (mret (s, r)) h t) = r
         end).
  { exists []. rewrite result_mret, written_mret, app_nil_r.
    split; [reflexivity|]. cbn [fst snd].
    destruct (Strategy.positions s !! symbol); auto. }
  unfold Strategy.evaluateStrategy. cbv zeta.
  destruct vwapState as [w|]; [|exact Hnothing].
  destruct (Indicators.calculateRSI _ _) as [rsi|]; [|exact Hnothing].
  destruct (Indicators.calculateATR _ _) as [atr|]; [|exact Hnothing].
  clear Hnothing.
  assert (Hexit : forall position reason,
    Strategy.positions s !! symbol = Some position ->
    (reason = EOD_FORCE_EXIT <-> Strategy.eodForceExit now = true) ->
    exists events,
      tradeEvents
        (written (Strategy.exitPosition s r symbol price reason
                    (Strategy.calculatePnL position price) now) h t)
      = tradeEvents (output t) ++ events
      /\ match Strategy.positions
                 (fst (result (Strategy.exitPosition s r symbol price reason
                                 (Strategy.calculatePnL position price) now) h t))
               !! symbol with
         | None =>
             (exists reason,
                events = [exitEvent symbol position price reason now]
                /\ (reason = EOD_FORCE_EXIT <-> Strategy.eodForceExit now = true))
             /\ Risk.dailyPnL
                  (snd (result (Strategy.exitPosition s r symbol price reason
                                  (Strategy.calculatePnL position price) now) h t))
                = Risk.dailyPnL r + Strategy.calculatePnL position price
             /\ Risk.tradesToday
                  (snd (result (Strategy.exitPosition s r symbol price reason
                                  (Strategy.calculatePnL position price) now) h t))
                = Risk.tradesToday r + 1
             /\ Risk.positions
                  (snd (result (Strategy.exitPosition s r symbol price reason
                                  (Strategy.calculatePnL position price) now) h t))
                = delete symbol (Risk.positions r)
         | Some _ =>
             events = []
             /\ snd (result (Strategy.exitPosition s r symbol price reason
                               (Strategy.calculatePnL position price) now) h t)
                = r
         end).
  { intros position reason Hpos Hreason.
    exists [exitEvent symbol position price reason now].
    rewrite (exitPosition_result _ _ _ _ _ _ _ _ _ _ Hpos).
    rewrite (exitPosition_written _ _ _ _ _ _ _ _ _ _ Hpos).
    split; [reflexivity|].
    cbn [fst snd Strategy.positions Strategy.withPositions].
    rewrite lookup_delete_eq, closePosition_result.
    cbn [Risk.positions Risk.dailyPnL Risk.tradesToday].
    split; [eauto|]. auto. }
  destruct (Strategy.positions s !! symbol) as [position|] eqn:Hpos.
  - destruct (Strategy.eodForceExit now) eqn:Heod.
    + apply Hexit; [reflexivity | tauto].
    + destruct (managePosition_cases s r symbol price vwap position now)
        as [(reason & Hreason & ->)
           | (_ & [-> | (old & new & _ & _ & ->)])].
      * apply Hexit; [reflexivity|]. split; [tauto | discriminate].
      * exists []. rewrite result_mret, written_mret, app_nil_r.
        cbn [fst snd]. rewrite Hpos. auto.
      * exists []. rewrite result_mret, written_mret, app_nil_r.
        cbn [fst snd Strategy.positions Strategy.withPositions].
        rewrite lookup_insert_eq. auto.
  - match goal with
    | |- context [Strategy.checkEntrySignals s r symbol price vwap ?slope atr rsi w now] =>
        destruct (checkEntrySignals_entryStep s r symbol price vwap slope atr
                    rsi w now h t) as (events & Hw & Hstep)
    end.
    exists events. split; [exact Hw|].
    destruct Hstep as [(Hsame & Hr & ->) | (p & Hin & Hr & -> & Hp)];
      cbn [fst snd] in *.
    + rewrite Hsame, Hpos. auto.
    + rewrite Hin, lookup_insert_eq. tauto.
Qed.

(** *** A flat instrument *)

(** [evaluateStrategy] for a flat instrument, in terms of
    [checkEntrySignals]. *)
Lemma evaluateStrategy_flat s r symbol (price vwap : Q) vwapState (now : Z) :
  Strategy.positions s !! symbol = None ->
  Strategy.evaluateStrategy s r symbol price vwap (Some vwapState) now
  = match
      Indicators.calculateRSI (map Vwap.price (Vwap.dataPoints vwapState))
        (Strategy.rsiPeriodOf (Strategy.filtersConfig s)),
      Indicators.calculateATR (Vwap.dataPoints vwapState) 14
    with
    | Some rsi, Some atr =>
        Strategy.checkEntrySignals s r symbol price vwap
          (Indicators.calculateVWAPSlope vwap
             (map Strategy.vwapOrPrice (Vwap.dataPoints vwapState)) 5)
          atr rsi vwapState now
    | _, _ => mret (s, r)
    end.
Proof.
  intros Hflat. unfold Strategy.evaluateStrategy. cbv zeta.
  destruct (Indicators.calculateRSI _ _) as [rsi|]; [|reflexivity].
  destruct (Indicators.calculateATR _ _) as [atr|]; [|reflexivity].
  rewrite Hflat. reflexivity.
Qed.

(** X19.  A flat instrument stays flat unless every check passes: when
    RSI or ATR is undefined, the risk gate is closed, the time is outside
    the session, or the volume, volatility or chop filter rejects the
    sample, [evaluateStrategy] returns the strategy state and the ledger
    unchanged (a pending signal included) and writes no trade record. *)
Theorem flat_instrument_needs_all_checks (s : Strategy.StrategyState)
    (r : Risk.RiskState) (symbol : string) (price vwap : Q)
    (vwapState : Vwap.VWAPState) (now : Z) (h : Host) (t : Trace) :
  Strategy.positions s !! symbol = None ->
  reachesConfirmation s r price vwapState now h t = false ->
  let run :=
    Strategy.evaluateStrategy s r symbol price vwap (Some vwapState) now in
  result run h t = (s, r)
  /\ tradeEvents (written run h t) = tradeEvents (output t).
Proof.
  intros Hflat Hreach run.
  assert (Hres : result run h t = (s, r)).
  { subst run. rewrite (evaluateStrategy_flat _ _ _ _ _ _ _ Hflat).
    unfold reachesConfirmation in Hreach. cbv zeta in Hreach.
    destruct (Indicators.calculateRSI _ _) as [rsi|]; [|reflexivity].
    destruct (Indicators.calculateATR _ _) as [atr|]; [|reflexivity].
    unfold Strategy.checkEntrySignals. cbv zeta. rewrite result_bind.
    destruct (result (Risk.canOpenPosition r now) h t); cbn [negb andb] in *;
      [|reflexivity].
    rewrite result_bind.
    destruct (Strategy.beforeStart _ now); cbn [negb andb] in *; [reflexivity|].
    destruct (Strategy.afterEnd _ now); cbn [negb andb] in *; [reflexivity|].
    destruct (Strategy.lowVolume _ vwapState); cbn [negb andb] in *;
      [rewrite result_bind; reflexivity|].
    destruct (Strategy.lowVolatility _ atr price); cbn [negb andb] in *;
      [rewrite result_bind; reflexivity|].
    destruct (Strategy.choppy _ vwapState); cbn [negb andb] in *;
      [reflexivity | discriminate]. }
  split; [exact Hres|].
  subst run. rewrite (evaluateStrategy_flat _ _ _ _ _ _ _ Hflat) in *.
  destruct (Indicators.calculateRSI _ _) as [rsi|]; [|reflexivity].
  destruct (Indicators.calculateATR _ _) as [atr|]; [|reflexivity].
  match goal with
  | |- context [Strategy.checkEntrySignals s r symbol price vwap ?slope atr rsi
                  vwapState now] =>
      destruct (checkEntrySignals_entryStep s r symbol price vwap slope atr rsi
                  vwapState now h t) as (events & Hw & Hstep)
  end.
  rewrite Hw. rewrite Hres in Hstep.
  destruct Hstep as [(_ & _ & ->) | (p & Hin & _)]; [apply app_nil_r|].
  exfalso. cbn [fst] in Hin.
  assert (Hsome : Strategy.positions s !! symbol = Some p)
    by (rewrite Hin; apply lookup_insert_eq).
  congruence.
Qed.

(** A pending long observed at 21:00 UTC, after the end of the regular
    session. *)
Lemma flat_instrument_witness :
  result
    (Strategy.evaluateStrategy (pendingLong (configWith regularHours) (clockAt 20 59))
       exampleLedger "SPY" 95 (1495000 # 15000) (Some exampleWindow)
       (clockAt 21 0)) host0 trace0
  = (pendingLong (configWith regularHours) (clockAt 20 59), exampleLedger).
Proof.
  assert (H := flat_instrument_needs_all_checks
                 (pendingLong (configWith regularHours) (clockAt 20 59))
                 exampleLedger "SPY" 95 (1495000 # 15000) exampleWindow
                 (clockAt 21 0) host0 trace0).
  specialize (H ltac:(reflexivity) ltac:(vm_compute; reflexivity)).
  cbv zeta in H. destruct H as [Hres _]. exact Hres.
Defined.

(** X21.  Without a window, with fewer than 15 retained samples (what
    the ATR of period 14 needs) or with fewer than [rsi_period + 1],
    [evaluateStrategy] returns its inputs unchanged and has no effect at
    all: no line is written and neither oracle is consulted, whatever
    the positions, the price and the time. *)
Theorem evaluateStrategy_needs_indicators (s : Strategy.StrategyState)
    (r : Risk.RiskState) (symbol : string) (price vwap : Q)
    (vwapState : option Vwap.VWAPState) (now : Z) (h : Host) (t : Trace) :
  match vwapState with
  | None => True
  | Some w =>
      (length (Vwap.dataPoints w) < 15)%nat
      \/ (length (Vwap.dataPoints w)
          < Strategy.rsiPeriodOf (Strategy.filtersConfig s) + 1)%nat
  end ->
  Strategy.evaluateStrategy s r symbol price vwap vwapState now h t
  = ((s, r), t).
Proof.
  destruct vwapState as [w|]; [|reflexivity].
  intros [Hatr | Hrsi]; unfold Strategy.evaluateStrategy; cbv zeta.
  - rewrite (calculateATR_short _ 14 Hatr).
    destruct (Indicators.calculateRSI _ _); reflexivity.
  - unfold Indicators.calculateRSI at 1. rewrite length_map.
    apply Nat.ltb_lt in Hrsi. rewrite Hrsi. reflexivity.
Qed.

(** The held long of the examples at 20:57 UTC on a window of one
    sample. *)
Lemma needs_indicators_witness :
  Strategy.evaluateStrategy heldStrategy heldLedger "SPY" 96 96
    (Some shortWindow) (clockAt 20 57) host0 trace0
  = ((heldStrategy, heldLedger), trace0).
Proof.
  apply (evaluateStrategy_needs_indicators heldStrategy heldLedger "SPY" 96 96
           (Some shortWindow) (clockAt 20 57) host0 trace0).
  left. vm_compute. lia.
Defined.

(** X20.  A new signal.  For a flat instrument with no pending signal,
    on a call whose checks all pass: a long setup (deviation below minus
    the entry threshold and RSI below [rsi_oversold], 40 by default) is
    looked at first, a short setup (deviation above the threshold and RSI
    above [rsi_overbought], 60 by default) second.  Without a setup the
    inputs are returned unchanged.  With one, an entry at the current
    price is made at once only when [require_confirmation] is set to
    false; when it is true or absent, no position is opened, the ledger
    is untouched and a pending signal of that type is stored with the
    current time and price. *)
Theorem new_signal_waits_for_confirmation (s : Strategy.StrategyState)
    (r : Risk.RiskState) (symbol : string) (price vwap : Q)
    (vwapState : Vwap.VWAPState) (now : Z) (h : Host) (t : Trace) (rsi : Q) :
  Strategy.positions s !! symbol = None ->
  Strategy.pendingSignals s !! symbol = None ->
  reachesConfirmation s r price vwapState now h t = true ->
  Indicators.calculateRSI (map Vwap.price (Vwap.dataPoints vwapState))
    (Strategy.rsiPeriodOf (Strategy.filtersConfig s)) = Some rsi ->
  let after :=
    result
      (Strategy.evaluateStrategy s r symbol price vwap (Some vwapState) now)
      h t in
  let vwapConfig := Config.vwap (Config.strategy (Strategy.config s)) in
  let filters := Strategy.filtersConfig s in
  let deviation := jsdiv (price - vwap) vwap in
  let longSetup :=
    (xlt_q deviation (- Config.entry_threshold vwapConfig)
     && Qltb rsi (num_or (Config.rsi_oversold filters) 40))%bool in
  let shortSetup :=
    (xgt_q deviation (Config.entry_threshold vwapConfig)
     && Qltb (num_or (Config.rsi_overbought filters) 60) rsi)%bool in
  let signal :=
    if longSetup then Some (Strategy.potential_long, long)
    else if shortSetup then Some (Strategy.potential_short, short)
    else None in
  match signal with
  | None => after = (s, r)
  | Some (type, side) =>
      (Config.require_confirmation vwapConfig = Some false ->
       Strategy.pendingSignals (fst after) !! symbol = None
       /\ exists p,
            Strategy.positions (fst after) !! symbol = Some p
            /\ Strategy.side p = side /\ Strategy.entryPrice p = price
            /\ Strategy.entryTime p = now
            /\ is_Some (Risk.positions (snd after) !! symbol))
      /\ (Config.require_confirmation vwapConfig <> Some false ->
          Strategy.positions (fst after) = Strategy.positions s
          /\ snd after = r
          /\ Strategy.pendingSignals (fst after) !! symbol
             = Some (Strategy.mkPendingSignal type now price))
  end.
Proof.
  intros Hflat Hnone Hreach Hrsi after vwapConfig filters deviation longSetup
    shortSetup signal.
  subst after. rewrite (evaluateStrategy_flat _ _ _ _ _ _ _ Hflat).
  unfold reachesConfirmation in Hreach. cbv zeta in Hreach.
  rewrite Hrsi in *.
  destruct (Indicators.calculateATR _ _) as [atr|]; [|discriminate].
  unfold Strategy.checkEntrySignals. cbv zeta. rewrite result_bind.
  destruct (result (Risk.canOpenPosition r now) h t); cbn [negb andb] in *;
    [|discriminate].
  rewrite result_bind.
  destruct (Strategy.beforeStart _ now); cbn [negb andb] in *; [discriminate|].
  destruct (Strategy.afterEnd _ now); cbn [negb andb] in *; [discriminate|].
  destruct (Strategy.lowVolume _ vwapState); cbn [negb andb] in *;
    [discriminate|].
  destruct (Strategy.lowVolatility _ atr price); cbn [negb andb] in *;
    [discriminate|].
  destruct (Strategy.choppy _ vwapState); cbn [negb andb] in *;
    [discriminate|].
  rewrite Hnone. fold vwapConfig filters deviation longSetup shortSetup.
  subst signal.
  match goal with
  | |- context [result (if longSetup then _ else _) h ?u] => set (t2 := u)
  end.
  assert (Hpending : forall type l,
            Config.require_confirmation vwapConfig <> Some false ->
            let after :=
              result
                (emit l;;
                 mret (Strategy.withPendingSignals s
                         (<[symbol := Strategy.mkPendingSignal type now price]>
                            (Strategy.pendingSignals s)), r)) h t2 in
            Strategy.positions (fst after) = Strategy.positions s
            /\ snd after = r
            /\ Strategy.pendingSignals (fst after) !! symbol
               = Some (Strategy.mkPendingSignal type now price)).
  { intros type l _ after. subst after. rewrite result_bind, result_mret.
    cbn [fst snd Strategy.positions Strategy.pendingSignals
         Strategy.withPendingSignals].
    rewrite lookup_insert_eq. auto. }
  destruct longSetup.
  - destruct (Config.require_confirmation vwapConfig) as [[|]|] eqn:Hconf.
    + split; [discriminate | apply Hpending; discriminate].
    + split; [intros _ | congruence].
      destruct (enterLongPosition_entry s r symbol price now h t2)
        as (p & Hres & _ & _ & Hside & Hprice & _ & Htime & _).
      rewrite Hres.
      cbn [fst snd Strategy.positions Strategy.pendingSignals
           Strategy.withPositions Risk.positions Risk.recordPosition].
      split; [exact Hnone|]. exists p. rewrite !lookup_insert_eq.
      repeat split; auto; eexists; reflexivity.
    + split; [discriminate | apply Hpending; discriminate].
  - destruct shortSetup; [|reflexivity].
    destruct (Config.require_confirmation vwapConfig) as [[|]|] eqn:Hconf.
    + split; [discriminate | apply Hpending; discriminate].
    + split; [intros _ | congruence].
      destruct (enterShortPosition_entry s r symbol price now h t2)
        as (p & Hres & _ & _ & Hside & Hprice & _ & Htime & _).
      rewrite Hres.
      cbn [fst snd Strategy.positions Strategy.pendingSignals
           Strategy.withPositions Risk.positions Risk.recordPosition].
      split; [exact Hnone|]. exists p. rewrite !lookup_insert_eq.
      repeat split; auto; eexists; reflexivity.
    + split; [discriminate | apply Hpending; discriminate].
Qed.

(** The example window (fourteen samples at 100, then 95) with
    confirmation disabled: the deviation of 95 from the VWAP is below
    -2% and the RSI is 0, so a long is entered at once. *)
Lemma new_signal_witness :
  exists p,
    Strategy.positions
      (fst (result
              (Strategy.evaluateStrategy
                 (Strategy.createStrategyState exampleConfig) exampleLedger
                 "SPY" 95 (1495000 # 15000) (Some exampleWindow)
                 (clockAt 15 14)) host0 trace0)) !! "SPY" = Some p
    /\ Strategy.side p = long.
Proof.
  assert (H := new_signal_waits_for_confirmation
                 (Strategy.createStrategyState exampleConfig) exampleLedger
                 "SPY" 95 (1495000 # 15000) exampleWindow (clockAt 15 14)
                 host0 trace0 (0 # 70)).
  specialize (H ltac:(reflexivity) ltac:(reflexivity)
                ltac:(vm_compute; reflexivity) ltac:(vm_compute; reflexivity)).
  cbv zeta in H.
  match type of H with
  | match (if ?b then _ else _) with _ => _ end =>
      replace b with true in H by (vm_compute; reflexivity)
  end.
  destruct H as [Hnow _].
  destruct (Hnow ltac:(reflexivity)) as (_ & p & Hp & Hside & _).
  exists p. split; assumption.
Defined.

(** ** Further properties: the replay *)

(** One iteration of the loop, by cases: the window is updated; then
    either nothing else changes (no VWAP yet), or the strategy is
    evaluated on the ledger after the daily reset, a trade is appended
    exactly when the position of the instrument disappears, and the
    maximum drawdown stays or grows. *)
Lemma barStep_cases tz symbol config (i : nat) prev bar (a : Backtest.Loop) h t :
  let a' := result (Backtest.barStep tz symbol config i prev bar a) h t in
  let r :=
    result (Risk.checkDailyReset tz (Backtest.riskState a)
              (Backtest.Timestamp bar)) h t in
  exists w u,
    (w = Backtest.vwapState a
     \/ (w = Vwap.createVWAPState 0
         /\ Config.period (Config.vwap (Config.strategy config)) = 0%nat))
    /\ Backtest.vwapState a'
       = result (Vwap.updateVWAP w
                   (Backtest.ClosePrice bar) (Backtest.Volume bar)
                   (Some (Backtest.HighPrice bar)) (Some (Backtest.LowPrice bar)))
           h u
    /\ ((Backtest.strategyState a' = Backtest.strategyState a
         /\ Backtest.riskState a' = r
         /\ Backtest.tradesSoFar a' = Backtest.tradesSoFar a
         /\ Backtest.maxDrawdownSoFar a' = Backtest.maxDrawdownSoFar a)
        \/ exists currentVWAP,
             let after :=
               result
                 (Strategy.evaluateStrategy (Backtest.strategyState a) r symbol
                    (Backtest.ClosePrice bar) currentVWAP
                    (Some (Backtest.vwapState a')) (Backtest.Timestamp bar))
                 h t in
             Backtest.strategyState a' = fst after
             /\ Backtest.riskState a' = snd after
             /\ (Backtest.maxDrawdownSoFar a' = Backtest.maxDrawdownSoFar a
                 \/ Backtest.maxDrawdownSoFar a < Backtest.maxDrawdownSoFar a')
             /\ match Strategy.positions (Backtest.strategyState a) !! symbol,
                      Strategy.positions (fst after) !! symbol with
                | Some _, None =>
                    exists trade,
                      Backtest.tradesSoFar a' = Backtest.tradesSoFar a ++ [trade]
                      /\ Backtest.pnl trade
                         = Risk.dailyPnL (snd after) - Risk.dailyPnL r
                | _, _ => Backtest.tradesSoFar a' = Backtest.tradesSoFar a
                end).
Proof.
  intros a' r. subst a'. unfold Backtest.barStep. cbv zeta.
  rewrite !result_bind. fold r.
  set (u := snd (Risk.checkDailyReset tz _ _ h t)).
  set (w := match prev with Some _ => _ | None => Backtest.vwapState a end).
  assert (Hw : w = Backtest.vwapState a
               \/ (w = Vwap.createVWAPState 0
                   /\ Config.period (Config.vwap (Config.strategy config))
                      = 0%nat)).
  { subst w. destruct prev as [prevBar|]; [|left; reflexivity].
    destruct (negb _) ; cbn [andb]; [|left; reflexivity].
    destruct (Nat.eqb_spec (Config.period (Config.vwap (Config.strategy config))) 0);
      [right; auto | left; reflexivity]. }
  exists w, u. split; [exact Hw|]. clearbody w.
  set (v := result (Vwap.updateVWAP _ _ _ _ _) h u).
  destruct (Vwap.getVWAP v) as [currentVWAP|].
  - rewrite !result_bind.
    match goal with
    | |- context [result (Strategy.evaluateStrategy ?s ?q ?sy ?p ?vw ?w ?n) ?h0 ?u0] =>
        rewrite (evaluateStrategy_hostFree s q sy p vw w n h0 u0 h t)
    end.
    destruct (result (Strategy.evaluateStrategy _ _ _ _ _ _ _) h t)
      as [newStrategyState newRiskState] eqn:Hafter.
    rewrite result_mret.
    cbn [Backtest.vwapState Backtest.strategyState Backtest.riskState
         Backtest.tradesSoFar Backtest.maxDrawdownSoFar].
    split; [reflexivity|]. right. exists currentVWAP.
    cbv zeta. rewrite Hafter. cbn [fst snd].
    split; [reflexivity|]. split; [reflexivity|]. split.
    + destruct (Qltb (Backtest.maxDrawdownSoFar a) _) eqn:Hdd;
        [right; apply Qltb_lt, Hdd | left; reflexivity].
    + destruct (Strategy.positions (Backtest.strategyState a) !! symbol);
        [|reflexivity].
      destruct (Strategy.positions newStrategyState !! symbol); [reflexivity|].
      eexists. split; reflexivity.
  - rewrite result_mret.
    cbn [Backtest.vwapState Backtest.strategyState Backtest.riskState
         Backtest.tradesSoFar Backtest.maxDrawdownSoFar].
    split; [reflexivity|]. left. repeat split.
Qed.

Lemma barLoop_drawdown tz symbol config bars :
  forall (i : nat) prev (a : Backtest.Loop) h t,
  0 <= Backtest.maxDrawdownSoFar a ->
  0 <= Backtest.maxDrawdownSoFar
         (result (Backtest.barLoop tz symbol config i prev bars a) h t).
Proof.
  induction bars as [|bar rest IH]; intros i prev a h t Ha.
  - exact Ha.
  - cbn [Backtest.barLoop]. rewrite result_bind. apply IH.
    destruct (barStep_cases tz symbol config i prev bar a h t)
      as (w & u & _ & _ & [(_ & _ & _ & Hdd) | (vw & _ & _ & Hdd & _)]).
    + rewrite Hdd. exact Ha.
    + destruct Hdd as [-> | Hlt]; [exact Ha|].
      apply Qlt_le_weak. eapply Qle_lt_trans; [exact Ha | exact Hlt].
Qed.

Lemma win_loss_partition (trades : list Backtest.TradeRecord) :
  (length (filter (fun trade => Qltb 0 (Backtest.pnl trade) = true) trades)
   + length (filter (fun trade => Qle_bool (Backtest.pnl trade) 0 = true) trades)
   = length trades)%nat.
Proof.
  induction trades as [|trade trades IH]; [reflexivity|].
  rewrite !filter_cons.
  destruct (decide (Qltb 0 (Backtest.pnl trade) = true)) as [Hwin|Hwin];
    destruct (decide (Qle_bool (Backtest.pnl trade) 0 = true)) as [Hloss|Hloss];
    cbn [length]; try lia; exfalso; unfold Qltb in Hwin;
    destruct (Qle_bool (Backtest.pnl trade) 0); cbn [negb] in Hwin; congruence.
Qed.

Lemma runBacktest_result tz symbol bars config h t :
  result (Backtest.runBacktest tz symbol bars config) h t
  = Backtest.summarize (result (Backtest.runLoop tz symbol bars config) h t).
Proof.
  unfold Backtest.runBacktest. rewrite result_bind, result_mret. reflexivity.
Qed.

(** X22.  The report of [runBacktest] is well formed for every list of
    bars and every configuration: [totalTrades] is the number of trades
    listed and the sum of [winningTrades] and [losingTrades] (a trade
    with P&L 0 counts as losing), [winRate] lies between 0 and 100 and is
    0 when there is no trade, and [maxDrawdown] is never negative. *)
Theorem report_is_well_formed (tz : Z) (symbol : string)
    (bars : list Backtest.Bar) (config : Config.Config) (h : Host) (t : Trace) :
  let report := result (Backtest.runBacktest tz symbol bars config) h t in
  Backtest.totalTrades report = length (Backtest.trades report)
  /\ Backtest.totalTrades report
     = (Backtest.winningTrades report + Backtest.losingTrades report)%nat
  /\ 0 <= Backtest.winRate report <= 100
  /\ (Backtest.trades report = [] -> Backtest.winRate report = 0)
  /\ 0 <= Backtest.maxDrawdown report.
Proof.
  intros report. subst report. rewrite runBacktest_result.
  set (a := result (Backtest.runLoop tz symbol bars config) h t).
  assert (Hdd : 0 <= Backtest.maxDrawdownSoFar a).
  { subst a. unfold Backtest.runLoop. rewrite !result_bind.
    apply barLoop_drawdown. cbn. lra. }
  unfold Backtest.summarize. cbv zeta.
  cbn [Backtest.totalTrades Backtest.trades Backtest.winningTrades
       Backtest.losingTrades Backtest.winRate Backtest.maxDrawdown].
  pose proof (win_loss_partition (Backtest.tradesSoFar a)) as Hpart.
  set (wins := length (filter _ (Backtest.tradesSoFar a))) in *.
  split; [reflexivity|]. split; [symmetry; exact Hpart|].
  split; [|split; [|exact Hdd]].
  - destruct (Nat.ltb_spec 0 (length (Backtest.tradesSoFar a))) as [Hn|Hn];
      [|lra].
    assert (Hpos : 0 < inject_Z (Z.of_nat (length (Backtest.tradesSoFar a)))).
    { change 0 with (inject_Z 0). rewrite <- Zlt_Qlt. lia. }
    assert (Hw : 0 <= inject_Z (Z.of_nat wins)).
    { change 0 with (inject_Z 0). rewrite <- Zle_Qle. lia. }
    assert (Hle : inject_Z (Z.of_nat wins)
                  <= inject_Z (Z.of_nat (length (Backtest.tradesSoFar a)))).
    { rewrite <- Zle_Qle. lia. }
    set (n := inject_Z (Z.of_nat (length (Backtest.tradesSoFar a)))) in *.
    set (k := inject_Z (Z.of_nat wins)) in *.
    assert (H0 : 0 <= k / n).
    { apply Qle_shift_div_l; [exact Hpos | lra]. }
    assert (H1 : k / n <= 1).
    { apply Qle_shift_div_r; [exact Hpos | lra]. }
    lra.
  - intros ->. reflexivity.
Qed.

(** What [evaluateStrategy] does to the ledger: it never moves the
    reset boundary, and it changes the day's P&L only when it closes the
    position of the instrument. *)
Lemma evaluateStrategy_ledger s r symbol (price vwap : Q) vwapState (now : Z)
    h t :
  let after :=
    result (Strategy.evaluateStrategy s r symbol price vwap vwapState now) h t in
  Risk.dailyResetTime (snd after) = Risk.dailyResetTime r
  /\ match Strategy.positions s !! symbol,
           Strategy.positions (fst after) !! symbol with
     | Some _, None => True
     | _, _ => Risk.dailyPnL (snd after) = Risk.dailyPnL r
     end.
Proof.
  intros after. subst after.
  assert (Hnothing :
    Risk.dailyResetTime (snd (result (mret (s, r)) h t)) = Risk.dailyResetTime r
    /\ match Strategy.positions s !! symbol,
             Strategy.positions (fst (result (mret (s, r)) h t)) !! symbol with
       | Some _, None => True
       | _, _ => Risk.dailyPnL (snd (result (mret (s, r)) h t)) = Risk.dailyPnL r
       end).
  { rewrite result_mret. cbn [fst snd]. split; [reflexivity|].
    destruct (Strategy.positions s !! symbol); reflexivity. }
  unfold Strategy.evaluateStrategy. cbv zeta.
  destruct vwapState as [w|]; [|exact Hnothing].
  destruct (Indicators.calculateRSI _ _) as [rsi|]; [|exact Hnothing].
  destruct (Indicators.calculateATR _ _) as [atr|]; [|exact Hnothing].
  clear Hnothing.
  assert (Hexit : forall position reason,
    Strategy.positions s !! symbol = Some position ->
    let after :=
      result (Strategy.exitPosition s r symbol price reason
                (Strategy.calculatePnL position price) now) h t in
    Risk.dailyResetTime (snd after) = Risk.dailyResetTime r
    /\ match Strategy.positions (fst after) !! symbol with
       | None => True
       | Some _ => Risk.dailyPnL (snd after) = Risk.dailyPnL r
       end).
  { intros position reason Hpos after. subst after.
    rewrite (exitPosition_result _ _ _ _ _ _ _ _ _ _ Hpos).
    cbn [fst snd Strategy.positions Strategy.withPositions].
    rewrite lookup_delete_eq, closePosition_result. split; reflexivity. }
  destruct (Strategy.positions s !! symbol) as [position|] eqn:Hpos.
  - destruct (Strategy.eodForceExit now).
    + apply Hexit. reflexivity.
    + destruct (managePosition_cases s r symbol price vwap position now)
        as [(reason & _ & ->) | (_ & [-> | (old & new & _ & _ & ->)])].
      * apply Hexit. reflexivity.
      * rewrite result_mret. cbn [fst snd]. rewrite Hpos. auto.
      * rewrite result_mret.
        cbn [fst snd Strategy.positions Strategy.withPositions].
        rewrite lookup_insert_eq. auto.
  - match goal with
    | |- context [Strategy.checkEntrySignals s r symbol price vwap ?slope atr rsi w now] =>
        destruct (checkEntrySignals_entryStep s r symbol price vwap slope atr
                    rsi w now h t) as (events & _ & Hstep)
    end.
    destruct Hstep as [(_ & -> & _) | (p & _ & -> & _)]; cbn [snd]; auto.
Qed.

Lemma sumPnL_snoc (trades : list Backtest.TradeRecord)
    (trade : Backtest.TradeRecord) :
  sumPnL (trades ++ [trade]) == sumPnL trades + Backtest.pnl trade.
Proof.
  induction trades as [|first trades IH]; cbn [app sumPnL fold_right].
  - ring.
  - unfold sumPnL in IH. rewrite IH. ring.
Qed.

(** One bar before the reset boundary keeps the boundary, and keeps the
    day's P&L equal to the sum over the trades listed so far. *)
Lemma barStep_pnl tz symbol config (i : nat) prev bar (a : Backtest.Loop) h t :
  (Backtest.Timestamp bar < Risk.dailyResetTime (Backtest.riskState a))%Z ->
  Risk.dailyPnL (Backtest.riskState a) == sumPnL (Backtest.tradesSoFar a) ->
  let a' := result (Backtest.barStep tz symbol config i prev bar a) h t in
  Risk.dailyResetTime (Backtest.riskState a')
  = Risk.dailyResetTime (Backtest.riskState a)
  /\ Risk.dailyPnL (Backtest.riskState a') == sumPnL (Backtest.tradesSoFar a').
Proof.
  intros Hbefore Hsum a'.
  destruct (barStep_cases tz symbol config i prev bar a h t)
    as (w & u & _ & _ & Hcases).
  fold a' in Hcases.
  rewrite (checkDailyReset_before tz _ _ h t Hbefore) in Hcases.
  destruct Hcases as [(_ & -> & -> & _) | (vw & Hcase)].
  - split; [reflexivity | exact Hsum].
  - cbv zeta in Hcase. destruct Hcase as (_ & -> & _ & Htrades).
    match type of Htrades with
    | context [result (Strategy.evaluateStrategy ?s ?r ?sy ?p ?v ?ws ?n) h t] =>
        destruct (evaluateStrategy_ledger s r sy p v ws n h t) as [Hreset Hpnl];
        set (after := result (Strategy.evaluateStrategy s r sy p v ws n) h t) in *
    end.
    split; [exact Hreset|].
    destruct (Strategy.positions (Backtest.strategyState a) !! symbol)
      as [had|].
    + destruct (Strategy.positions (fst after) !! symbol).
      * rewrite Htrades, Hpnl. exact Hsum.
      * destruct Htrades as (trade & -> & Htrade).
        rewrite sumPnL_snoc, Htrade, <- Hsum. ring.
    + rewrite Htrades, Hpnl. exact Hsum.
Qed.

Lemma barLoop_pnl tz symbol config bars :
  forall (i : nat) prev (a : Backtest.Loop) h t,
  Forall (fun bar =>
            (Backtest.Timestamp bar
             < Risk.dailyResetTime (Backtest.riskState a))%Z) bars ->
  Risk.dailyPnL (Backtest.riskState a) == sumPnL (Backtest.tradesSoFar a) ->
  let a' := result (Backtest.barLoop tz symbol config i prev bars a) h t in
  Risk.dailyPnL (Backtest.riskState a') == sumPnL (Backtest.tradesSoFar a').
Proof.
  induction bars as [|bar rest IH]; intros i prev a h t Hday Hsum.
  - exact Hsum.
  - cbn [Backtest.barLoop]. cbv zeta. rewrite result_bind.
    apply Forall_cons in Hday as [Hbar Hrest].
    destruct (barStep_pnl tz symbol config i prev bar a h t Hbar Hsum)
      as [Hreset Hsum'].
    apply IH; [|exact Hsum']. rewrite Hreset. exact Hrest.
Qed.

(** X23.  When every bar lies on the local day of the first one (before
    the next local midnight), the [totalPnL] that [runBacktest] reports
    is the sum of the P&L of the trades it lists.  (The report takes
    [totalPnL] from the day's P&L of the ledger, which the daily reset
    zeroes.) *)
Theorem totalPnL_sums_trades_within_a_day (tz : Z) (symbol : string)
    (bars : list Backtest.Bar) (config : Config.Config) (h : Host) (t : Trace) :
  match bars with
  | [] => True
  | first :: _ =>
      Forall (fun bar =>
                (Backtest.Timestamp bar
                 < nextLocalMidnight tz (Backtest.Timestamp first))%Z) bars
  end ->
  let report := result (Backtest.runBacktest tz symbol bars config) h t in
  Backtest.totalPnL report == sumPnL (Backtest.trades report).
Proof.
  intros Hday report. subst report. rewrite runBacktest_result.
  unfold Backtest.summarize. cbv zeta.
  cbn [Backtest.totalPnL Backtest.trades].
  unfold Backtest.runLoop. rewrite !result_bind.
  apply barLoop_pnl; [|reflexivity].
  destruct bars as [|first rest]; [constructor|].
  rewrite result_mret. exact Hday.
Qed.

(** A replay with one round trip: a long opened at 95 on the fifteenth
    bar is closed at 97 on the sixteenth, for a P&L of 20. *)
Lemma totalPnL_witness :
  let report :=
    result (Backtest.runBacktest 0 "SPY" roundTripBars exampleConfig)
      host0 trace0 in
  map Backtest.pnl (Backtest.trades report) = [97 * 10 - 95 * 10]
  /\ Backtest.totalPnL report == sumPnL (Backtest.trades report).
Proof.
  intros report. split.
  - vm_compute. reflexivity.
  - apply (totalPnL_sums_trades_within_a_day 0 "SPY" roundTripBars
             exampleConfig host0 trace0).
    hnf. refine (bool_decide_unpack _ _). vm_compute. exact I.
Defined.

(** A rolling window within its period stays within it. *)
Lemma updateVWAP_bounded w (price volume : Q) high low h u :
  (0 < Vwap.period w)%nat ->
  (length (Vwap.dataPoints w) <= Vwap.period w)%nat ->
  let v := result (Vwap.updateVWAP w price volume high low) h u in
  Vwap.period v = Vwap.period w
  /\ (length (Vwap.dataPoints v) <= Vwap.period v)%nat.
Proof.
  intros Hpos Hlen v. subst v. unfold Vwap.updateVWAP.
  rewrite result_bind. cbv zeta.
  destruct (Nat.ltb_spec 0 (Vwap.period w)) as [_|]; [|lia].
  rewrite length_app. cbn [length andb].
  destruct (Nat.ltb_spec (Vwap.period w) (length (Vwap.dataPoints w) + 1))
    as [Hfull|Hroom]; rewrite result_mret; cbn [Vwap.period Vwap.dataPoints].
  - split; [reflexivity|].
    destruct (Vwap.dataPoints w); cbn [app tl length] in *;
      rewrite ?length_app; cbn [length]; lia.
  - split; [reflexivity|]. rewrite length_app. cbn [length]. lia.
Qed.

(** One bar on a rolling window of fewer than 15 samples: the strategy
    state and the trade list stay as they are, and nothing reaches the
    trade log. *)
Lemma barStep_small_window tz symbol config (i : nat) prev bar
    (a : Backtest.Loop) h t :
  let p := Config.period (Config.vwap (Config.strategy config)) in
  (0 < p < 15)%nat ->
  Vwap.period (Backtest.vwapState a) = p ->
  (length (Vwap.dataPoints (Backtest.vwapState a)) <= p)%nat ->
  let a' := result (Backtest.barStep tz symbol config i prev bar a) h t in
  Vwap.period (Backtest.vwapState a') = p
  /\ (length (Vwap.dataPoints (Backtest.vwapState a')) <= p)%nat
  /\ Backtest.strategyState a' = Backtest.strategyState a
  /\ Backtest.tradesSoFar a' = Backtest.tradesSoFar a
  /\ (Risk.dailyPnL (Backtest.riskState a) = 0 ->
      Risk.dailyPnL (Backtest.riskState a') = 0)
  /\ tradeEvents (written (Backtest.barStep tz symbol config i prev bar a) h t)
     = tradeEvents (output t).
Proof.
  intros p Hp Hperiod Hlen a'. subst a'. unfold Backtest.barStep. cbv zeta.
  fold p.
  set (w := match prev with Some _ => _ | None => Backtest.vwapState a end).
  assert (Hw : w = Backtest.vwapState a).
  { subst w. destruct prev as [prevBar|]; [|reflexivity].
    destruct (Nat.eqb_spec p 0) as [|_]; [lia|].
    rewrite andb_false_r. reflexivity. }
  clearbody w. subst w.
  rewrite !result_bind, !written_bind.
  set (t1 := snd (Risk.checkDailyReset tz _ _ h t)).
  assert (Ht1 : tradeEvents (output t1) = tradeEvents (output t))
    by apply checkDailyReset_written.
  set (r := result (Risk.checkDailyReset tz _ _) h t).
  assert (Hr : Risk.dailyPnL (Backtest.riskState a) = 0 -> Risk.dailyPnL r = 0).
  { intros Hzero. subst r. unfold Risk.checkDailyReset.
    destruct (_ <? _)%Z; [exact Hzero|].
    cbv zeta. rewrite result_bind, result_mret. reflexivity. }
  destruct (updateVWAP_bounded (Backtest.vwapState a) (Backtest.ClosePrice bar)
              (Backtest.Volume bar) (Some (Backtest.HighPrice bar))
              (Some (Backtest.LowPrice bar)) h t1 ltac:(lia) ltac:(lia))
    as [Hperiod' Hlen'].
  pose proof (updateVWAP_written (Backtest.vwapState a) (Backtest.ClosePrice bar)
                (Backtest.Volume bar) (Some (Backtest.HighPrice bar))
                (Some (Backtest.LowPrice bar)) h t1) as Hout.
  unfold written in Hout.
  set (v := result (Vwap.updateVWAP (Backtest.vwapState a) _ _ _ _) h t1) in *.
  set (t2 := snd (Vwap.updateVWAP (Backtest.vwapState a) _ _ _ _ h t1)) in *.
  destruct (Vwap.getVWAP v) as [currentVWAP|].
  - rewrite (evaluateStrategy_short _ _ _ _ _ v) by lia.
    rewrite !result_bind, !written_bind, !result_mret, written_mret.
    cbn [Backtest.strategyState Backtest.tradesSoFar Backtest.vwapState
         Backtest.riskState].
    split; [lia|]. split; [lia|]. split; [reflexivity|]. split.
    { destruct (Strategy.positions (Backtest.strategyState a) !! symbol);
        reflexivity. }
    split; [exact Hr|].
    destruct (i mod 1000 =? 0)%nat; cbn [when emit mret M_ret ret snd output];
      rewrite ?tradeEvents_app, Hout, Ht1; cbn; rewrite ?app_nil_r; reflexivity.
  - rewrite result_mret, written_mret.
    cbn [Backtest.strategyState Backtest.tradesSoFar Backtest.vwapState
         Backtest.riskState].
    split; [lia|]. split; [lia|]. split; [reflexivity|].
    split; [reflexivity|]. split; [exact Hr|]. rewrite Hout. exact Ht1.
Qed.

Lemma barLoop_small_window tz symbol config bars :
  let p := Config.period (Config.vwap (Config.strategy config)) in
  (0 < p < 15)%nat ->
  forall (i : nat) prev (a : Backtest.Loop) h t,
  Vwap.period (Backtest.vwapState a) = p ->
  (length (Vwap.dataPoints (Backtest.vwapState a)) <= p)%nat ->
  let a' := result (Backtest.barLoop tz symbol config i prev bars a) h t in
  Backtest.strategyState a' = Backtest.strategyState a
  /\ Backtest.tradesSoFar a' = Backtest.tradesSoFar a
  /\ (Risk.dailyPnL (Backtest.riskState a) = 0 ->
      Risk.dailyPnL (Backtest.riskState a') = 0)
  /\ tradeEvents (written (Backtest.barLoop tz symbol config i prev bars a) h t)
     = tradeEvents (output t).
Proof.
  intros p Hp.
  induction bars as [|bar rest IH]; intros i prev a h t Hperiod Hlen.
  - repeat split. auto.
  - cbn [Backtest.barLoop]. cbv zeta. rewrite result_bind, written_bind.
    destruct (barStep_small_window tz symbol config i prev bar a h t Hp
                Hperiod Hlen) as (Hperiod' & Hlen' & Hs & Ht & Hz & Hw).
    set (a1 := result (Backtest.barStep tz symbol config i prev bar a) h t) in *.
    set (t1 := snd (Backtest.barStep tz symbol config i prev bar a h t)) in *.
    destruct (IH (S i) (Some bar) a1 h t1 Hperiod' Hlen')
      as (Hs' & Ht' & Hz' & Hw').
    rewrite Hs', Ht', Hw', Hs, Ht. repeat split; auto.
Qed.

(** X24.  A rolling VWAP window of period 1 to 14 never trades.  The
    window then never holds the 15 samples the ATR needs, so on any bars
    [runBacktest] opens no position, lists no trade and writes no trade
    record. *)
Theorem short_rolling_window_never_trades (tz : Z) (symbol : string)
    (bars : list Backtest.Bar) (config : Config.Config) (h : Host) (t : Trace) :
  (0 < Config.period (Config.vwap (Config.strategy config)) < 15)%nat ->
  let run := Backtest.runLoop tz symbol bars config in
  let report := result (Backtest.runBacktest tz symbol bars config) h t in
  Backtest.trades report = []
  /\ Backtest.totalTrades report = 0%nat
  /\ Backtest.totalPnL report = 0
  /\ Strategy.positions (Backtest.strategyState (result run h t)) = ∅
  /\ tradeEvents (written run h t) = tradeEvents (output t).
Proof.
  intros Hp run report. subst report. rewrite runBacktest_result. fold run.
  assert (Hrun : Backtest.strategyState (result run h t)
                 = Strategy.createStrategyState config
                 /\ Backtest.tradesSoFar (result run h t) = []
                 /\ Risk.dailyPnL (Backtest.riskState (result run h t)) = 0
                 /\ tradeEvents (written run h t) = tradeEvents (output t)).
  { subst run. unfold Backtest.runLoop. rewrite !result_bind, !written_bind.
    match goal with
    | |- context [Backtest.barLoop _ _ _ _ _ _ (Backtest.initialLoop tz config ?st)] =>
        set (start := st)
    end.
    match goal with
    | |- context [result (Backtest.barLoop _ _ _ _ _ _ _) h ?u] => set (t1 := u)
    end.
    destruct (barLoop_small_window tz symbol config bars Hp 0%nat None
                (Backtest.initialLoop tz config start) h t1)
      as (Hs & Ht & Hz & Hw); [reflexivity | cbn; lia |].
    rewrite Hs, Ht, Hw. split; [reflexivity|]. split; [reflexivity|].
    split; [apply Hz; reflexivity|].
    subst t1. destruct bars; cbn; rewrite ?tradeEvents_app; cbn;
      rewrite ?app_nil_r; reflexivity. }
  destruct Hrun as (Hs & Ht & Hz & Hw).
  unfold Backtest.summarize. cbv zeta.
  cbn [Backtest.trades Backtest.totalTrades Backtest.totalPnL].
  rewrite Hs, Ht, Hz. repeat split. exact Hw.
Qed.

(** The round-trip bars again, on a rolling window of period 14. *)
Lemma short_rolling_window_witness :
  Backtest.trades
    (result
       (Backtest.runBacktest 0 "SPY" roundTripBars (withPeriod exampleConfig 14))
       host0 trace0) = [].
Proof.
  assert (H := short_rolling_window_never_trades 0 "SPY" roundTripBars
                 (withPeriod exampleConfig 14) host0 trace0).
  specialize (H ltac:(cbn; lia)). cbv zeta in H.
  destruct H as [Hnone _]. exact Hnone.
Defined.

(** ** Further properties: what a decision does not read *)

(** X25.  The VWAP slope only reaches the log.  For a flat instrument,
    [checkEntrySignals] returns the same states and writes the same
    trade records whatever slope it is given: the value
    [calculateVWAPSlope] computes appears in one sampled log line and in
    no decision. *)
Theorem vwap_slope_only_reaches_the_log (s : Strategy.StrategyState)
    (r : Risk.RiskState) (symbol : string) (price vwap : Q)
    (slope1 slope2 : xnum) (atr rsi : Q) (vwapState : Vwap.VWAPState)
    (now : Z) (h : Host) (t : Trace) :
  Strategy.positions s !! symbol = None ->
  let run slope :=
    Strategy.checkEntrySignals s r symbol price vwap slope atr rsi vwapState
      now in
  result (run slope1) h t = result (run slope2) h t
  /\ tradeEvents (written (run slope1) h t)
     = tradeEvents (written (run slope2) h t).
Proof.
  intros Hflat run. subst run. cbv beta.
  assert (Hres :
    result (Strategy.checkEntrySignals s r symbol price vwap slope1 atr rsi
              vwapState now) h t
    = result (Strategy.checkEntrySignals s r symbol price vwap slope2 atr rsi
                vwapState now) h t).
  { unfold Strategy.checkEntrySignals. cbv zeta.
    rewrite !result_bind.
    destruct (result (Risk.canOpenPosition r now) h t); cbn [negb];
      [|reflexivity].
    rewrite !result_bind.
    match goal with
    | |- result ?k h ?u1 = result ?k h ?u2 =>
        assert (Hk : hostFree k) by host_free; apply Hk
    end. }
  split; [exact Hres|].
  destruct (checkEntrySignals_entryStep s r symbol price vwap slope1 atr rsi
              vwapState now h t) as (events1 & -> & Hstep1).
  destruct (checkEntrySignals_entryStep s r symbol price vwap slope2 atr rsi
              vwapState now h t) as (events2 & -> & Hstep2).
  cbv zeta in Hstep1, Hstep2. rewrite Hres in Hstep1. f_equal.
  set (after := result (Strategy.checkEntrySignals s r symbol price vwap slope2
                          atr rsi vwapState now) h t) in *.
  clearbody after.
  destruct Hstep1 as [(Hsame1 & _ & ->) | (p1 & Hin1 & _ & -> & _)];
    destruct Hstep2 as [(Hsame2 & _ & ->) | (p2 & Hin2 & _ & -> & _)];
    cbn [fst snd] in *.
  - reflexivity.
  - exfalso. rewrite Hsame1 in Hin2.
    assert (Hsome : Strategy.positions s !! symbol = Some p2)
      by (rewrite Hin2; apply lookup_insert_eq).
    congruence.
  - exfalso. rewrite Hsame2 in Hin1.
    assert (Hsome : Strategy.positions s !! symbol = Some p1)
      by (rewrite Hin1; apply lookup_insert_eq).
    congruence.
  - assert (Hp : Some p1 = Some p2).
    { rewrite <- (lookup_insert_eq (Strategy.positions s) symbol p1), <- Hin1,
        Hin2. apply lookup_insert_eq. }
    injection Hp as ->. reflexivity.
Qed.

Lemma vwap_slope_witness :
  result
    (Strategy.checkEntrySignals (Strategy.createStrategyState exampleConfig)
       exampleLedger "SPY" 95 (1495000 # 15000) (XFin 0) (5 # 14) (0 # 70)
       exampleWindow (clockAt 15 14)) host0 trace0
  = result
      (Strategy.checkEntrySignals (Strategy.createStrategyState exampleConfig)
         exampleLedger "SPY" 95 (1495000 # 15000) XNaN (5 # 14) (0 # 70)
         exampleWindow (clockAt 15 14)) host0 trace0.
Proof.
  assert (H := vwap_slope_only_reaches_the_log
                 (Strategy.createStrategyState exampleConfig) exampleLedger
                 "SPY" 95 (1495000 # 15000) (XFin 0) XNaN (5 # 14) (0 # 70)
                 exampleWindow (clockAt 15 14) host0 trace0).
  specialize (H ltac:(reflexivity)). cbv zeta in H.
  destruct H as [Hres _]. exact Hres.
Defined.

(** X26.  A held position is handled without the VWAP.  For an
    instrument with an open position, [evaluateStrategy] is the same
    computation whatever VWAP it is passed: exits are decided by the
    clock, the stop, the target and the trailing stop, and no exit is
    made on a reversion of the price to the VWAP. *)
Theorem held_position_ignores_vwap (s : Strategy.StrategyState)
    (r : Risk.RiskState) (symbol : string) (price vwap1 vwap2 : Q)
    (vwapState : option Vwap.VWAPState) (now : Z)
    (position : Strategy.Position) :
  Strategy.positions s !! symbol = Some position ->
  Strategy.evaluateStrategy s r symbol price vwap1 vwapState now
  = Strategy.evaluateStrategy s r symbol price vwap2 vwapState now.
Proof.
  intros Hpos. unfold Strategy.evaluateStrategy. cbv zeta.
  destruct vwapState as [w|]; [|reflexivity].
  destruct (Indicators.calculateRSI _ _); [|reflexivity].
  destruct (Indicators.calculateATR _ _); [|reflexivity].
  rewrite Hpos. reflexivity.
Qed.

Lemma held_position_witness :
  Strategy.evaluateStrategy heldStrategy heldLedger "SPY" 96 96
    (Some exampleWindow) (clockAt 15 30)
  = Strategy.evaluateStrategy heldStrategy heldLedger "SPY" 96 120
      (Some exampleWindow) (clockAt 15 30).
Proof.
  apply (held_position_ignores_vwap heldStrategy heldLedger "SPY" 96 96 120
           (Some exampleWindow) (clockAt 15 30) heldPosition).
  reflexivity.
Defined.

(** *** The session window *)

Lemma utc_clock (now : Z) :
  (0 <= getUTCHours now < 24)%Z /\ (0 <= getUTCMinutes now < 60)%Z
  /\ ((now mod msPerDay) / msPerMinute
      = getUTCHours now * 60 + getUTCMinutes now)%Z.
Proof.
  unfold getUTCHours, getUTCMinutes, msPerDay, msPerHour, msPerMinute.
  pose proof (Z.mod_pos_bound now 86400000 ltac:(lia)) as Hd.
  assert (Hm : (now mod 3600000 = (now mod 86400000) mod 3600000)%Z).
  { pose proof (Z.div_mod now 86400000 ltac:(lia)) as Hn.
    rewrite <- (Z.mod_add (now mod 86400000) (24 * (now / 86400000)) 3600000)
      by lia.
    f_equal. lia. }
  rewrite Hm.
  set (d := (now mod 86400000)%Z) in *.
  pose proof (Z.div_mod d 3600000 ltac:(lia)) as Hq.
  pose proof (Z.mod_pos_bound d 3600000 ltac:(lia)) as Hr.
  set (q := (d / 3600000)%Z) in *. set (m := (d mod 3600000)%Z) in *.
  assert (Hq24 : (0 <= q < 24)%Z).
  { subst q. split; [apply Z.div_pos; lia|].
    apply Z.div_lt_upper_bound; lia. }
  assert (Hm60 : (0 <= m / 60000 < 60)%Z).
  { split; [apply Z.div_pos; lia|]. apply Z.div_lt_upper_bound; lia. }
  split; [exact Hq24|]. split; [exact Hm60|].
  rewrite Hq. replace (3600000 * q + m)%Z with (q * 60 * 60000 + m)%Z by lia.
  rewrite Z.div_add_l by lia. reflexivity.
Qed.

(** X27.  The session window in UTC minutes.  With minutes between 0 and
    59 in the configured times, [checkEntrySignals] finds the time
    inside the session (neither before the start nor after the end)
    exactly when the minute of the UTC day lies from the start time plus
    five hours, inclusive, to the end time plus five hours, exclusive:
    the configured times are read as UTC-5 on every date. *)
Theorem session_window_in_utc_minutes (schedule : Config.Schedule)
    (startH startM endH endM now : Z) :
  Config.start_time schedule = (startH, startM) ->
  Config.end_time schedule = (endH, endM) ->
  (0 <= startM < 60)%Z -> (0 <= endM < 60)%Z ->
  let minuteOfDay := ((now mod msPerDay) / msPerMinute)%Z in
  (Strategy.beforeStart schedule now = false
   /\ Strategy.afterEnd schedule now = false)
  <-> ((startH + 5) * 60 + startM <= minuteOfDay
       < (endH + 5) * 60 + endM)%Z.
Proof.
  intros Hstart Hend HsM HeM minuteOfDay. subst minuteOfDay.
  destruct (utc_clock now) as (Hh & Hm & ->).
  unfold Strategy.beforeStart, Strategy.afterEnd. rewrite Hstart, Hend.
  set (H := getUTCHours now) in *. set (M := getUTCMinutes now) in *.
  rewrite !orb_false_iff, !andb_false_iff, !Z.ltb_ge, !Z.eqb_neq, Z.leb_gt.
  lia.
Qed.

(** The regular session (09:30 to 16:00) at 15:00 UTC. *)
Lemma session_window_witness :
  Strategy.beforeStart regularHours (clockAt 15 0) = false
  /\ Strategy.afterEnd regularHours (clockAt 15 0) = false.
Proof.
  apply (session_window_in_utc_minutes regularHours 9 30 16 0 (clockAt 15 0));
    try reflexivity; try lia.
  vm_compute. split; [discriminate | reflexivity].
Defined.

(** *** The session window of the replay *)

Lemma updateVWAP_fresh (price volume : Q) high low h u :
  map sampleOf
    (Vwap.dataPoints
       (result (Vwap.updateVWAP (Vwap.createVWAPState 0) price volume high low)
          h u))
  = [(price, volume)].
Proof. unfold Vwap.updateVWAP. rewrite result_bind. reflexivity. Qed.

(** X28.  The session window of the replay restarts with each local
    day.  With period 0, on the first bar whose local day of the month
    differs from that of the bar before, [runBacktest]'s loop drops the
    window and starts a new one from that bar alone: the window is the
    one reached from [createVWAPState 0] by that single sample.  On that
    bar the strategy state and the trade list stay as they are. *)
Theorem session_window_restarts_each_day (tz : Z) (symbol : string)
    (config : Config.Config) (i : nat) (prevBar bar : Backtest.Bar)
    (a : Backtest.Loop) (h : Host) (t : Trace) :
  Config.period (Config.vwap (Config.strategy config)) = 0%nat ->
  getDate tz (Backtest.Timestamp bar)
  <> getDate tz (Backtest.Timestamp prevBar) ->
  let a' :=
    result (Backtest.barStep tz symbol config i (Some prevBar) bar a) h t in
  let sample := (Backtest.ClosePrice bar, Backtest.Volume bar) in
  map sampleOf (Vwap.dataPoints (Backtest.vwapState a')) = [sample]
  /\ ingested 0 [sample] (Backtest.vwapState a')
  /\ Backtest.strategyState a' = Backtest.strategyState a
  /\ Backtest.tradesSoFar a' = Backtest.tradesSoFar a.
Proof.
  intros Hperiod Hday a' sample. subst a' sample.
  unfold Backtest.barStep. cbv zeta.
  apply Z.eqb_neq in Hday. rewrite Hday, Hperiod. cbn [negb andb Nat.eqb].
  rewrite !result_bind.
  set (t1 := snd (Risk.checkDailyReset tz _ _ h t)).
  pose proof (updateVWAP_fresh (Backtest.ClosePrice bar) (Backtest.Volume bar)
                (Some (Backtest.HighPrice bar)) (Some (Backtest.LowPrice bar))
                h t1) as Hfresh.
  pose proof (ingested_update 0 [] _ (Backtest.ClosePrice bar)
                (Backtest.Volume bar) (Some (Backtest.HighPrice bar))
                (Some (Backtest.LowPrice bar)) h t1 (ingested_create 0))
    as Hing.
  cbn [app] in Hing.
  set (v := result (Vwap.updateVWAP (Vwap.createVWAPState 0) _ _ _ _) h t1) in *.
  assert (Hlen : length (Vwap.dataPoints v) = 1%nat).
  { rewrite <- (length_map sampleOf), Hfresh. reflexivity. }
  destruct (Vwap.getVWAP v) as [currentVWAP|].
  - rewrite (evaluateStrategy_short _ _ _ _ _ v) by lia.
    rewrite !result_bind, !result_mret.
    cbn [Backtest.strategyState Backtest.tradesSoFar Backtest.vwapState].
    split; [exact Hfresh|]. split; [exact Hing|]. split; [reflexivity|].
    destruct (Strategy.positions (Backtest.strategyState a) !! symbol);
      reflexivity.
  - rewrite result_mret.
    cbn [Backtest.strategyState Backtest.tradesSoFar Backtest.vwapState].
    split; [exact Hfresh|]. split; [exact Hing|]. split; reflexivity.
Qed.

(** A bar at 15:00 UTC on 2025-01-03 after one at 15:00 UTC the day
    before. *)
Lemma session_restart_witness :
  map sampleOf
    (Vwap.dataPoints
       (Backtest.vwapState
          (result
             (Backtest.barStep 0 "SPY" exampleConfig 1
                (Some (Backtest.mkBar exampleOpen 100 100 100 1000))
                (Backtest.mkBar (exampleOpen + msPerDay) 101 101 101 2000)
                (Backtest.initialLoop 0 exampleConfig exampleOpen))
             host0 trace0)))
  = [(101, 2000)].
Proof.
  assert (H := session_window_restarts_each_day 0 "SPY" exampleConfig 1
                 (Backtest.mkBar exampleOpen 100 100 100 1000)
                 (Backtest.mkBar (exampleOpen + msPerDay) 101 101 101 2000)
                 (Backtest.initialLoop 0 exampleConfig exampleOpen)
                 host0 trace0).
  specialize (H ltac:(reflexivity) ltac:(intros E; vm_compute in E; discriminate)).
  cbv zeta in H. destruct H as [Hfresh _]. exact Hfresh.
Defined.
